(** * AI cricket coach: the analysis core, embedded and verified

    A shallow embedding of [analysis.py] (phase segmentation, aggregation,
    shot classification) and of [advice_engine.py] (single-attempt advice,
    two-attempt comparison).

    Numbers.  Python floats are embedded as exact rationals [Q]; integer
    literals of the source are the corresponding rationals.  Rounding error,
    infinities and NaN are outside the model.

    Library calls.  [math.atan2] followed by the conversion to degrees is not
    a rational function; it is taken as a parameter [atan2_deg].  The
    formatting of a float with one decimal ([format_1f]) and the draw of
    [random.choice] are parameters in the same way. *)

From Stdlib Require Import QArith Qabs Qminmax Qround ZArith String List Bool Sorted Lia Lqa.
From stdpp Require Import gmap strings.
Import ListNotations.

(** ** Python values on rationals *)
Module PyNum.

(** [a < b] and [a <= b] as the booleans Python computes. *)
Definition Qltb (a b : Q) : bool := negb (Qle_bool b a).
Definition Qleb (a b : Q) : bool := Qle_bool a b.

(** [sum(l)]: the left fold from 0. *)
Definition qsum (l : list Q) : Q := fold_left Qplus l 0%Q.

(** [len(l)] as a number. *)
Definition qlen {A} (l : list A) : Q := inject_Z (Z.of_nat (length l)).

(** [np.mean(l)].  On the empty list numpy yields NaN; every call of the
    source is guarded by a test that the list is not empty. *)
Definition np_mean (l : list Q) : Q := (qsum l / qlen l)%Q.

(** Truth value of a list: [if data]. *)
Definition truthy {A} (l : list A) : bool :=
  match l with [] => false | _ :: _ => true end.

(** [round(x, 1)]: nearest multiple of one tenth, ties to the even one. *)
Definition round_half_even (x : Q) : Z :=
  let f := Qfloor x in
  let r := (x - inject_Z f)%Q in
  if Qltb r (1 # 2) then f
  else if Qltb (1 # 2) r then (f + 1)%Z
  else if Z.even f then f else (f + 1)%Z.

Definition py_round1 (x : Q) : Q := (inject_Z (round_half_even (x * 10)) / 10)%Q.

(** Exceptions of the interpreter that the source can meet. *)
Inductive PyExc : Type :=
| IndexError | ValueError | ZeroDivisionError | AttributeError | KeyError.

(** A computation that returns or raises. *)
Inductive Result (A : Type) : Type :=
| Ok (a : A)
| Raise (e : PyExc).
Arguments Ok {A} a.
Arguments Raise {A} e.

#[global] Instance Result_ret : MRet Result := fun A a => Ok a.
#[global] Instance Result_bind : MBind Result := fun A B k m =>
  match m with
  | Ok a => k a
  | Raise e => Raise e
  end.

(** [try: m  except Exception: handler]. *)
Definition try_except {A} (m : Result A) (handler : A) : A :=
  match m with
  | Ok a => a
  | Raise _ => handler
  end.

(** [data[-1]]: raises [IndexError] on the empty list. *)
Definition py_last (l : list Q) : Result Q :=
  match rev l with
  | [] => Raise IndexError
  | x :: _ => Ok x
  end.

(** [max(data)]: raises [ValueError] on the empty list. *)
Definition py_max (l : list Q) : Result Q :=
  match l with
  | [] => Raise ValueError
  | x :: xs => Ok (fold_left Qmax xs x)
  end.

(** [a / b]: raises [ZeroDivisionError] when [b] is zero. *)
Definition py_truediv (a b : Q) : Result Q :=
  if Qeq_bool b 0 then Raise ZeroDivisionError else Ok (a / b)%Q.

End PyNum.
Export PyNum.

(** ** The metrics dictionary

    [final_metrics] is one Python dict with values of three types.  It is
    embedded with one component per type: the numbers by key, the label
    under ['shot_type'] and the series under ['body_rotation_over_time'];
    [None] stands for a key that is not in the dict. *)
Module ShotMetrics.

Record Metrics : Type := mkMetrics {
  scalars : gmap string Q;
  shot_type : option string;
  body_rotation_over_time : option (list Q)
}.

Definition empty_metrics : Metrics := mkMetrics ∅ None None.

(** [metrics[k] = v] for a number. *)
Definition set_scalar (k : string) (v : Q) (m : Metrics) : Metrics :=
  mkMetrics (<[k := v]> (scalars m)) (shot_type m) (body_rotation_over_time m).

Definition set_shot_type (v : string) (m : Metrics) : Metrics :=
  mkMetrics (scalars m) (Some v) (body_rotation_over_time m).

Definition set_series (v : list Q) (m : Metrics) : Metrics :=
  mkMetrics (scalars m) (shot_type m) (Some v).

(** [metrics[k]]: raises [KeyError] when the key is missing. *)
Definition get_scalar (k : string) (m : Metrics) : Result Q :=
  match scalars m !! k with
  | Some v => Ok v
  | None => Raise KeyError
  end.

(** The keys [analyze_cricket_shot] assigns, in the order of the source. *)
Definition scalar_keys : list string :=
  [ "stance_body_direction"; "impact_body_direction";
    "stance_leg_direction"; "impact_leg_direction";
    "weight_transfer_amount"; "max_elbow_angle";
    "stance_knee_angle"; "downswing_knee_angle";
    "stance_head_direction"; "downswing_head_direction";
    "shot_confidence";
    "body_rotation_total"; "head_movement"; "knee_bracing" ]%string.

(** Every key of the record is present. *)
Definition fully_populated (m : Metrics) : Prop :=
  (forall k, In k scalar_keys -> is_Some (scalars m !! k))
  /\ is_Some (shot_type m)
  /\ is_Some (body_rotation_over_time m).

End ShotMetrics.
Export ShotMetrics.

(** ** [analysis.py] *)
Module Analysis.

(** A landmark read as [[lm.x, lm.y]]. *)
Definition Point : Type := (Q * Q)%type.
Definition px (p : Point) : Q := fst p.
Definition py (p : Point) : Q := snd p.

(** The eleven landmarks a frame is read for. *)
Record Landmarks : Type := mkLandmarks {
  left_shoulder : Point;
  left_elbow : Point;
  left_wrist : Point;
  right_shoulder : Point;
  nose : Point;
  left_hip : Point;
  left_knee : Point;
  left_ankle : Point;
  right_hip : Point;
  right_knee : Point;
  right_ankle : Point
}.

(** What the pose estimator returns for a frame: [None] when no landmarks
    were found ([results.pose_landmarks] is [None]). *)
Definition PoseFrame : Type := option Landmarks.

(** [results.pose_landmarks.landmark] *)
Definition pose_landmarks (f : PoseFrame) : Result Landmarks :=
  match f with
  | Some lm => Ok lm
  | None => Raise AttributeError
  end.

Inductive Stage : Type :=
| UNKNOWN | STANCE | BACKLIFT | DOWNSWING | FOLLOW_THROUGH.

Definition stage_eqb (a b : Stage) : bool :=
  match a, b with
  | UNKNOWN, UNKNOWN | STANCE, STANCE | BACKLIFT, BACKLIFT
  | DOWNSWING, DOWNSWING | FOLLOW_THROUGH, FOLLOW_THROUGH => true
  | _, _ => false
  end.

(** Position of a stage in the order of the motion. *)
Definition stage_rank (s : Stage) : nat :=
  match s with
  | UNKNOWN => 0 | STANCE => 1 | BACKLIFT => 2
  | DOWNSWING => 3 | FOLLOW_THROUGH => 4
  end.

(** The lists kept for one phase. *)
Record PhaseLists : Type := mkPhaseLists {
  knee_angles : list Q;
  leg_directions : list Q;
  head_directions : list Q;
  body_directions : list Q;
  weight_transfers : list Q
}.

Definition empty_lists : PhaseLists := mkPhaseLists [] [] [] [] [].

(** [phase_data]: one entry per phase; only the entry of DOWNSWING has the
    additional list [elbow_angles]. *)
Record PhaseData : Type := mkPhaseData {
  pd_stance : PhaseLists;
  pd_backlift : PhaseLists;
  pd_downswing : PhaseLists;
  pd_follow_through : PhaseLists;
  elbow_angles : list Q
}.

Definition empty_phase_data : PhaseData :=
  mkPhaseData empty_lists empty_lists empty_lists empty_lists [].

(** [phase_data[stage]], defined when [stage in phase_data]. *)
Definition phase_get (pd : PhaseData) (s : Stage) : option PhaseLists :=
  match s with
  | UNKNOWN => None
  | STANCE => Some (pd_stance pd)
  | BACKLIFT => Some (pd_backlift pd)
  | DOWNSWING => Some (pd_downswing pd)
  | FOLLOW_THROUGH => Some (pd_follow_through pd)
  end.

Definition phase_set (pd : PhaseData) (s : Stage) (l : PhaseLists) : PhaseData :=
  match s with
  | UNKNOWN => pd
  | STANCE => mkPhaseData l (pd_backlift pd) (pd_downswing pd) (pd_follow_through pd) (elbow_angles pd)
  | BACKLIFT => mkPhaseData (pd_stance pd) l (pd_downswing pd) (pd_follow_through pd) (elbow_angles pd)
  | DOWNSWING => mkPhaseData (pd_stance pd) (pd_backlift pd) l (pd_follow_through pd) (elbow_angles pd)
  | FOLLOW_THROUGH => mkPhaseData (pd_stance pd) (pd_backlift pd) (pd_downswing pd) l (elbow_angles pd)
  end.

(** *** Phase detection: the four statements of lines 138 to 141 *)

Definition resolve_unknown (s : Stage) : Stage :=
  if stage_eqb s UNKNOWN then STANCE else s.

Definition check1 (lm : Landmarks) (s : Stage) : Stage :=
  if (stage_eqb s STANCE || stage_eqb s BACKLIFT)
     && Qltb (py (left_wrist lm)) (py (nose lm) * 1.1)
  then BACKLIFT else s.

Definition check2 (lm : Landmarks) (s : Stage) : Stage :=
  if stage_eqb s BACKLIFT && Qltb (py (nose lm) * 0.9) (py (left_wrist lm))
  then DOWNSWING else s.

Definition check3 (lm : Landmarks) (s : Stage) : Stage :=
  if stage_eqb s DOWNSWING && Qltb (px (right_shoulder lm)) (px (left_wrist lm))
  then FOLLOW_THROUGH else s.

Definition detect_phase (lm : Landmarks) (s : Stage) : Stage :=
  let s := resolve_unknown s in
  let s := check1 lm s in
  let s := check2 lm s in
  let s := check3 lm s in
  s.

(** The values computed from one frame. *)
Record PhaseSample : Type := mkSample {
  left_knee_angle : Q;
  front_leg_direction : Q;
  body_direction : Q;
  head_direction : Q;
  weight_transfer : Q;
  elbow_angle : Q
}.

Definition append_sample (l : PhaseLists) (x : PhaseSample) : PhaseLists :=
  mkPhaseLists
    (knee_angles l ++ [left_knee_angle x])
    (leg_directions l ++ [front_leg_direction x])
    (head_directions l ++ [head_direction x])
    (body_directions l ++ [body_direction x])
    (weight_transfers l ++ [weight_transfer x]).

(** Lines 156 to 165: store the sample under the current phase. *)
Definition store_sample (pd : PhaseData) (s : Stage) (x : PhaseSample) : PhaseData :=
  match phase_get pd s with
  | None => pd
  | Some current_phase_data =>
      let pd := phase_set pd s (append_sample current_phase_data x) in
      if stage_eqb s DOWNSWING
      then mkPhaseData (pd_stance pd) (pd_backlift pd) (pd_downswing pd)
             (pd_follow_through pd) (elbow_angles pd ++ [elbow_angle x])
      else pd
  end.

Record LoopState : Type := mkLoopState {
  stage : Stage;
  follow_through_frames : nat;
  phase_data : PhaseData
}.

Definition FOLLOW_THROUGH_BUFFER : nat := 30.

Definition initial_state : LoopState := mkLoopState UNKNOWN 0 empty_phase_data.

(** Line 182: the test that ends the loop after a frame. *)
Definition stop_after (st : LoopState) : bool :=
  stage_eqb (stage st) FOLLOW_THROUGH
  && (FOLLOW_THROUGH_BUFFER <=? follow_through_frames st)%nat.

Section WithAtan2.

(** [atan2_deg dy dx]: [math.degrees(math.atan2(dy, dx))]. *)
Variable atan2_deg : Q -> Q -> Q.

Definition calculate_angle (a b c : Point) : Q :=
  let angle :=
    Qabs (atan2_deg (py c - py b) (px c - px b)
          - atan2_deg (py a - py b) (px a - px b)) in
  if Qleb angle 180 then angle else (360 - angle)%Q.

Definition calculate_vector_angle (point1 point2 : Point) : Q :=
  let dx := (px point2 - px point1)%Q in
  let dy := (py point2 - py point1)%Q in
  atan2_deg dy dx.

(** Lines 144 to 153 and 164. *)
Definition frame_sample (lm : Landmarks) : PhaseSample :=
  let shoulder_midpoint : Point :=
    (((px (left_shoulder lm) + px (right_shoulder lm)) / 2)%Q,
     ((py (left_shoulder lm) + py (right_shoulder lm)) / 2)%Q) in
  let hip_midpoint_x := ((px (left_hip lm) + px (right_hip lm)) / 2)%Q in
  let ankle_midpoint_x := ((px (left_ankle lm) + px (right_ankle lm)) / 2)%Q in
  mkSample
    (calculate_angle (left_hip lm) (left_knee lm) (left_ankle lm))
    (calculate_vector_angle (left_knee lm) (left_hip lm))
    (calculate_vector_angle (right_shoulder lm) (left_shoulder lm))
    (calculate_vector_angle shoulder_midpoint (nose lm))
    (hip_midpoint_x - ankle_midpoint_x)%Q
    (calculate_angle (left_shoulder lm) (left_elbow lm) (left_wrist lm)).

(** The body of the [try] for a frame whose landmarks were found. *)
Definition process_landmarks (st : LoopState) (lm : Landmarks) : LoopState :=
  let s := detect_phase lm (stage st) in
  let pd := store_sample (phase_data st) s (frame_sample lm) in
  let n := if stage_eqb s FOLLOW_THROUGH
           then S (follow_through_frames st) else follow_through_frames st in
  mkLoopState s n pd.

(** One iteration up to the [yield]: [except Exception: pass] leaves the
    state as it was. *)
Definition process_frame (st : LoopState) (f : PoseFrame) : LoopState :=
  try_except (lm ← pose_landmarks f; mret (process_landmarks st lm)) st.

(** The [while] loop: the state after each frame that was read, in order.
    It ends when the frames are exhausted or [stop_after] holds. *)
Fixpoint frame_loop (st : LoopState) (frames : list PoseFrame) : list LoopState :=
  match frames with
  | [] => []
  | f :: rest =>
      let st' := process_frame st f in
      st' :: (if stop_after st' then [] else frame_loop st' rest)
  end.

Definition final_state (frames : list PoseFrame) : LoopState :=
  List.last (frame_loop initial_state frames) initial_state.

End WithAtan2.

(** *** [detect_shot_type] *)

(** The indicators computed at the head of [detect_shot_type]. *)
Record ShotFeatures : Type := mkFeatures {
  body_rotation : Q;
  weight_shift : Q;
  backlift_height : Q;
  downswing_len : nat;
  backlift_len : nat
}.

(** Lines 30 to 41. *)
Definition shot_features (pd : PhaseData) : Result ShotFeatures :=
  body_rotation ←
    (if truthy (body_directions (pd_stance pd))
        && truthy (body_directions (pd_downswing pd))
     then l ← py_last (body_directions (pd_downswing pd));
          mret (Qabs (np_mean (body_directions (pd_stance pd)) - l))
     else mret 0%Q);
  weight_shift ←
    (if truthy (weight_transfers (pd_stance pd))
        && truthy (weight_transfers (pd_downswing pd))
     then l ← py_last (weight_transfers (pd_downswing pd));
          mret ((l - np_mean (weight_transfers (pd_stance pd))) * 100)%Q
     else mret 0%Q);
  backlift_height ←
    py_truediv (qlen (knee_angles (pd_backlift pd)))
               (Qmax (qlen (knee_angles (pd_stance pd))) 1);
  mret (mkFeatures body_rotation weight_shift backlift_height
          (length (knee_angles (pd_downswing pd)))
          (length (knee_angles (pd_backlift pd)))).

(** Lines 44 to 82: the [if]/[elif] chain. *)
Definition classify (f : ShotFeatures) : string * Q :=
  if Qltb (body_rotation f) 15 && Qltb (Qabs (weight_shift f)) 5
     && Qltb (backlift_height f) 0.5
  then ("DEFENSIVE"%string, 0.85%Q)
  else if Qltb 5 (weight_shift f)
          && (Qleb 15 (body_rotation f) && Qleb (body_rotation f) 45)
  then ("DRIVE"%string, 0.80%Q)
  else if Qltb 50 (body_rotation f) && Qltb (weight_shift f) 5
  then ("PULL/HOOK"%string, 0.75%Q)
  else if Qltb 45 (body_rotation f) && Qltb (weight_shift f) 3
          && (downswing_len f <? backlift_len f)%nat
  then ("CUT"%string, 0.75%Q)
  else if Qltb 60 (body_rotation f)
  then ("SWEEP"%string, 0.70%Q)
  else if Qltb 1.2 (backlift_height f) && Qltb 30 (body_rotation f)
  then ("LOFTED"%string, 0.70%Q)
  else ("FORWARD SHOT"%string, 0.60%Q).

Definition detect_shot_type (pd : PhaseData) : string * Q :=
  try_except (f ← shot_features pd; mret (classify f)) ("UNKNOWN"%string, 0.0%Q).

(** *** Final metrics: lines 189 to 224 *)

Definition get_avg (data : list Q) : Q :=
  if truthy data then np_mean data else 0%Q.

Definition get_last (data : list Q) : Result Q :=
  if truthy data then py_last data else Ok 0%Q.

(** A statement of the [try] block: the dict after it, and whether it
    raised. *)
Definition Stmt : Type := Metrics -> Metrics * Result unit.

(** [final_metrics[k] = e] *)
Definition assign (k : string) (e : Metrics -> Result Q) : Stmt :=
  fun m => match e m with
           | Ok v => (set_scalar k v m, Ok tt)
           | Raise x => (m, Raise x)
           end.

(** [final_metrics['body_rotation_over_time'] = v] and
    [final_metrics['shot_type'] = v] *)
Definition assign_series (v : list Q) : Stmt :=
  fun m => (set_series v m, Ok tt).

Definition assign_shot_type (v : string) : Stmt :=
  fun m => (set_shot_type v m, Ok tt).

(** Statements in sequence; the first that raises ends the block and the
    dict keeps what was assigned before it. *)
Fixpoint run_block (b : list Stmt) (m : Metrics) : Metrics * Result unit :=
  match b with
  | [] => (m, Ok tt)
  | s :: rest =>
      match s m with
      | (m', Ok _) => run_block rest m'
      | (m', Raise x) => (m', Raise x)
      end
  end.

Definition final_metrics_block (pd : PhaseData) : list Stmt :=
  [ assign "stance_body_direction"
      (fun _ => Ok (get_avg (body_directions (pd_stance pd))));
    assign "impact_body_direction"
      (fun _ => get_last (body_directions (pd_downswing pd)));
    assign_series (body_directions (pd_stance pd)
                   ++ body_directions (pd_backlift pd)
                   ++ body_directions (pd_downswing pd)
                   ++ body_directions (pd_follow_through pd));
    assign "stance_leg_direction"
      (fun _ => Ok (get_avg (leg_directions (pd_stance pd))));
    assign "impact_leg_direction"
      (fun _ => get_last (leg_directions (pd_downswing pd)));
    assign "weight_transfer_amount"
      (fun _ =>
         let initial_weight := get_avg (weight_transfers (pd_stance pd)) in
         impact_weight ← get_last (weight_transfers (pd_downswing pd));
         mret ((impact_weight - initial_weight) * 100)%Q);
    assign "max_elbow_angle"
      (fun _ => if truthy (elbow_angles pd) then py_max (elbow_angles pd) else Ok 0%Q);
    assign "stance_knee_angle"
      (fun _ => Ok (get_avg (knee_angles (pd_stance pd))));
    assign "downswing_knee_angle"
      (fun _ => Ok (get_avg (knee_angles (pd_downswing pd))));
    assign "stance_head_direction"
      (fun _ => Ok (get_avg (head_directions (pd_stance pd))));
    assign "downswing_head_direction"
      (fun _ => Ok (get_avg (head_directions (pd_downswing pd))));
    assign_shot_type (fst (detect_shot_type pd));
    assign "shot_confidence" (fun _ => Ok (snd (detect_shot_type pd)));
    assign "body_rotation_total"
      (fun m => a ← get_scalar "stance_body_direction" m;
                b ← get_scalar "impact_body_direction" m;
                mret (Qabs (a - b)));
    assign "head_movement"
      (fun m => a ← get_scalar "stance_head_direction" m;
                b ← get_scalar "downswing_head_direction" m;
                mret (Qabs (a - b)));
    assign "knee_bracing"
      (fun m => a ← get_scalar "downswing_knee_angle" m;
                b ← get_scalar "stance_knee_angle" m;
                mret (a - b)%Q) ].

(** The dict after the [try] block, whether or not it raised: the
    [except] clause only prints. *)
Definition final_metrics (pd : PhaseData) : Metrics :=
  fst (run_block (final_metrics_block pd) empty_metrics).

(** *** The generator *)

(** What the generator yields: [(image, None)] for a frame, and
    [(None, final_metrics)] at the end. *)
Inductive Yield : Type :=
| Preview
| Terminal (m : Metrics).

(** [analyze_cricket_shot]: [None] is a capture that could not be opened,
    for which the generator ends without yielding. *)
Definition analyze_cricket_shot (atan2_deg : Q -> Q -> Q)
    (cap : option (list PoseFrame)) : list Yield :=
  match cap with
  | None => []
  | Some frames =>
      map (fun _ => Preview) (frame_loop atan2_deg initial_state frames)
      ++ [Terminal (final_metrics (phase_data (final_state atan2_deg frames)))]
  end.

End Analysis.

(** ** [advice_engine.py]: [CricketAdviceEngine] *)
Module Advice.

Inductive Status : Type := excellent | needs_improvement | poor.
Inductive Importance : Type := high | medium | low.
Inductive FeedbackType : Type := strength | flaw | recommendation.

Definition status_eqb (a b : Status) : bool :=
  match a, b with
  | excellent, excellent | needs_improvement, needs_improvement | poor, poor => true
  | _, _ => false
  end.

(** An entry of the dict [_analyze_metrics] returns. *)
Record MetricAnalysis : Type := mkAnalysis {
  value : Q;
  status : Status;
  importance : Importance
}.

(** [s in [a, b, ...]] *)
Definition in_list (s : string) (l : list string) : bool :=
  existsb (String.eqb s) l.

(** The table [shot_specific_advice], by key: the ['drills'] of each shot.
    Its other entries (['description'], ['key_focus'], ['common_flaws'])
    only feed ['shot_insights'] and are left out. *)
Definition shot_drills : gmap string (list string) :=
  list_to_map
    [ ("DRIVE",
       [ "Front foot drives off a bowling machine at 70% pace - focus on head position";
         "Shadow batting with mirror - check elbow height at impact point";
         "Throw-downs with tennis ball - exaggerate weight transfer";
         "Drive against wall with taped target - practice follow-through direction" ]);
      ("PULL/HOOK",
       [ "Short ball machine work - start at reduced pace and gradually increase";
         "Tennis ball throws at head height - practice ducking vs playing";
         "Pull shot shadow batting focusing on hip rotation";
         "Reaction drills with colored balls - decide pull vs duck" ]);
      ("CUT",
       [ "Side-on throw-downs outside off stump - practice leaving vs cutting decision";
         "Cut shot against spin bowling - develops timing and placement";
         "Back foot movement drills - quick lateral steps";
         "Wrist strengthening exercises for better bat control" ]);
      ("DEFENSIVE",
       [ "Defense against spin on turning pitches - practice smothering turn";
         "Ball drop exercises - soft hands catching drill";
         "Forward defense with eyes closed (after release) - trust technique";
         "Defense against seam movement - focus on playing late" ]);
      ("SWEEP",
       [ "Sweep against underarm spin throws - build confidence";
         "Knee strengthening for low position maintenance";
         "Placement practice - cones at fine leg, square leg, backward square";
         "Switch between sweep and pad-first defense based on line" ]);
      ("LOFTED",
       [ "Lofted drives with tennis ball first - build confidence";
         "Target practice - hit cones at different distances";
         "Footwork drills - quick steps to pitch of ball";
         "Balance exercises - single leg stability" ]);
      ("FORWARD SHOT",
       [ "Front foot stride practice with marker cones";
         "Head position drills - balance book on head during shadow batting";
         "Weight transfer exercises with resistance bands";
         "Slow motion practice focusing on sequence of movements" ]);
      ("FLICK",
       [ "Wrist flexibility exercises with bat";
         "Throw-downs on leg stump - practice placement";
         "Flick vs defend decision drills";
         "One-handed bottom hand practice for feel" ]);
      ("LEAVE",
       [ "Leave practice with colored balls - leave red, play blue";
         "Line and length judgment from side on video";
         "Practice sessions where you can only leave - builds patience";
         "Shoulder arms technique in front of mirror" ]);
      ("BACK FOOT DEFENSE",
       [ "Back foot trigger movement practice";
         "Short ball defense with tennis balls";
         "Shadow batting focusing on high hands";
         "Catching practice to develop soft hands" ]) ]%string.

Definition pro_tips : gmap string string :=
  list_to_map
    [ ("DRIVE",
       "💡 Pro Tip: For classic drives, imagine painting a straight line from your bat's position at address to your follow-through. Your head should be the heaviest thing going forward.");
      ("PULL/HOOK",
       "💡 Pro Tip: Watch the ball onto the bat - pull shots require excellent ball tracking. Commit early but execute late, and roll your wrists at impact to keep the ball down.");
      ("CUT",
       "💡 Pro Tip: Use your bottom hand to guide and your top hand to control - wrist flexibility is key. Wait for the ball to come to you, don't go looking for it.");
      ("DEFENSIVE",
       "💡 Pro Tip: Think 'soft hands' - defensive shots should deaden the ball, not push it. Imagine you're catching an egg - that's the grip pressure you need.");
      ("SWEEP",
       "💡 Pro Tip: Get your front pad outside the line to give yourself room and protection. The sweep is premeditated - decide early and commit fully.");
      ("LOFTED",
       "💡 Pro Tip: Trust your technique and swing through - don't try to hit too hard, let timing do the work. Get to the pitch of the ball with your feet.");
      ("FORWARD SHOT",
       "💡 Pro Tip: Your head should lead every forward movement. Where your head goes, your body follows. Practice until it becomes automatic.");
      ("FLICK",
       "💡 Pro Tip: The flick is all about timing the wrist turn. Play along the line first, then roll the wrists - think of it as redirecting, not hitting.");
      ("LEAVE",
       "💡 Pro Tip: The best batsmen know what not to play. A good leave is as valuable as a good shot - it shows control and understanding of your off stump.");
      ("BACK FOOT DEFENSE",
       "💡 Pro Tip: Get back and across quickly, but play the ball under your eyes. High hands and soft grip are your best friends against pace.") ]%string.

(** The three texts of lines 377, 380 and 383. *)
Definition generic_strength : string :=
  "✅ Good attempt - continue practicing to refine your technique"%string.
Definition generic_flaw : string :=
  "✅ Solid technique overall - minor refinements will take you to the next level"%string.
Definition generic_recommendation : string :=
  "💡 Keep practicing your current technique with focus on consistency"%string.

(** [_analyze_metrics]: the dict it builds, as the list of its items in
    insertion order (each key is assigned at most once). *)
Definition _analyze_metrics (metrics : Metrics) (shot : string)
    : list (string * MetricAnalysis) :=
  let analysis := [] in
  let analysis :=
    match scalars metrics !! "max_elbow_angle"%string with
    | Some angle =>
        if in_list shot ["DRIVE"; "DEFENSIVE"; "FORWARD SHOT"]%string then
          if Qleb 165 angle
          then analysis ++ [("elbow_angle"%string, mkAnalysis angle excellent high)]
          else if Qleb 155 angle
          then analysis ++ [("elbow_angle"%string, mkAnalysis angle needs_improvement high)]
          else analysis ++ [("elbow_angle"%string, mkAnalysis angle poor high)]
        else
          if Qleb 150 angle
          then analysis ++ [("elbow_angle"%string, mkAnalysis angle excellent medium)]
          else if Qleb 135 angle
          then analysis ++ [("elbow_angle"%string, mkAnalysis angle needs_improvement medium)]
          else analysis ++ [("elbow_angle"%string, mkAnalysis angle poor high)]
    | None => analysis
    end in
  let analysis :=
    match scalars metrics !! "weight_transfer_amount"%string with
    | Some transfer =>
        if in_list shot ["DRIVE"; "FORWARD SHOT"; "LOFTED"]%string then
          if Qleb 8 transfer
          then analysis ++ [("weight_transfer"%string, mkAnalysis transfer excellent high)]
          else if Qleb 3 transfer
          then analysis ++ [("weight_transfer"%string, mkAnalysis transfer needs_improvement high)]
          else analysis ++ [("weight_transfer"%string, mkAnalysis transfer poor high)]
        else if in_list shot ["PULL/HOOK"; "CUT"]%string then
          if Qleb transfer 2
          then analysis ++ [("weight_transfer"%string, mkAnalysis transfer excellent high)]
          else if Qleb transfer 5
          then analysis ++ [("weight_transfer"%string, mkAnalysis transfer needs_improvement high)]
          else analysis ++ [("weight_transfer"%string, mkAnalysis transfer poor high)]
        else
          if Qleb 0 transfer && Qleb transfer 5
          then analysis ++ [("weight_transfer"%string, mkAnalysis transfer excellent medium)]
          else analysis ++ [("weight_transfer"%string, mkAnalysis transfer needs_improvement medium)]
    | None => analysis
    end in
  let analysis :=
    match scalars metrics !! "body_rotation_total"%string with
    | Some rotation =>
        if in_list shot ["PULL/HOOK"; "SWEEP"; "CUT"]%string then
          if Qleb 45 rotation
          then analysis ++ [("body_rotation"%string, mkAnalysis rotation excellent high)]
          else if Qleb 30 rotation
          then analysis ++ [("body_rotation"%string, mkAnalysis rotation needs_improvement high)]
          else analysis ++ [("body_rotation"%string, mkAnalysis rotation poor high)]
        else if String.eqb shot "DEFENSIVE" then
          if Qleb rotation 15
          then analysis ++ [("body_rotation"%string, mkAnalysis rotation excellent high)]
          else if Qleb rotation 25
          then analysis ++ [("body_rotation"%string, mkAnalysis rotation needs_improvement medium)]
          else analysis ++ [("body_rotation"%string, mkAnalysis rotation poor medium)]
        else
          if Qleb 20 rotation && Qleb rotation 45
          then analysis ++ [("body_rotation"%string, mkAnalysis rotation excellent medium)]
          else if Qltb rotation 15 || Qltb 60 rotation
          then analysis ++ [("body_rotation"%string, mkAnalysis rotation poor high)]
          else analysis ++ [("body_rotation"%string, mkAnalysis rotation needs_improvement medium)]
    | None => analysis
    end in
  let analysis :=
    match scalars metrics !! "head_movement"%string with
    | Some head_movement =>
        if Qleb head_movement 8
        then analysis ++ [("head_stability"%string, mkAnalysis head_movement excellent high)]
        else if Qleb head_movement 20
        then analysis ++ [("head_stability"%string, mkAnalysis head_movement needs_improvement high)]
        else analysis ++ [("head_stability"%string, mkAnalysis head_movement poor high)]
    | None => analysis
    end in
  let analysis :=
    match scalars metrics !! "knee_bracing"%string with
    | Some knee_bracing =>
        if in_list shot ["DRIVE"; "FORWARD SHOT"]%string then
          if Qleb 15 knee_bracing
          then analysis ++ [("knee_bracing"%string, mkAnalysis knee_bracing excellent medium)]
          else if Qleb 5 knee_bracing
          then analysis ++ [("knee_bracing"%string, mkAnalysis knee_bracing needs_improvement medium)]
          else analysis ++ [("knee_bracing"%string, mkAnalysis knee_bracing poor medium)]
        else analysis
    | None => analysis
    end in
  let analysis :=
    match scalars metrics !! "stance_knee_angle"%string with
    | Some knee_angle =>
        if Qleb 120 knee_angle && Qleb knee_angle 145
        then analysis ++ [("stance_knee"%string, mkAnalysis knee_angle excellent low)]
        else if Qltb knee_angle 110 || Qltb 160 knee_angle
        then analysis ++ [("stance_knee"%string, mkAnalysis knee_angle poor medium)]
        else analysis ++ [("stance_knee"%string, mkAnalysis knee_angle needs_improvement low)]
    | None => analysis
    end in
  analysis.

(** [list.sort(key=...)]: ascending in the key, and stable. *)
Fixpoint insert_by {A} (key : A -> nat) (x : A) (l : list A) : list A :=
  match l with
  | [] => [x]
  | y :: ys => if (key x <=? key y)%nat then x :: y :: ys else y :: insert_by key x ys
  end.

Definition sort_by {A} (key : A -> nat) (l : list A) : list A :=
  fold_right (insert_by key) [] l.

Inductive Priority : Type := prio_high | prio_medium.

Definition priority_key (x : string * MetricAnalysis * Priority) : nat :=
  match x with
  | (_, _, prio_high) => 0
  | (_, _, prio_medium) => 1
  end.

(** The dict [generate_advice] returns, without ['shot_insights'], which
    copies the table for the shot and enters no list. *)
Record AdviceResult : Type := mkAdvice {
  advice_shot_type : string;
  advice_shot_confidence : Q;
  strengths : list string;
  flaws : list string;
  recommendations : list string
}.

Section WithRuntime.

(** [format_1f v]: the text of [f"{v:.1f}"]. *)
Variable format_1f : Q -> string.

(** [random.choice]: the element drawn from a list that is not empty. *)
Variable random_choice : list string -> string.

(** [_get_contextual_feedback]; a chain that matches no [return] falls
    through to the last line, [return ""]. *)
Definition _get_contextual_feedback (metric : string) (analysis : MetricAnalysis)
    (shot : string) (feedback_type : FeedbackType) : string :=
  let value := value analysis in
  match feedback_type with
  | strength =>
      if String.eqb metric "elbow_angle" then
        ("✅ Excellent arm extension ("
         +:+ format_1f value
         +:+ "°) - your front arm is beautifully straight, generating optimal power and control")%string
      else if String.eqb metric "weight_transfer" then
        if in_list shot ["DRIVE"; "FORWARD SHOT"]%string then
          ("✅ Perfect weight transfer forward ("
           +:+ format_1f value
           +:+ ") - you're getting excellent momentum into the shot")%string
        else if in_list shot ["PULL/HOOK"; "CUT"]%string then
          ("✅ Good weight distribution ("
           +:+ format_1f value
           +:+ ") - well balanced for a back-foot shot")%string
        else ""%string
      else if String.eqb metric "body_rotation" then
        if in_list shot ["PULL/HOOK"; "SWEEP"]%string then
          ("✅ Powerful body rotation ("
           +:+ format_1f value
           +:+ "°) - great use of your core to generate power")%string
        else if String.eqb shot "DEFENSIVE" then
          ("✅ Controlled body movement ("
           +:+ format_1f value
           +:+ "°) - excellent defensive technique with minimal rotation")%string
        else
          ("✅ Good shoulder turn ("
           +:+ format_1f value
           +:+ "°) - optimal rotation for this shot")%string
      else if String.eqb metric "head_stability" then
        ("✅ Excellent head stability ("
         +:+ format_1f value
         +:+ "° movement) - your head position is rock solid, crucial for timing")%string
      else if String.eqb metric "knee_bracing" then
        ("✅ Strong front leg bracing ("
         +:+ format_1f value
         +:+ "° extension) - solid base for power transfer")%string
      else if String.eqb metric "stance_knee" then
        ("✅ Balanced stance position ("
         +:+ format_1f value
         +:+ "°) - good athletic base")%string
      else ""%string
  | flaw =>
      if String.eqb metric "elbow_angle" then
        if in_list shot ["DRIVE"; "FORWARD SHOT"]%string then
          ("⚠️ Bent front arm ("
           +:+ format_1f value
           +:+ "°) - for drives, keep your front arm straighter through impact for better timing and power")%string
        else
          ("⚠️ Elbow too bent ("
           +:+ format_1f value
           +:+ "°) - work on fuller arm extension to improve bat speed")%string
      else if String.eqb metric "weight_transfer" then
        if in_list shot ["DRIVE"; "FORWARD SHOT"; "LOFTED"]%string then
          if Qltb value 0 then
            ("⚠️ Weight going backwards ("
             +:+ format_1f value
             +:+ ") - you're falling away from the ball. Get your weight moving forward")%string
          else
            ("⚠️ Insufficient weight transfer ("
             +:+ format_1f value
             +:+ ") - commit more to moving forward into the shot")%string
        else if in_list shot ["PULL/HOOK"; "CUT"]%string then
          ("⚠️ Too much forward weight transfer ("
           +:+ format_1f value
           +:+ ") - these back-foot shots need weight back, not forward")%string
        else ""%string
      else if String.eqb metric "body_rotation" then
        if in_list shot ["PULL/HOOK"; "CUT"]%string then
          ("⚠️ Limited body rotation ("
           +:+ format_1f value
           +:+ "°) - generate more power by using your hips and shoulders")%string
        else if String.eqb shot "DEFENSIVE" then
          ("⚠️ Excessive body movement ("
           +:+ format_1f value
           +:+ "°) - defensive shots need minimal rotation for better control")%string
        else if Qltb value 15 then
          ("⚠️ Too little body rotation ("
           +:+ format_1f value
           +:+ "°) - engage your core more to generate power")%string
        else
          ("⚠️ Over-rotating ("
           +:+ format_1f value
           +:+ "°) - this can cause loss of balance and power")%string
      else if String.eqb metric "head_stability" then
        ("⚠️ Head movement detected ("
         +:+ format_1f value
         +:+ "°) - excessive head movement disrupts timing and ball tracking")%string
      else if String.eqb metric "knee_bracing" then
        ("⚠️ Weak front leg ("
         +:+ format_1f value
         +:+ "° change) - brace your front leg more firmly for better energy transfer")%string
      else if String.eqb metric "stance_knee" then
        if Qltb value 120 then
          ("⚠️ Stance too low ("
           +:+ format_1f value
           +:+ "°) - raise your stance slightly for better movement")%string
        else
          ("⚠️ Stance too upright ("
           +:+ format_1f value
           +:+ "°) - lower your stance for better balance")%string
      else ""%string
  | recommendation =>
      if String.eqb metric "elbow_angle" then
        "💡 Drill: Practice shadow batting with emphasis on keeping your front arm fully extended. Hold the finish position to feel the stretch"%string
      else if String.eqb metric "weight_transfer" then
        if in_list shot ["DRIVE"; "FORWARD SHOT"]%string then
          "💡 Drill: Practice stepping forward into a front-foot drive, focusing on feeling your weight shift onto your front foot"%string
        else if in_list shot ["PULL/HOOK"; "CUT"]%string then
          "💡 Drill: Practice weight transfer to your back foot. Do shadow pulls, ensuring you feel balanced on your back leg"%string
        else ""%string
      else if String.eqb metric "body_rotation" then
        if in_list shot ["PULL/HOOK"]%string then
          "💡 Drill: Practice hip and shoulder rotation exercises. Focus on pivoting your back foot to generate power"%string
        else if String.eqb shot "DEFENSIVE" then
          "💡 Drill: Practice defensive shots with focus on minimal body movement - quiet hands and solid base"%string
        else
          "💡 Drill: Work on core rotation - practice turning your shoulders while keeping head still"%string
      else if String.eqb metric "head_stability" then
        "💡 Drill: Place a cap with water on your head during shadow batting. Practice keeping it balanced - this forces head stillness"%string
      else if String.eqb metric "knee_bracing" then
        "💡 Drill: Practice leg strengthening exercises (lunges, single-leg squats) to build a stronger, more stable base"%string
      else ""%string
  end.

(** [_get_shot_specific_recommendations] *)
Definition _get_shot_specific_recommendations (shot : string) : list string :=
  let recommendations := [] in
  match shot_drills !! shot with
  | None => recommendations
  | Some drills =>
      let recommendations :=
        match pro_tips !! shot with
        | Some tip => recommendations ++ [tip]
        | None => recommendations
        end in
      if truthy drills
      then recommendations ++ [("🏋️ Recommended Drill: " +:+ random_choice drills)%string]
      else recommendations
  end.

(** The loop of lines 346 to 349, with its counter: one pass of the
    body, and the loop. *)
Definition strengths_step (shot : string) (acc : list string * nat)
    (item : string * MetricAnalysis) : list string * nat :=
  let '(strengths, strengths_count) := acc in
  let '(metric, analysis) := item in
  if status_eqb (status analysis) excellent && (strengths_count <? 3)%nat
  then (strengths ++ [_get_contextual_feedback metric analysis shot strength],
        S strengths_count)
  else acc.

Definition strengths_loop (shot : string) (items : list (string * MetricAnalysis))
    : list string * nat :=
  fold_left (strengths_step shot) items ([], 0%nat).

(** The loop of lines 354 to 357. *)
Definition flaw_step (priority_flaws : list (string * MetricAnalysis * Priority))
    (item : string * MetricAnalysis) : list (string * MetricAnalysis * Priority) :=
  let '(metric, analysis) := item in
  if status_eqb (status analysis) poor
     || status_eqb (status analysis) needs_improvement
  then
    let priority :=
      if status_eqb (status analysis) poor then prio_high else prio_medium in
    priority_flaws ++ [(metric, analysis, priority)]
  else priority_flaws.

Definition collect_flaws (items : list (string * MetricAnalysis))
    : list (string * MetricAnalysis * Priority) :=
  fold_left flaw_step items [].

(** The loop of lines 365 to 368: an empty text is not appended. *)
Definition recommendation_step (shot : string) (recs : list string)
    (x : string * MetricAnalysis * Priority) : list string :=
  let '(metric, analysis, _) := x in
  let r := _get_contextual_feedback metric analysis shot recommendation in
  if String.eqb r "" then recs else recs ++ [r].

(** [advice] as it stands before the three tests of lines 376 to 383. *)
Definition collect_advice (metrics : Metrics) : AdviceResult :=
  let shot := default "UNKNOWN"%string (shot_type metrics) in
  let metric_analysis := _analyze_metrics metrics shot in
  let strengths := fst (strengths_loop shot metric_analysis) in
  let priority_flaws := sort_by priority_key (collect_flaws metric_analysis) in
  let flaws :=
    map (fun '(metric, analysis, _) =>
           _get_contextual_feedback metric analysis shot flaw)
        (firstn 4 priority_flaws) in
  let recommendations :=
    fold_left (recommendation_step shot) (firstn 3 priority_flaws) [] in
  let shot_specific_rec := _get_shot_specific_recommendations shot in
  let recommendations :=
    if truthy shot_specific_rec
    then recommendations ++ firstn 2 shot_specific_rec
    else recommendations in
  mkAdvice shot (default 0.0%Q (scalars metrics !! "shot_confidence"%string))
    strengths flaws recommendations.

(** [generate_advice] *)
Definition generate_advice (metrics : Metrics) : AdviceResult :=
  let advice := collect_advice metrics in
  mkAdvice (advice_shot_type advice) (advice_shot_confidence advice)
    (if truthy (strengths advice) then strengths advice
     else strengths advice ++ [generic_strength])
    (if truthy (flaws advice) then flaws advice
     else flaws advice ++ [generic_flaw])
    (if truthy (recommendations advice) then recommendations advice
     else recommendations advice ++ [generic_recommendation]).

End WithRuntime.

End Advice.

(** ** [advice_engine.py]: [ImprovementEngine] *)
Module Improvement.

Definition Range : Type := (Q * Q)%type.

Definition optimal_ranges : gmap string (gmap string Range) :=
  list_to_map
    [ ("DRIVE", list_to_map
         [ ("max_elbow_angle", (165, 180)); ("weight_transfer_amount", (8, 20));
           ("body_rotation_total", (20, 45)); ("head_movement", (0, 10)) ]);
      ("PULL/HOOK", list_to_map
         [ ("max_elbow_angle", (150, 180)); ("weight_transfer_amount", (-5, 2));
           ("body_rotation_total", (45, 75)); ("head_movement", (0, 12)) ]);
      ("CUT", list_to_map
         [ ("max_elbow_angle", (150, 180)); ("weight_transfer_amount", (-3, 5));
           ("body_rotation_total", (45, 70)); ("head_movement", (0, 12)) ]);
      ("DEFENSIVE", list_to_map
         [ ("max_elbow_angle", (160, 180)); ("weight_transfer_amount", (0, 5));
           ("body_rotation_total", (0, 15)); ("head_movement", (0, 8)) ]);
      ("SWEEP", list_to_map
         [ ("max_elbow_angle", (140, 170)); ("weight_transfer_amount", (3, 15));
           ("body_rotation_total", (50, 80)); ("head_movement", (0, 15)) ]);
      ("LOFTED", list_to_map
         [ ("max_elbow_angle", (155, 180)); ("weight_transfer_amount", (5, 20));
           ("body_rotation_total", (25, 55)); ("head_movement", (0, 12)) ]);
      ("FORWARD SHOT", list_to_map
         [ ("max_elbow_angle", (160, 180)); ("weight_transfer_amount", (5, 15));
           ("body_rotation_total", (15, 40)); ("head_movement", (0, 10)) ]) ]%string%Q.

Definition default_optimal : gmap string Range :=
  list_to_map
    [ ("max_elbow_angle", (155, 180)); ("weight_transfer_amount", (3, 15));
      ("body_rotation_total", (20, 50)); ("head_movement", (0, 12)) ]%string%Q.

(** [metric_info]: the display name and the unit of each metric. *)
Definition metric_info : gmap string (string * string) :=
  list_to_map
    [ ("max_elbow_angle", ("Elbow Extension", "°"));
      ("weight_transfer_amount", ("Weight Transfer", "%"));
      ("body_rotation_total", ("Body Rotation", "°"));
      ("head_movement", ("Head Stability", "°")) ]%string.

Definition comparison_metrics : list string :=
  [ "max_elbow_angle"; "weight_transfer_amount";
    "body_rotation_total"; "head_movement" ]%string.

Definition _get_optimal_range (metric shot : string) : Range :=
  let shot_ranges := default default_optimal (optimal_ranges !! shot) in
  default (default (0, 100)%Q (default_optimal !! metric)) (shot_ranges !! metric).

Definition _calculate_metric_score (value : Q) (optimal_range : Range) : Q :=
  let '(opt_min, opt_max) := optimal_range in
  let opt_mid := ((opt_min + opt_max) / 2)%Q in
  if Qleb opt_min value && Qleb value opt_max then
    let distance_from_mid := Qabs (value - opt_mid) in
    let range_half := ((opt_max - opt_min) / 2)%Q in
    if Qltb 0 range_half
    then (100 - (distance_from_mid / range_half) * 20)%Q
    else 100%Q
  else if Qltb value opt_min then
    let distance := (opt_min - value)%Q in
    let penalty := Qmin (distance * 2) 50 in
    Qmax (80 - penalty) 20
  else
    let distance := (value - opt_max)%Q in
    let penalty := Qmin (distance * 2) 50 in
    Qmax (80 - penalty) 20.

Inductive DeltaStatus : Type := improved | regressed | maintained.

Record Comparison : Type := mkComparison {
  original_value : Q;
  followup_value : Q;
  original_score : Q;
  followup_score : Q;
  score_change : Q;
  delta_status : DeltaStatus;
  optimal_range : Range
}.

Definition _calculate_improvement_delta (original followup : Q)
    (optimal_range : Range) (metric shot : string) : Comparison :=
  let original_score := _calculate_metric_score original optimal_range in
  let followup_score := _calculate_metric_score followup optimal_range in
  let score_change := (followup_score - original_score)%Q in
  let status :=
    if Qltb 5 score_change then improved
    else if Qltb score_change (-5) then regressed
    else maintained in
  mkComparison original followup original_score followup_score score_change
    status optimal_range.

(** An entry of [improved_areas], [regressed_areas] or [maintained_areas];
    the last has no ['change']. *)
Record Area : Type := mkArea {
  area_metric : string;
  area_name : string;
  area_change : option Q;
  from_value : Q;
  to_value : Q;
  area_unit : string
}.

Definition _calculate_overall_accuracy (metrics : Metrics) (shot : string) : Q :=
  let scores :=
    fold_left
      (fun scores metric =>
         match scalars metrics !! metric with
         | Some v => scores ++ [_calculate_metric_score v (_get_optimal_range metric shot)]
         | None => scores
         end)
      comparison_metrics [] in
  py_round1 (qsum scores / Qmax (qlen scores) 1).

Inductive Verdict : Type :=
| IMPROVED | REGRESSED | SLIGHT_IMPROVEMENT | SLIGHT_REGRESSION | MAINTAINED.

Record ImprovementResult : Type := mkResult {
  result_shot_type : string;
  followup_shot_type : string;
  metric_comparisons : list (string * Comparison);
  improved_areas : list Area;
  regressed_areas : list Area;
  maintained_areas : list Area;
  original_accuracy : Q;
  followup_accuracy : Q;
  accuracy_change : Q;
  overall_verdict : Verdict;
  verdict_description : string;
  improvement_score : Q
}.

(** The variables the loop of lines 903 to 947 updates. *)
Record LoopVars : Type := mkVars {
  v_comparisons : list (string * Comparison);
  v_total : Q;
  v_analyzed : nat;
  v_improved : list Area;
  v_regressed : list Area;
  v_maintained : list Area
}.

Definition compare_metric (original_metrics followup_metrics : Metrics)
    (shot : string) (vars : LoopVars) (metric : string) : LoopVars :=
  match scalars original_metrics !! metric, scalars followup_metrics !! metric with
  | Some original_val, Some followup_val =>
      let optimal_range := _get_optimal_range metric shot in
      let comparison :=
        _calculate_improvement_delta original_val followup_val optimal_range
          metric shot in
      let '(metric_name, unit) := metric_info !!! metric in
      let comparisons := v_comparisons vars ++ [(metric, comparison)] in
      let total := (v_total vars + score_change comparison)%Q in
      let analyzed := S (v_analyzed vars) in
      match delta_status comparison with
      | improved =>
          mkVars comparisons total analyzed
            (v_improved vars
             ++ [mkArea metric metric_name (Some (score_change comparison))
                   original_val followup_val unit])
            (v_regressed vars) (v_maintained vars)
      | regressed =>
          mkVars comparisons total analyzed (v_improved vars)
            (v_regressed vars
             ++ [mkArea metric metric_name (Some (score_change comparison))
                   original_val followup_val unit])
            (v_maintained vars)
      | maintained =>
          mkVars comparisons total analyzed (v_improved vars) (v_regressed vars)
            (v_maintained vars
             ++ [mkArea metric metric_name None original_val followup_val unit])
      end
  | _, _ => vars
  end.

Definition analyze_improvement (original_metrics followup_metrics : Metrics)
    : ImprovementResult :=
  let shot := default "FORWARD SHOT"%string (shot_type original_metrics) in
  let followup_shot := default "FORWARD SHOT"%string (shot_type followup_metrics) in
  let vars :=
    fold_left (compare_metric original_metrics followup_metrics shot)
      comparison_metrics (mkVars [] 0%Q 0%nat [] [] []) in
  let avg_improvement :=
    (v_total vars / Qmax (inject_Z (Z.of_nat (v_analyzed vars))) 1)%Q in
  let original_accuracy := _calculate_overall_accuracy original_metrics shot in
  let followup_accuracy := _calculate_overall_accuracy followup_metrics shot in
  let '(overall_verdict, verdict_description) :=
    if Qltb (original_accuracy + 5) followup_accuracy
    then (IMPROVED, "Great progress! Your technique has measurably improved."%string)
    else if Qltb followup_accuracy (original_accuracy - 5)
    then (REGRESSED,
          "Your follow-up attempt shows some regression. This can happen when trying new techniques - keep practicing."%string)
    else if (length (v_regressed vars) <? length (v_improved vars))%nat
    then (SLIGHT_IMPROVEMENT,
          "Marginal improvement detected. You're on the right track but there's more work to do."%string)
    else if (length (v_improved vars) <? length (v_regressed vars))%nat
    then (SLIGHT_REGRESSION,
          "Your technique has slightly regressed. Review the feedback from your first attempt and focus on those areas."%string)
    else (MAINTAINED,
          "Your technique is consistent between attempts. Focus on specific areas to see improvement."%string) in
  mkResult shot followup_shot (v_comparisons vars)
    (v_improved vars) (v_regressed vars) (v_maintained vars)
    original_accuracy followup_accuracy
    (followup_accuracy - original_accuracy)%Q
    overall_verdict verdict_description
    (Qmin (Qmax (50 + avg_improvement) 0) 100).

End Improvement.

(** ** The specification's side

    Definitions that follow the words of the specification, to be compared
    with the code above, and the observations of a run that the properties
    speak about. *)
Module Spec.
Import Analysis.

(** *** Observations of a run *)

(** The frames that were read, each with the state after it. *)
Definition processed (atan2_deg : Q -> Q -> Q) (st : LoopState)
    (frames : list PoseFrame) : list (PoseFrame * LoopState) :=
  combine frames (frame_loop atan2_deg st frames).

(** The frames with landmarks, each with the phase it ended in: the phase
    drawn on the frame, and the accumulator its sample went to. *)
Definition detected_log (atan2_deg : Q -> Q -> Q) (st : LoopState)
    (frames : list PoseFrame) : list (Landmarks * Stage) :=
  omap (fun '(f, st') => match f with
                         | Some lm => Some (lm, stage st')
                         | None => None
                         end)
       (processed atan2_deg st frames).

Definition recorded_phases (atan2_deg : Q -> Q -> Q)
    (frames : list PoseFrame) : list Stage :=
  map snd (detected_log atan2_deg initial_state frames).

(** The samples of the frames that ended in phase [p], in order. *)
Definition samples_in (atan2_deg : Q -> Q -> Q) (p : Stage)
    (log : list (Landmarks * Stage)) : list PhaseSample :=
  map (fun e => frame_sample atan2_deg (fst e))
      (List.filter (fun e => stage_eqb (snd e) p) log).

Definition stage_le (a b : Stage) : Prop := (stage_rank a <= stage_rank b)%nat.

(** The value the generator ends with, if any. *)
Definition terminal (ys : list Yield) : option Metrics :=
  match List.last ys Preview with
  | Terminal m => Some m
  | Preview => None
  end.

(** *** Phase transitions, as the three numbered checks *)

Definition wrist_y (lm : Landmarks) : Q := py (left_wrist lm).
Definition nose_y (lm : Landmarks) : Q := py (nose lm).

(** [enabled i lm s]: the guard of check [i] holds in phase [s]. *)
Definition enabled (i : nat) (lm : Landmarks) (s : Stage) : Prop :=
  match i with
  | 1%nat => (s = STANCE \/ s = BACKLIFT) /\ (wrist_y lm < nose_y lm * 1.1)%Q
  | 2%nat => s = BACKLIFT /\ (nose_y lm * 0.9 < wrist_y lm)%Q
  | 3%nat => s = DOWNSWING /\ (px (right_shoulder lm) < px (left_wrist lm))%Q
  | _ => False
  end.

Definition target (i : nat) : Stage :=
  match i with
  | 1%nat => BACKLIFT
  | 2%nat => DOWNSWING
  | _ => FOLLOW_THROUGH
  end.

(** Check [i] taken on phase [s]: it fires and sets its target, or its
    guard fails and the phase stays. *)
Definition check (i : nat) (lm : Landmarks) (s s' : Stage) : Prop :=
  (enabled i lm s /\ s' = target i) \/ (~ enabled i lm s /\ s' = s).

(** The checks in the order 1, 2, 3, each on the phase the one before
    left. *)
Definition cascade (lm : Landmarks) (s0 s3 : Stage) : Prop :=
  exists s1 s2, check 1 lm s0 s1 /\ check 2 lm s1 s2 /\ check 3 lm s2 s3.

(** *** The classifier, as an ordered list of rules *)

Definition Rule : Type := (ShotFeatures -> bool) * (string * Q).

Definition rules : list Rule :=
  [ (fun f => Qltb (body_rotation f) 15 && Qltb (Qabs (weight_shift f)) 5
              && Qltb (backlift_height f) 0.5,
     ("DEFENSIVE"%string, 0.85%Q));
    (fun f => Qltb 5 (weight_shift f)
              && (Qleb 15 (body_rotation f) && Qleb (body_rotation f) 45),
     ("DRIVE"%string, 0.80%Q));
    (fun f => Qltb 50 (body_rotation f) && Qltb (weight_shift f) 5,
     ("PULL/HOOK"%string, 0.75%Q));
    (fun f => Qltb 45 (body_rotation f) && Qltb (weight_shift f) 3
              && (downswing_len f <? backlift_len f)%nat,
     ("CUT"%string, 0.75%Q));
    (fun f => Qltb 60 (body_rotation f),
     ("SWEEP"%string, 0.70%Q));
    (fun f => Qltb 1.2 (backlift_height f) && Qltb 30 (body_rotation f),
     ("LOFTED"%string, 0.70%Q)) ].

Definition otherwise : string * Q := ("FORWARD SHOT"%string, 0.60%Q).

(** First match wins. *)
Definition first_match (rs : list Rule) (f : ShotFeatures) : string * Q :=
  match List.find (fun r => fst r f) rs with
  | Some r => snd r
  | None => otherwise
  end.

(** *** The aggregator's conventions *)

Definition mean0 (l : list Q) : Q :=
  match l with
  | [] => 0%Q
  | _ => (qsum l / qlen l)%Q
  end.

Definition last0 (l : list Q) : Q := List.last l 0%Q.

Definition max0 (l : list Q) : Q :=
  match l with
  | [] => 0%Q
  | x :: xs => fold_left Qmax xs x
  end.

Definition spec_body_rotation_total (pd : PhaseData) : Q :=
  Qabs (mean0 (body_directions (pd_stance pd))
        - last0 (body_directions (pd_downswing pd))).

Definition spec_weight_transfer_amount (pd : PhaseData) : Q :=
  ((last0 (weight_transfers (pd_downswing pd))
    - mean0 (weight_transfers (pd_stance pd))) * 100)%Q.

(** The aggregated record, key by key, for the label the classifier gave. *)
Definition aggregate_scalars (pd : PhaseData) (confidence : Q) : list (string * Q) :=
  let stance_dir := mean0 (body_directions (pd_stance pd)) in
  let impact_dir := last0 (body_directions (pd_downswing pd)) in
  let stance_head := mean0 (head_directions (pd_stance pd)) in
  let downswing_head := mean0 (head_directions (pd_downswing pd)) in
  let stance_knee := mean0 (knee_angles (pd_stance pd)) in
  let downswing_knee := mean0 (knee_angles (pd_downswing pd)) in
  [ ("stance_body_direction", stance_dir);
    ("impact_body_direction", impact_dir);
    ("stance_leg_direction", mean0 (leg_directions (pd_stance pd)));
    ("impact_leg_direction", last0 (leg_directions (pd_downswing pd)));
    ("weight_transfer_amount", spec_weight_transfer_amount pd);
    ("max_elbow_angle", max0 (elbow_angles pd));
    ("stance_knee_angle", stance_knee);
    ("downswing_knee_angle", downswing_knee);
    ("stance_head_direction", stance_head);
    ("downswing_head_direction", downswing_head);
    ("shot_confidence", confidence);
    ("body_rotation_total", Qabs (stance_dir - impact_dir));
    ("head_movement", Qabs (stance_head - downswing_head));
    ("knee_bracing", (downswing_knee - stance_knee)%Q) ]%string.

Definition aggregate (pd : PhaseData) (label : string * Q) : Metrics :=
  mkMetrics (list_to_map (aggregate_scalars pd (snd label)))
    (Some (fst label))
    (Some (body_directions (pd_stance pd) ++ body_directions (pd_backlift pd)
           ++ body_directions (pd_downswing pd)
           ++ body_directions (pd_follow_through pd))).

(** The indicators of the classifier, written without the error monad. *)
Definition features_of (pd : PhaseData) : ShotFeatures :=
  mkFeatures
    (if truthy (body_directions (pd_stance pd))
        && truthy (body_directions (pd_downswing pd))
     then Qabs (np_mean (body_directions (pd_stance pd))
                - last0 (body_directions (pd_downswing pd)))
     else 0%Q)
    (if truthy (weight_transfers (pd_stance pd))
        && truthy (weight_transfers (pd_downswing pd))
     then ((last0 (weight_transfers (pd_downswing pd))
            - np_mean (weight_transfers (pd_stance pd))) * 100)%Q
     else 0%Q)
    (qlen (knee_angles (pd_backlift pd)) / Qmax (qlen (knee_angles (pd_stance pd))) 1)%Q
    (length (knee_angles (pd_downswing pd)))
    (length (knee_angles (pd_backlift pd))).

(** The claim that the classifier and the aggregator read the same
    rotation and the same shift off the accumulators [pd]. *)
Definition features_agree (pd : PhaseData) : Prop :=
  exists f r w,
    shot_features pd = Ok f
    /\ scalars (final_metrics pd) !! "body_rotation_total"%string = Some r
    /\ scalars (final_metrics pd) !! "weight_transfer_amount"%string = Some w
    /\ (body_rotation f == r)%Q /\ (weight_shift f == w)%Q.

(** A frame without landmarks. *)
Definition undetected (f : PoseFrame) : Prop := f = None.

(** The claim that a run ends with every scalar 0 and the label UNKNOWN. *)
Definition zero_and_unknown (m : Metrics) : Prop :=
  shot_type m = Some "UNKNOWN"%string
  /\ forall k, In k scalar_keys -> exists v, scalars m !! k = Some v /\ (v == 0)%Q.

(** *** The score of a value against a band *)

Definition mid (lo hi : Q) : Q := ((lo + hi) / 2)%Q.
Definition half (lo hi : Q) : Q := ((hi - lo) / 2)%Q.

(** Distance from [v] to the nearer edge of the band. *)
Definition edge_distance (v lo hi : Q) : Q := Qmin (Qabs (v - lo)) (Qabs (v - hi)).

(** The score outside the band, by the distance [d] to the nearer edge. *)
Definition penalised (d : Q) : Q := Qmax (80 - Qmin (d * 2) 50) 20.

(** An entry of [metric_comparisons] was scored against the band of the
    label [shot]. *)
Definition banded_by (shot : string) (entry : string * Improvement.Comparison) : Prop :=
  let '(metric, c) := entry in
  Improvement.optimal_range c = Improvement._get_optimal_range metric shot
  /\ Improvement.original_score c
     = Improvement._calculate_metric_score (Improvement.original_value c)
         (Improvement.optimal_range c)
  /\ Improvement.followup_score c
     = Improvement._calculate_metric_score (Improvement.followup_value c)
         (Improvement.optimal_range c)
  /\ Improvement.score_change c
     = (Improvement.followup_score c - Improvement.original_score c)%Q.

End Spec.

(** ** Concrete inputs for the closed examples *)
Module Examples.
Import Analysis.

(** The properties below hold for every function in the place of
    [atan2_deg]; closed examples take the one that is 0 everywhere. *)
Definition flat_atan2 : Q -> Q -> Q := fun _ _ => 0%Q.

(** A batter side-on, with the wrist, the nose, the right shoulder, and
    the [x] of hips and ankles as given. *)
Definition pose (wrist nose_at shoulder : Point) (hip_x ankle_x : Q) : Landmarks :=
  mkLandmarks (0.5, 0.3)%Q (0.5, 0.4)%Q wrist shoulder nose_at
    (hip_x, 0.6)%Q (0.5, 0.75)%Q (ankle_x, 0.9)%Q
    (hip_x, 0.6)%Q (0.5, 0.75)%Q (ankle_x, 0.9)%Q.

(** Wrist well below the nose (larger [y]): the phase stays STANCE. *)
Definition stance_pose : Landmarks :=
  pose (0.5, 0.8)%Q (0.5, 0.2)%Q (0.4, 0.3)%Q 0.6 0.5.

(** Wrist above nine tenths of the nose height: BACKLIFT. *)
Definition backlift_pose : Landmarks :=
  pose (0.5, 0.1)%Q (0.5, 0.2)%Q (0.4, 0.3)%Q 0.5 0.5.

(** Wrist level with the nose and past the right shoulder: the three
    checks fire one after another. *)
Definition cascade_pose : Landmarks :=
  pose (0.6, 0.2)%Q (0.5, 0.2)%Q (0.4, 0.3)%Q 0.5 0.5.

(** Wrist level with the nose and short of the right shoulder: checks 1
    and 2 fire, check 3 does not. *)
Definition downswing_pose : Landmarks :=
  pose (0.3, 0.2)%Q (0.5, 0.2)%Q (0.4, 0.3)%Q 0.5 0.5.

Definition lists_of (n : nat) (body wt : Q) : PhaseLists :=
  mkPhaseLists (repeat 0%Q n) (repeat 0%Q n) (repeat 0%Q n)
    (repeat body n) (repeat wt n).

(** Ten frames of stance, three of backlift, one of downswing: rotation
    10, shift 2, backlift ratio 0.3. *)
Definition defensive_data : PhaseData :=
  mkPhaseData (lists_of 10 0 0) (lists_of 3 0 0) (lists_of 1 10 0.02)
    (lists_of 0 0 0) [170%Q].

(** Two attempts at a drive: the first with a bent arm and little
    transfer, the second close to the middle of every band. *)
Definition original_attempt : Metrics :=
  mkMetrics
    (list_to_map [ ("max_elbow_angle", 150); ("weight_transfer_amount", 2);
                   ("body_rotation_total", 10); ("head_movement", 15) ]%string%Q)
    (Some "DRIVE"%string) None.

Definition followup_attempt (category : option string) : Metrics :=
  mkMetrics
    (list_to_map [ ("max_elbow_angle", 170); ("weight_transfer_amount", 10);
                   ("body_rotation_total", 30); ("head_movement", 7) ]%string%Q)
    category None.

(** The record of a run in which no frame had landmarks. *)
Definition undetected_record : Metrics := final_metrics empty_phase_data.

(** A defensive shot known only by a weight transfer of 7. *)
Definition defensive_transfer : Metrics :=
  mkMetrics {[ "weight_transfer_amount"%string := 7%Q ]} (Some "DEFENSIVE"%string) None.

End Examples.

(** ** Further observations of a run *)
Module RunFacts.
Import Analysis.

(** The frames in which landmarks were found. *)
Definition has_landmarks (f : PoseFrame) : bool :=
  match f with
  | Some _ => true
  | None => false
  end.

Definition detected_only (frames : list PoseFrame) : list PoseFrame :=
  List.filter has_landmarks frames.

(** The five lists of a phase all have [n] entries. *)
Definition parallel (l : PhaseLists) (n : nat) : Prop :=
  length (knee_angles l) = n /\ length (leg_directions l) = n
  /\ length (head_directions l) = n /\ length (body_directions l) = n
  /\ length (weight_transfers l) = n.

(** What the loop keeps true of its state. *)
Definition consistent (st : LoopState) : Prop :=
  (exists n, parallel (pd_stance (phase_data st)) n)
  /\ (exists n, parallel (pd_backlift (phase_data st)) n)
  /\ parallel (pd_downswing (phase_data st)) (length (elbow_angles (phase_data st)))
  /\ parallel (pd_follow_through (phase_data st)) (follow_through_frames st)
  /\ (stage st <> FOLLOW_THROUGH -> follow_through_frames st = 0%nat).

(** The values of [atan2_deg] lie between -180 and 180. *)
Definition in_half_turns (atan2_deg : Q -> Q -> Q) : Prop :=
  forall dy dx, (-180 <= atan2_deg dy dx)%Q /\ (atan2_deg dy dx <= 180)%Q.

End RunFacts.

(** ** Further notions for [ImprovementEngine] *)
Module ComparisonFacts.
Import Improvement.

(** A band whose lower edge is not above its upper edge, and a table of
    such bands. *)
Definition ordered (r : Range) : bool := Qleb (fst r) (snd r).

Definition table_ok (t : gmap string Range) : bool :=
  forallb (fun e => ordered (snd e)) (map_to_list t).

(** The label [analyze_improvement] reads off a record. *)
Definition label_of (m : Metrics) : string :=
  default "FORWARD SHOT"%string (shot_type m).

(** The record carries the metric: [metric in metrics]. *)
Definition carries (m : Metrics) (metric : string) : bool :=
  match scalars m !! metric with Some _ => true | None => false end.

(** A metric that both records carry. *)
Definition compared (a b : Metrics) (metric : string) : bool :=
  carries a metric && carries b metric.

(** The status the comparison of [a] with [b] gives a metric, if both
    records carry it. *)
Definition status_of (a b : Metrics) (shot metric : string) : option DeltaStatus :=
  match scalars a !! metric, scalars b !! metric with
  | Some va, Some vb =>
      Some (delta_status
              (_calculate_improvement_delta va vb (_get_optimal_range metric shot)
                 metric shot))
  | _, _ => None
  end.

Definition delta_status_eqb (s s' : DeltaStatus) : bool :=
  match s, s' with
  | improved, improved | regressed, regressed | maintained, maintained => true
  | _, _ => false
  end.

Definition filed (a b : Metrics) (shot : string) (s : DeltaStatus)
    (metric : string) : bool :=
  match status_of a b shot metric with
  | Some s' => delta_status_eqb s s'
  | None => false
  end.

(** The list of the result that holds the areas of a status. *)
Definition areas (s : DeltaStatus) (r : ImprovementResult) : list Area :=
  match s with
  | improved => improved_areas r
  | regressed => regressed_areas r
  | maintained => maintained_areas r
  end.



(** The verdict as lines 953 to 967 decide it, from the two accuracies and
    the numbers of improved and regressed areas. *)
Definition verdict_of (original_accuracy followup_accuracy : Q)
    (n_improved n_regressed : nat) : Verdict :=
  if Qltb (original_accuracy + 5) followup_accuracy then IMPROVED
  else if Qltb followup_accuracy (original_accuracy - 5) then REGRESSED
  else if (n_regressed <? n_improved)%nat then SLIGHT_IMPROVEMENT
  else if (n_improved <? n_regressed)%nat then SLIGHT_REGRESSION
  else MAINTAINED.

(** The scores [_calculate_overall_accuracy] collects over a list of
    metrics, from the scores collected so far. *)
Definition scores_of (metrics : Metrics) (shot : string) (l : list string)
    (acc : list Q) : list Q :=
  fold_left
    (fun scores metric =>
       match scalars metrics !! metric with
       | Some v => scores ++ [_calculate_metric_score v (_get_optimal_range metric shot)]
       | None => scores
       end) l acc.

(** A list of numbers whose mean, if it has one, lies between [lo] and [hi]. *)
Definition sum_between (lo hi : Q) (l : list Q) : Prop :=
  (lo * qlen l <= qsum l /\ qsum l <= hi * qlen l)%Q.

Definition sum_in_range (l : list Q) : Prop := sum_between 20 100 l.

(** What the loop over the compared metrics has added to its variables
    [v0] after the metrics [l]. *)
Definition files (a b : Metrics) (shot : string) (l : list string)
    (v0 v : LoopVars) : Prop :=
  map fst (v_comparisons v)
  = map fst (v_comparisons v0) ++ List.filter (compared a b) l
  /\ map area_metric (v_improved v)
     = map area_metric (v_improved v0) ++ List.filter (filed a b shot improved) l
  /\ map area_metric (v_regressed v)
     = map area_metric (v_regressed v0) ++ List.filter (filed a b shot regressed) l
  /\ map area_metric (v_maintained v)
     = map area_metric (v_maintained v0) ++ List.filter (filed a b shot maintained) l
  /\ v_analyzed v = (v_analyzed v0 + length (List.filter (compared a b) l))%nat.

(** An area that carries the key ['change']. *)
Definition has_change (area : Area) : Prop := area_change area <> None.

End ComparisonFacts.

(** ** [AdviceEngine]: feedback on a comparison, and the narrative *)
Module Feedback.
Import Improvement Advice.

(** [l[i]] for an index that is not negative. *)
Definition py_item {A} (l : list A) (i : nat) : Result A :=
  match nth_error l i with
  | Some x => Ok x
  | None => Raise IndexError
  end.

(** A loop whose body can raise. *)
Fixpoint for_each {A S} (body : S -> A -> Result S) (l : list A) (s : S)
    : Result S :=
  match l with
  | [] => Ok s
  | x :: rest => s' ← body s x; for_each body rest s'
  end.

(** *** [_get_focus_recommendations] *)

(** The body of the loop over the regressed areas. *)
Definition focus_step (shot_type : string) (recommendations : list string)
    (area : Area) : list string :=
  let metric := area_metric area in
  if String.eqb metric "max_elbow_angle" then
    recommendations ++ [ "🎯 Focus on elbow extension - keep your front arm straighter through the shot" ]%string
  else if String.eqb metric "weight_transfer_amount" then
    if in_list shot_type ["DRIVE"; "FORWARD SHOT"; "LOFTED"]%string then
      recommendations ++ [ "🎯 Work on weight transfer - commit more to moving forward into the shot" ]%string
    else
      recommendations ++ [ "🎯 Adjust weight distribution - for this shot, stay more balanced or back" ]%string
  else if String.eqb metric "body_rotation_total" then
    if in_list shot_type ["PULL/HOOK"; "CUT"; "SWEEP"]%string then
      recommendations ++ [ "🎯 Generate more power through hip and shoulder rotation" ]%string
    else if String.eqb shot_type "DEFENSIVE" then
      recommendations ++ [ "🎯 Minimize body rotation - defensive shots need stillness" ]%string
    else
      recommendations ++ [ "🎯 Optimize body rotation for better power and control" ]%string
  else if String.eqb metric "head_movement" then
    recommendations ++ [ "🎯 Keep your head still - excessive movement disrupts timing" ]%string
  else recommendations.

Definition consistency_focus : string := "🎯 Focus on consistency - practice the same shot repeatedly with attention to form"%string.
Definition timing_focus : string := "🎯 Continue working on timing and balance throughout your shot"%string.

Definition _get_focus_recommendations (analysis : ImprovementResult) : list string :=
  let shot_type := result_shot_type analysis in
  let recommendations :=
    fold_left (focus_step shot_type) (regressed_areas analysis) [] in
  let recommendations :=
    if truthy recommendations then recommendations
    else
      let recommendations :=
        match overall_verdict analysis with
        | MAINTAINED | SLIGHT_REGRESSION => recommendations ++ [consistency_focus]
        | _ => recommendations
        end in
      recommendations ++ [timing_focus] in
  firstn 3 recommendations.

(** A focus text that is neither of the two general ones. *)
Definition specific (text : string) : Prop :=
  text <> timing_focus /\ text <> consistency_focus.

(** *** [_get_improvement_drills] *)

(** A value of [drill_database]: a list of drills, or the dict with the
    keys ['forward'] and ['back']. *)
Inductive DrillEntry : Type :=
| DrillList (l : list string)
| DrillDict (forward back : list string).

Definition forward_drills : list string :=
  [ "Step and drive: Exaggerate stepping into the shot during practice";
    "Single stump drill: Focus on driving through the line towards a single stump";
    "Weighted bat practice: Builds strength for committed forward movement" ]%string.

Definition back_drills : list string :=
  [ "Back foot punch drill: Practice quick weight shifts to back foot";
    "Short ball reaction drill: Tennis ball bouncer practice for back foot shots" ]%string.

Definition drill_database : gmap string DrillEntry :=
  list_to_map
    [ ("max_elbow_angle",
       DrillList
         [ "Shadow batting drill: Practice with focus on full arm extension at impact point";
           "Wall drill: Stand sideways to wall, practice extending arm without hitting wall";
           "Mirror work: Watch your elbow position throughout the swing" ]);
      ("weight_transfer_amount", DrillDict forward_drills back_drills);
      ("body_rotation_total",
       DrillList
         [ "Hip rotation exercise: Practice rotating hips while keeping head still";
           "Core strengthening: Planks and rotational exercises improve power generation";
           "Resistance band rotation: Builds muscle memory for proper rotation" ]);
      ("head_movement",
       DrillList
         [ "Balance book drill: Practice with object balanced on head (forces stillness)";
           "Eyes on ball drill: Track the ball with only your eyes, not your head";
           "Video analysis: Record yourself and check head position frame by frame" ]) ]%string.

(** The body of the loop over the regressed areas; indexing a dict with
    [0] raises [KeyError]. *)
Definition regressed_drill (shot_type : string) (drills : list string)
    (area : Area) : Result (list string) :=
  let metric := area_metric area in
  if String.eqb metric "weight_transfer_amount" then
    if in_list shot_type ["DRIVE"; "FORWARD SHOT"; "LOFTED"]%string
    then Ok (drills ++ firstn 1 forward_drills)
    else Ok (drills ++ firstn 1 back_drills)
  else
    match drill_database !! metric with
    | Some (DrillList l) => drill ← py_item l 0; Ok (drills ++ [drill])
    | Some (DrillDict _ _) => Raise KeyError
    | None => Ok drills
    end.

(** The body of the loop over the maintained areas. *)
Definition maintained_drill (drills : list string) (area : Area)
    : Result (list string) :=
  let metric := area_metric area in
  match drill_database !! metric with
  | Some entry =>
      if (length drills <? 3)%nat then
        match entry with
        | DrillList l =>
            drill ← (if (1 <? length l)%nat then py_item l 1 else py_item l 0);
            Ok (drills ++ [drill])
        | DrillDict _ _ => Ok drills
        end
      else Ok drills
  | None => Ok drills
  end.

Definition general_drills : list string :=
  [ "General: Practice the shot 20-30 times focusing on one aspect at a time";
    "Video review: Record each session and compare to identify patterns" ]%string.

Definition _get_improvement_drills (analysis : ImprovementResult)
    : Result (list string) :=
  let shot_type := result_shot_type analysis in
  drills ← for_each (regressed_drill shot_type) (regressed_areas analysis) [];
  drills ← for_each maintained_drill (maintained_areas analysis) drills;
  let drills :=
    if (length drills <? 2)%nat then drills ++ general_drills else drills in
  Ok (firstn 4 drills).

(** *** [generate_improvement_feedback] *)

Record FeedbackResult : Type := mkFeedback {
  summary : string;
  improvements : list string;
  regressions : list string;
  focus_areas : list string;
  drills : list string
}.

Section WithFormat.

(** [format_0f v] and [format_1f v]: the texts of [f"{v:.0f}"] and
    [f"{v:.1f}"]. *)
Variable format_0f : Q -> string.
Variable format_1f : Q -> string.

Definition summary_text (analysis : ImprovementResult) : string :=
  match overall_verdict analysis with
  | IMPROVED =>
      ("Excellent work! Your accuracy improved from " +:+ format_0f (original_accuracy analysis) +:+ "/100 to "
       +:+ format_0f (followup_accuracy analysis) +:+ "/100. Your dedication to practice is paying off.")%string
  | REGRESSED =>
      ("Your accuracy dropped from " +:+ format_0f (original_accuracy analysis) +:+ "/100 to "
       +:+ format_0f (followup_accuracy analysis) +:+ "/100. Don't be discouraged - this often happens "
       +:+ "when making technical changes. Review the original advice and try again.")%string
  | SLIGHT_IMPROVEMENT =>
      ("You're making progress! Accuracy moved from " +:+ format_0f (original_accuracy analysis) +:+ "/100 to "
       +:+ format_0f (followup_accuracy analysis) +:+ "/100. Keep working on the areas highlighted below.")%string
  | SLIGHT_REGRESSION =>
      ("Your accuracy dipped slightly from " +:+ format_0f (original_accuracy analysis) +:+ "/100 to "
       +:+ format_0f (followup_accuracy analysis) +:+ "/100. Focus on the fundamentals and try again.")%string
  | MAINTAINED =>
      ("Your technique is consistent at " +:+ format_0f (followup_accuracy analysis) +:+ "/100. "
       +:+ "To see improvement, focus specifically on the areas marked for improvement.")%string
  end.

(** [area['change']] raises [KeyError] on an area without that key. *)
Definition improvement_line (area : Area) : Result string :=
  match area_change area with
  | Some change =>
      Ok ("✅ " +:+ area_name area +:+ ": Improved from "
          +:+ format_1f (from_value area) +:+ area_unit area +:+ " to "
          +:+ format_1f (to_value area) +:+ area_unit area +:+ " (+"
          +:+ format_0f change +:+ " points)")%string
  | None => Raise KeyError
  end.

Definition regression_line (area : Area) : Result string :=
  match area_change area with
  | Some change =>
      Ok ("⚠️ " +:+ area_name area +:+ ": Regressed from "
          +:+ format_1f (from_value area) +:+ area_unit area +:+ " to "
          +:+ format_1f (to_value area) +:+ area_unit area +:+ " ("
          +:+ format_0f change +:+ " points)")%string
  | None => Raise KeyError
  end.

Definition append_line (line : Area -> Result string) (lines : list string)
    (area : Area) : Result (list string) :=
  text ← line area; Ok (lines ++ [text]).

Definition generate_improvement_feedback (analysis : ImprovementResult)
    : Result FeedbackResult :=
  let summary := summary_text analysis in
  improvements ←
    for_each (append_line improvement_line) (improved_areas analysis) [];
  regressions ←
    for_each (append_line regression_line) (regressed_areas analysis) [];
  let focus_recommendations := _get_focus_recommendations analysis in
  drills ← _get_improvement_drills analysis;
  Ok (mkFeedback summary improvements regressions focus_recommendations drills).

End WithFormat.

(** *** [_generate_fallback_narrative] *)

Definition _generate_fallback_narrative (advice : AdviceResult) : string :=
  let shot_type := advice_shot_type advice in
  let strength_text :=
    if truthy (strengths advice) && (0 <? length (strengths advice))%nat
    then "Your technique shows good fundamentals"%string
    else "Keep working on the basics"%string in
  let focus_text :=
    if truthy (flaws advice) && (0 <? length (flaws advice))%nat
    then "Focus on the areas highlighted above for improvement"%string
    else "Continue refining your current technique"%string in
  ("Good effort on your " +:+ shot_type +:+ ". " +:+ strength_text +:+ ". "
   +:+ focus_text +:+ ". Consistent practice will help you develop muscle memory and confidence.")%string.

End Feedback.

(** ** [app.py]: the overall performance score *)
Module Performance.

(** The four blocks of [calculate_overall_performance_score], each of which
    appends at most one score. *)
Definition elbow_extension_score (metrics : Metrics) (scores : list Q) : list Q :=
  match scalars metrics !! "max_elbow_angle"%string with
  | Some elbow_angle =>
      if Qleb 165 elbow_angle then scores ++ [100%Q]
      else if Qleb 155 elbow_angle then scores ++ [80%Q]
      else if Qleb 140 elbow_angle then scores ++ [60%Q]
      else scores ++ [40%Q]
  | None => scores
  end.

Definition head_stability_score (metrics : Metrics) (scores : list Q) : list Q :=
  match scalars metrics !! "head_movement"%string with
  | Some head_movement =>
      if Qleb head_movement 8 then scores ++ [100%Q]
      else if Qleb head_movement 15 then scores ++ [80%Q]
      else if Qleb head_movement 25 then scores ++ [60%Q]
      else scores ++ [40%Q]
  | None => scores
  end.

Definition body_rotation_score (metrics : Metrics) (scores : list Q) : list Q :=
  match scalars metrics !! "body_rotation_total"%string with
  | Some rotation =>
      let shot_type := default "UNKNOWN"%string (shot_type metrics) in
      if Advice.in_list shot_type ["PULL/HOOK"; "CUT"; "SWEEP"]%string then
        if Qleb 45 rotation then scores ++ [100%Q]
        else if Qleb 30 rotation then scores ++ [80%Q]
        else if Qleb 20 rotation then scores ++ [60%Q]
        else scores ++ [40%Q]
      else if String.eqb shot_type "DEFENSIVE" then
        if Qleb rotation 15 then scores ++ [100%Q]
        else if Qleb rotation 25 then scores ++ [80%Q]
        else scores ++ [60%Q]
      else
        if Qleb 20 rotation && Qleb rotation 45 then scores ++ [100%Q]
        else if Qleb 15 rotation && Qleb rotation 60 then scores ++ [80%Q]
        else scores ++ [60%Q]
  | None => scores
  end.

Definition weight_transfer_score (metrics : Metrics) (scores : list Q) : list Q :=
  match scalars metrics !! "weight_transfer_amount"%string with
  | Some transfer =>
      let shot_type := default "UNKNOWN"%string (shot_type metrics) in
      if Advice.in_list shot_type ["DRIVE"; "FORWARD SHOT"; "LOFTED"]%string then
        if Qleb 8 transfer then scores ++ [100%Q]
        else if Qleb 3 transfer then scores ++ [80%Q]
        else if Qleb 0 transfer then scores ++ [60%Q]
        else scores ++ [40%Q]
      else if Advice.in_list shot_type ["PULL/HOOK"; "CUT"]%string then
        if Qleb transfer 2 then scores ++ [100%Q]
        else if Qleb transfer 5 then scores ++ [80%Q]
        else scores ++ [60%Q]
      else
        if Qleb 0 transfer && Qleb transfer 5 then scores ++ [100%Q]
        else scores ++ [80%Q]
  | None => scores
  end.

(** The keys the score reads, in the order of the blocks. *)
Definition scored_metrics : list string :=
  [ "max_elbow_angle"; "head_movement"; "body_rotation_total";
    "weight_transfer_amount" ]%string.

(** [calculate_overall_performance_score]; [round] with one argument
    yields an [int]. *)
Definition calculate_overall_performance_score (metrics : Metrics) : Z :=
  let scores := [] in
  let scores := elbow_extension_score metrics scores in
  let scores := head_stability_score metrics scores in
  let scores := body_rotation_score metrics scores in
  let scores := weight_transfer_score metrics scores in
  if truthy scores then round_half_even (qsum scores / qlen scores) else 0%Z.

End Performance.

(** ** Further notions for the overall performance score *)
Module PerformanceFacts.
Import ComparisonFacts Performance.

(** What a block of the score does to the list of scores: nothing when
    the record lacks the key, one score between 40 and 100 otherwise. *)
Definition appends_one (block : Metrics -> list Q -> list Q) (key : string) : Prop :=
  forall metrics scores,
    if carries metrics key
    then exists s, block metrics scores = scores ++ [s] /\ (40 <= s)%Q /\ (s <= 100)%Q
    else block metrics scores = scores.

End PerformanceFacts.

(** ** Further notions for [generate_advice] *)
Module AdviceFacts.
Import Advice.

(** An item of the metric analysis with a given status. *)
Definition has_status (s : Status) (item : string * MetricAnalysis) : bool :=
  status_eqb (status (snd item)) s.

(** The flawed items in the order of their priority: the poor ones, then
    the ones that need improvement, each group in the order of evaluation. *)
Definition ranked_flaws (items : list (string * MetricAnalysis))
    : list (string * MetricAnalysis) :=
  List.filter (has_status poor) items
  ++ List.filter (has_status needs_improvement) items.

(** The entry [flaw_step] makes of a flawed item. *)
Definition with_priority (item : string * MetricAnalysis)
    : string * MetricAnalysis * Priority :=
  (fst item, snd item,
   if status_eqb (status (snd item)) poor then prio_high else prio_medium).

(** A list, or the one generic text in its place if it is empty. *)
Definition or_generic (l : list string) (generic : string) : list string :=
  if truthy l then l else [generic].

End AdviceFacts.

(** ** Properties of [analysis.py] *)
Module AnalysisTheory.
Import Analysis Spec Examples.

Lemma Qltb_lt (a b : Q) : Qltb a b = true <-> (a < b)%Q.
Proof.
  unfold Qltb. rewrite negb_true_iff, <- not_true_iff_false, Qle_bool_iff.
  split; [apply Qnot_le_lt | apply Qlt_not_le].
Qed.

Lemma Qleb_le (a b : Q) : Qleb a b = true <-> (a <= b)%Q.
Proof. apply Qle_bool_iff. Qed.

Lemma Qltb_nlt (a b : Q) : Qltb a b = false <-> ~ (a < b)%Q.
Proof. rewrite <- Qltb_lt. destruct (Qltb a b); split; congruence. Qed.

Lemma stage_eqb_eq (a b : Stage) : stage_eqb a b = true <-> a = b.
Proof. destruct a, b; simpl; split; congruence. Qed.

(** **** The phase only moves forward *)

Lemma resolve_unknown_le s : stage_le s (resolve_unknown s).
Proof. destruct s; unfold stage_le; simpl; lia. Qed.

Lemma check1_le lm s : stage_le s (check1 lm s).
Proof.
  unfold check1, stage_le.
  destruct s; simpl; try lia; destruct (Qltb _ _); simpl; lia.
Qed.

Lemma check2_le lm s : stage_le s (check2 lm s).
Proof.
  unfold check2, stage_le.
  destruct s; simpl; try lia; destruct (Qltb _ _); simpl; lia.
Qed.

Lemma check3_le lm s : stage_le s (check3 lm s).
Proof.
  unfold check3, stage_le.
  destruct s; simpl; try lia; destruct (Qltb _ _); simpl; lia.
Qed.

Lemma detect_phase_le lm s : stage_le s (detect_phase lm s).
Proof.
  unfold detect_phase.
  pose proof (resolve_unknown_le s).
  pose proof (check1_le lm (resolve_unknown s)).
  pose proof (check2_le lm (check1 lm (resolve_unknown s))).
  pose proof (check3_le lm (check2 lm (check1 lm (resolve_unknown s)))).
  unfold stage_le in *. lia.
Qed.

Lemma detect_phase_known lm s : detect_phase lm s <> UNKNOWN.
Proof.
  pose proof (detect_phase_le lm s) as H.
  pose proof (resolve_unknown_le s) as H0.
  unfold detect_phase in *.
  intros E.
  assert (stage_rank (resolve_unknown s) >= 1)%nat by (destruct s; simpl; lia).
  pose proof (check1_le lm (resolve_unknown s)).
  pose proof (check2_le lm (check1 lm (resolve_unknown s))).
  pose proof (check3_le lm (check2 lm (check1 lm (resolve_unknown s)))).
  unfold stage_le in *. rewrite E in *. simpl in *. lia.
Qed.

Section Run.
Variable atan2_deg : Q -> Q -> Q.

Lemma process_frame_some st lm :
  process_frame atan2_deg st (Some lm) = process_landmarks atan2_deg st lm.
Proof. reflexivity. Qed.

Lemma process_frame_none st : process_frame atan2_deg st None = st.
Proof. reflexivity. Qed.

Lemma process_frame_le st f :
  stage_le (stage st) (stage (process_frame atan2_deg st f)).
Proof.
  destruct f as [lm|].
  - rewrite process_frame_some. apply detect_phase_le.
  - rewrite process_frame_none. unfold stage_le; lia.
Qed.

(** Every state of the loop is at or after the phase it started from,
    and the phases come in order. *)
Lemma frame_loop_sorted frames : forall st,
  Forall (fun st' => stage_le (stage st) (stage st')) (frame_loop atan2_deg st frames)
  /\ StronglySorted stage_le (map stage (frame_loop atan2_deg st frames)).
Proof.
  induction frames as [|f rest IH]; intros st; simpl.
  - split; constructor.
  - pose proof (process_frame_le st f) as Hstep.
    set (st' := process_frame atan2_deg st f) in *.
    destruct (stop_after st').
    + split; repeat constructor; assumption.
    + destruct (IH st') as [Hall Hsorted].
      split.
      * constructor; [assumption|].
        eapply List.Forall_impl; [|exact Hall].
        intros a Ha. unfold stage_le in *. simpl in *. lia.
      * simpl. constructor; [assumption|].
        apply List.Forall_map. exact Hall.
Qed.

End Run.

(** **** The run, frame by frame *)

Lemma last_cons_indep {A} (l : list A) : forall x d d',
  List.last (x :: l) d = List.last (x :: l) d'.
Proof.
  induction l as [|y l IH]; intros x d d'; [reflexivity|].
  change (List.last (y :: l) d = List.last (y :: l) d'). apply IH.
Qed.

Section Log.
Variable atan2_deg : Q -> Q -> Q.

Lemma detected_log_nil st : detected_log atan2_deg st [] = [].
Proof. reflexivity. Qed.

Lemma detected_log_cons st f rest :
  detected_log atan2_deg st (f :: rest) =
  (match f with
   | Some lm => [(lm, stage (process_frame atan2_deg st f))]
   | None => []
   end)
  ++ (if stop_after (process_frame atan2_deg st f) then []
      else detected_log atan2_deg (process_frame atan2_deg st f) rest).
Proof.
  unfold detected_log, processed. simpl.
  destruct (stop_after (process_frame atan2_deg st f)).
  - destruct rest; destruct f; reflexivity.
  - destruct f; reflexivity.
Qed.

Lemma final_cons st f rest :
  List.last (frame_loop atan2_deg st (f :: rest)) st =
  if stop_after (process_frame atan2_deg st f) then process_frame atan2_deg st f
  else List.last (frame_loop atan2_deg (process_frame atan2_deg st f) rest)
         (process_frame atan2_deg st f).
Proof.
  simpl. destruct (stop_after _); [reflexivity|].
  destruct (frame_loop atan2_deg (process_frame atan2_deg st f) rest) eqn:E;
    [reflexivity|].
  apply last_cons_indep.
Qed.

(** The recorded phases are at or after the starting phase, in order,
    and never the placeholder. *)
Lemma detected_log_sorted frames : forall st,
  Forall (fun e => stage_le (stage st) (snd e) /\ snd e <> UNKNOWN)
         (detected_log atan2_deg st frames)
  /\ StronglySorted stage_le (map snd (detected_log atan2_deg st frames)).
Proof.
  induction frames as [|f rest IH]; intros st.
  - rewrite detected_log_nil. split; constructor.
  - rewrite detected_log_cons.
    pose proof (process_frame_le atan2_deg st f) as Hstep.
    set (st' := process_frame atan2_deg st f) in *.
    assert (Htail :
      Forall (fun e => stage_le (stage st') (snd e) /\ snd e <> UNKNOWN)
        (if stop_after st' then [] else detected_log atan2_deg st' rest)
      /\ StronglySorted stage_le
           (map snd (if stop_after st' then [] else detected_log atan2_deg st' rest))).
    { destruct (stop_after st'); [split; constructor | apply IH]. }
    destruct Htail as [Hall Hsorted].
    assert (Hall' :
      Forall (fun e => stage_le (stage st) (snd e) /\ snd e <> UNKNOWN)
        (if stop_after st' then [] else detected_log atan2_deg st' rest)).
    { eapply List.Forall_impl; [|exact Hall].
      intros e [He Hk]. split; [|exact Hk]. unfold stage_le in *. lia. }
    destruct f as [lm|]; simpl.
    + split.
      * constructor; [|exact Hall'].
        split; [exact Hstep|]. simpl.
        subst st'. apply detect_phase_known.
      * constructor; [exact Hsorted|].
        apply List.Forall_map.
        eapply List.Forall_impl; [|exact Hall]. intros e [He _]. exact He.
    + split; assumption.
Qed.

End Log.

(** **** What a frame stores, and where *)

Lemma store_sample_get pd s x p :
  s <> UNKNOWN ->
  phase_get (store_sample pd s x) p =
  if stage_eqb s p
  then option_map (fun l => append_sample l x) (phase_get pd p)
  else phase_get pd p.
Proof. intros Hs. destruct s, p; try reflexivity; congruence. Qed.

Lemma store_sample_elbow pd s x :
  elbow_angles (store_sample pd s x) =
  if stage_eqb s DOWNSWING then elbow_angles pd ++ [elbow_angle x]
  else elbow_angles pd.
Proof. destruct s; reflexivity. Qed.

Lemma phase_get_known pd p : p <> UNKNOWN -> exists l, phase_get pd p = Some l.
Proof. destruct p; simpl; eauto; congruence. Qed.

(** **** The code's checks satisfy the numbered checks *)

Lemma check1_spec lm s : check 1 lm s (check1 lm s).
Proof.
  unfold check, check1, enabled, target, wrist_y, nose_y.
  destruct (Qltb (py (left_wrist lm)) (py (nose lm) * 1.1)) eqn:E.
  - apply Qltb_lt in E.
    destruct s; simpl; try (left; split; [split; [auto|exact E] | reflexivity]);
      right; (split; [intros [[H|H] _]; discriminate | reflexivity]).
  - apply Qltb_nlt in E. rewrite andb_false_r.
    right. split; [intros [_ H]; contradiction | reflexivity].
Qed.

Lemma check2_spec lm s : check 2 lm s (check2 lm s).
Proof.
  unfold check, check2, enabled, target, wrist_y, nose_y.
  destruct (Qltb (py (nose lm) * 0.9) (py (left_wrist lm))) eqn:E.
  - apply Qltb_lt in E.
    destruct s; simpl; try (left; split; [split; [reflexivity|exact E] | reflexivity]);
      right; (split; [intros [H _]; discriminate | reflexivity]).
  - apply Qltb_nlt in E. rewrite andb_false_r.
    right. split; [intros [_ H]; contradiction | reflexivity].
Qed.

Lemma check3_spec lm s : check 3 lm s (check3 lm s).
Proof.
  unfold check, check3, enabled, target.
  destruct (Qltb (px (right_shoulder lm)) (px (left_wrist lm))) eqn:E.
  - apply Qltb_lt in E.
    destruct s; simpl; try (left; split; [split; [reflexivity|exact E] | reflexivity]);
      right; (split; [intros [H _]; discriminate | reflexivity]).
  - apply Qltb_nlt in E. rewrite andb_false_r.
    right. split; [intros [_ H]; contradiction | reflexivity].
Qed.

(** A check has one outcome. *)
Lemma check_functional i lm s a b : check i lm s a -> check i lm s b -> a = b.
Proof.
  intros [[Ha ->]|[Ha ->]] [[Hb ->]|[Hb ->]]; try reflexivity; contradiction.
Qed.

Lemma cascade_functional lm s a b : cascade lm s a -> cascade lm s b -> a = b.
Proof.
  intros (a1 & a2 & Ha1 & Ha2 & Ha3) (b1 & b2 & Hb1 & Hb2 & Hb3).
  assert (a1 = b1) by (eapply check_functional; eassumption). subst b1.
  assert (a2 = b2) by (eapply check_functional; eassumption). subst b2.
  eapply check_functional; eassumption.
Qed.

Lemma detect_phase_cascade lm s :
  cascade lm (resolve_unknown s) (detect_phase lm s).
Proof.
  exists (check1 lm (resolve_unknown s)), (check2 lm (check1 lm (resolve_unknown s))).
  split; [apply check1_spec|]. split; [apply check2_spec | apply check3_spec].
Qed.

(** A frame that ends in BACKLIFT has the wrist at or above nine tenths
    of the nose height. *)
Lemma detect_phase_backlift lm s :
  detect_phase lm s = BACKLIFT -> (wrist_y lm <= 0.9 * nose_y lm)%Q.
Proof.
  unfold detect_phase, check3, check2, wrist_y, nose_y.
  destruct (Qltb (py (nose lm) * 0.9) (py (left_wrist lm))) eqn:E.
  - destruct (check1 lm (resolve_unknown s)); simpl;
      try destruct (Qltb (px (right_shoulder lm)) (px (left_wrist lm))); discriminate.
  - intros _. apply Qltb_nlt in E. lra.
Qed.

Section Accumulators.
Variable atan2_deg : Q -> Q -> Q.

Lemma process_landmarks_get st lm p :
  phase_get (phase_data (process_landmarks atan2_deg st lm)) p =
  if stage_eqb (detect_phase lm (stage st)) p
  then option_map (fun l => append_sample l (frame_sample atan2_deg lm))
         (phase_get (phase_data st) p)
  else phase_get (phase_data st) p.
Proof.
  unfold process_landmarks. cbn [phase_data].
  apply store_sample_get, detect_phase_known.
Qed.

(** An accumulator holds what it held at the start, then the samples of
    the frames that ended in its phase. *)
Lemma accumulated frames : forall st p l0,
  phase_get (phase_data st) p = Some l0 ->
  phase_get (phase_data (List.last (frame_loop atan2_deg st frames) st)) p =
  Some (fold_left append_sample
          (samples_in atan2_deg p (detected_log atan2_deg st frames)) l0).
Proof.
  induction frames as [|f rest IH]; intros st p l0 Hget.
  - exact Hget.
  - rewrite final_cons, detected_log_cons.
    destruct f as [lm|].
    + rewrite process_frame_some.
      pose proof (process_landmarks_get st lm p) as Hstep.
      rewrite Hget in Hstep.
      assert (Hs : stage (process_landmarks atan2_deg st lm) = detect_phase lm (stage st))
        by reflexivity.
      unfold samples_in. cbn [app List.filter snd]. rewrite Hs.
      destruct (stage_eqb (detect_phase lm (stage st)) p); cbn [option_map] in Hstep.
      * cbn [map fold_left fst].
        destruct (stop_after _); [exact Hstep | apply IH, Hstep].
      * destruct (stop_after _); [exact Hstep | apply IH, Hstep].
    + rewrite process_frame_none. cbn [app].
      destruct (stop_after st); [exact Hget | apply IH, Hget].
Qed.

(** Every entry of the log carries the phase [detect_phase] gave its
    frame. *)
Lemma detected_log_detect frames : forall st,
  Forall (fun e => exists s0, snd e = detect_phase (fst e) s0)
         (detected_log atan2_deg st frames).
Proof.
  induction frames as [|f rest IH]; intros st.
  - constructor.
  - rewrite detected_log_cons.
    apply Forall_app. split.
    + destruct f as [lm|]; constructor; [|constructor].
      exists (stage st). reflexivity.
    + destruct (stop_after _); [constructor | apply IH].
Qed.

End Accumulators.

(** **** The classifier and the final metrics raise nothing *)

Lemma py_last_ok l : truthy l = true -> py_last l = Ok (last0 l).
Proof.
  intros H. unfold py_last, last0.
  destruct l as [|x xs _] using rev_ind; [discriminate|].
  rewrite rev_app_distr. simpl. rewrite List.last_last. reflexivity.
Qed.

Lemma get_last_ok l : get_last l = Ok (last0 l).
Proof.
  unfold get_last. destruct (truthy l) eqn:E.
  - apply py_last_ok, E.
  - destruct l; [reflexivity | discriminate].
Qed.

Lemma get_avg_mean0 l : get_avg l = mean0 l.
Proof. destruct l; reflexivity. Qed.

Lemma guarded_max_ok l : (if truthy l then py_max l else Ok 0%Q) = Ok (max0 l).
Proof. destruct l; reflexivity. Qed.

Lemma qlen_nonneg {A} (l : list A) : (0 <= qlen l)%Q.
Proof.
  unfold qlen. change 0%Q with (inject_Z 0). rewrite <- Zle_Qle. lia.
Qed.

Lemma max_len_nonzero {A} (l : list A) : Qeq_bool (Qmax (qlen l) 1) 0 = false.
Proof.
  apply not_true_iff_false. intros H. apply Qeq_bool_iff in H.
  pose proof (Q.le_max_r (qlen l) 1) as Hle. rewrite H in Hle. lra.
Qed.

Lemma shot_features_ok pd : shot_features pd = Ok (features_of pd).
Proof.
  unfold shot_features, features_of, py_truediv.
  rewrite max_len_nonzero.
  destruct (truthy (body_directions (pd_stance pd))
            && truthy (body_directions (pd_downswing pd))) eqn:Eb;
    destruct (truthy (weight_transfers (pd_stance pd))
              && truthy (weight_transfers (pd_downswing pd))) eqn:Ew;
    repeat match goal with
           | H : _ && _ = true |- _ => apply andb_true_iff in H; destruct H as [_ H]
           end;
    repeat match goal with
           | H : truthy ?l = true |- _ => rewrite (py_last_ok l H); clear H
           end;
    reflexivity.
Qed.

Lemma detect_shot_type_classify pd : detect_shot_type pd = classify (features_of pd).
Proof. unfold detect_shot_type. rewrite shot_features_ok. reflexivity. Qed.

Lemma classify_first_match f : classify f = first_match rules f.
Proof.
  unfold classify, first_match, rules, otherwise. cbn [List.find fst snd].
  repeat match goal with
         | |- context [if ?b then _ else _] => destruct b
         end; reflexivity.
Qed.

(** The label is one of the seven of the cascade. *)
Lemma classify_label f :
  In (fst (classify f))
     ["DEFENSIVE"; "DRIVE"; "PULL/HOOK"; "CUT"; "SWEEP"; "LOFTED"; "FORWARD SHOT"]%string.
Proof.
  unfold classify.
  repeat match goal with
         | |- context [if ?b then _ else _] => destruct b
         end; cbn [fst In]; auto 10.
Qed.

Lemma detect_shot_type_known pd : fst (detect_shot_type pd) <> "UNKNOWN"%string.
Proof.
  rewrite detect_shot_type_classify.
  pose proof (classify_label (features_of pd)) as H.
  intros E. rewrite E in H. cbn [In] in H.
  repeat destruct H as [H|H]; try discriminate; contradiction.
Qed.

(** The [try] block of the final metrics runs to its end, and leaves the
    record of the aggregator. *)
Lemma final_metrics_run pd :
  run_block (final_metrics_block pd) empty_metrics
  = (aggregate pd (detect_shot_type pd), Ok tt).
Proof.
  unfold final_metrics_block.
  rewrite !get_last_ok, guarded_max_ok, !get_avg_mean0.
  unfold aggregate, aggregate_scalars, spec_weight_transfer_amount.
  generalize (mean0 (body_directions (pd_stance pd))) as v1.
  generalize (last0 (body_directions (pd_downswing pd))) as v2.
  generalize (mean0 (leg_directions (pd_stance pd))) as v3.
  generalize (last0 (leg_directions (pd_downswing pd))) as v4.
  generalize (mean0 (weight_transfers (pd_stance pd))) as v5.
  generalize (last0 (weight_transfers (pd_downswing pd))) as v6.
  generalize (max0 (elbow_angles pd)) as v7.
  generalize (mean0 (knee_angles (pd_stance pd))) as v8.
  generalize (mean0 (knee_angles (pd_downswing pd))) as v9.
  generalize (mean0 (head_directions (pd_stance pd))) as v10.
  generalize (mean0 (head_directions (pd_downswing pd))) as v11.
  generalize (detect_shot_type pd) as label.
  generalize (body_directions (pd_stance pd) ++ body_directions (pd_backlift pd)
              ++ body_directions (pd_downswing pd)
              ++ body_directions (pd_follow_through pd)) as series.
  intros. vm_compute. reflexivity.
Qed.

Lemma final_metrics_aggregate pd :
  final_metrics pd = aggregate pd (detect_shot_type pd).
Proof. unfold final_metrics. rewrite final_metrics_run. reflexivity. Qed.

Lemma aggregate_lookup pd label k v :
  In (k, v) (aggregate_scalars pd (snd label)) ->
  scalars (aggregate pd label) !! k = Some v.
Proof.
  unfold aggregate. cbn [scalars]. intros H.
  apply elem_of_list_to_map_1.
  - unfold aggregate_scalars. cbn [fmap list_fmap fst].
    repeat (constructor; [rewrite !list_elem_of_In; cbn [In]; intuition discriminate|]).
    constructor.
  - apply list_elem_of_In, H.
Qed.

Lemma aggregate_fully_populated pd label : fully_populated (aggregate pd label).
Proof.
  split; [|split; eexists; reflexivity].
  intros k Hk. unfold scalar_keys in Hk. cbn [In] in Hk.
  repeat (destruct Hk as [<-|Hk];
          [eexists; apply aggregate_lookup; unfold aggregate_scalars; cbn [In]; eauto 20|]).
  contradiction.
Qed.

(** **** Two runs, evaluated *)

(** Stance, backlift, then a frame that fires check 2 and check 3. *)
Example three_frame_run :
  recorded_phases flat_atan2 [Some stance_pose; None; Some backlift_pose; Some cascade_pose]
  = [STANCE; BACKLIFT; FOLLOW_THROUGH].
Proof. vm_compute. reflexivity. Qed.

(** Of forty frames of follow-through, thirty are read before the run
    ends with the record. *)
Example run_stops_after_buffer :
  length (analyze_cricket_shot flat_atan2 (Some (repeat (Some cascade_pose) 40)))
  = 31%nat.
Proof. vm_compute. reflexivity. Qed.

(** *** The claims on [analysis.py] *)

(** C3. For a frame with landmarks the three checks are taken in the
    order 1, 2, 3, each on the phase the one before left. The values of the
    frame are then appended to the five lists of the phase reached, each
    list receiving its own value: knee_angles the angle hip-knee-ankle,
    leg_directions the direction knee to hip, body_directions the direction
    right to left shoulder, head_directions the direction from the middle
    of the shoulders to the nose, weight_transfers the middle of the hips
    minus the middle of the ankles. The lists of every other phase stay as
    they were; the elbow angle shoulder-elbow-wrist is appended exactly
    when the phase reached is DOWNSWING; and one frame can fire all three
    checks. *)
Theorem frame_checks_then_store (atan2_deg : Q -> Q -> Q) (st : LoopState)
    (lm : Landmarks) :
  let st' := process_frame atan2_deg st (Some lm) in
  let x := frame_sample atan2_deg lm in
  let shoulder_midpoint : Point :=
    (((px (left_shoulder lm) + px (right_shoulder lm)) / 2)%Q,
     ((py (left_shoulder lm) + py (right_shoulder lm)) / 2)%Q) in
  let hip_midpoint_x := ((px (left_hip lm) + px (right_hip lm)) / 2)%Q in
  let ankle_midpoint_x := ((px (left_ankle lm) + px (right_ankle lm)) / 2)%Q in
  cascade lm (resolve_unknown (stage st)) (stage st')
  /\ (exists l l',
        phase_get (phase_data st) (stage st') = Some l
        /\ phase_get (phase_data st') (stage st') = Some l'
        /\ l' = append_sample l x
        /\ knee_angles l'
           = knee_angles l
             ++ [calculate_angle atan2_deg (left_hip lm) (left_knee lm) (left_ankle lm)]
        /\ leg_directions l'
           = leg_directions l
             ++ [calculate_vector_angle atan2_deg (left_knee lm) (left_hip lm)]
        /\ body_directions l'
           = body_directions l
             ++ [calculate_vector_angle atan2_deg (right_shoulder lm) (left_shoulder lm)]
        /\ head_directions l'
           = head_directions l
             ++ [calculate_vector_angle atan2_deg shoulder_midpoint (nose lm)]
        /\ weight_transfers l'
           = weight_transfers l ++ [(hip_midpoint_x - ankle_midpoint_x)%Q])
  /\ (forall p, p <> stage st' ->
                phase_get (phase_data st') p = phase_get (phase_data st) p)
  /\ (stage st' = DOWNSWING ->
      elbow_angles (phase_data st') = elbow_angles (phase_data st) ++ [elbow_angle x]
      /\ elbow_angle x
         = calculate_angle atan2_deg (left_shoulder lm) (left_elbow lm) (left_wrist lm))
  /\ (stage st' <> DOWNSWING ->
      elbow_angles (phase_data st') = elbow_angles (phase_data st))
  /\ (enabled 1 cascade_pose STANCE /\ enabled 2 cascade_pose BACKLIFT
      /\ enabled 3 cascade_pose DOWNSWING
      /\ stage (process_frame atan2_deg initial_state (Some cascade_pose))
         = FOLLOW_THROUGH).
Proof.
  intros st' x shoulder_midpoint hip_midpoint_x ankle_midpoint_x.
  assert (Hs : stage st' = detect_phase lm (stage st)) by reflexivity.
  assert (Hk : stage st' <> UNKNOWN) by (rewrite Hs; apply detect_phase_known).
  split; [rewrite Hs; apply detect_phase_cascade|].
  split.
  { destruct (phase_get_known (phase_data st) (stage st') Hk) as [l Hl].
    exists l, (append_sample l x). split; [exact Hl|].
    split.
    { subst st'. rewrite process_frame_some, process_landmarks_get.
      rewrite process_frame_some in Hl. cbn [stage process_landmarks] in Hl |- *.
      rewrite Hl.
      replace (stage_eqb (detect_phase lm (stage st)) (detect_phase lm (stage st)))
        with true by (symmetry; apply stage_eqb_eq; reflexivity).
      reflexivity. }
    repeat split; reflexivity. }
  split.
  { intros p Hp. subst st'. rewrite process_frame_some, process_landmarks_get.
    destruct (stage_eqb (detect_phase lm (stage st)) p) eqn:E; [|reflexivity].
    apply stage_eqb_eq in E. exfalso. apply Hp. rewrite <- E. reflexivity. }
  assert (He : elbow_angles (phase_data st') =
               if stage_eqb (stage st') DOWNSWING
               then elbow_angles (phase_data st) ++ [elbow_angle x]
               else elbow_angles (phase_data st)).
  { subst st'. rewrite process_frame_some. unfold process_landmarks.
    cbn [phase_data stage]. apply store_sample_elbow. }
  split.
  { intros Hd. split; [|reflexivity]. rewrite He, Hd. reflexivity. }
  split.
  { intros Hd. rewrite He.
    destruct (stage_eqb (stage st') DOWNSWING) eqn:E; [|reflexivity].
    apply stage_eqb_eq in E. contradiction. }
  unfold enabled, wrist_y, nose_y. cbn.
  repeat split; auto; try reflexivity.
Qed.

(** A witness of C3: the first frame of a run ends in DOWNSWING, and its
    elbow angle is stored. *)
Lemma frame_checks_then_store_witness :
  stage (process_frame flat_atan2 initial_state (Some downswing_pose)) = DOWNSWING
  /\ elbow_angles (phase_data (process_frame flat_atan2 initial_state (Some downswing_pose)))
     = elbow_angles (phase_data initial_state)
       ++ [calculate_angle flat_atan2 (left_shoulder downswing_pose)
             (left_elbow downswing_pose) (left_wrist downswing_pose)].
Proof.
  assert (H : stage (process_frame flat_atan2 initial_state (Some downswing_pose))
              = DOWNSWING) by reflexivity.
  split; [exact H|].
  exact (proj1 (proj1 (proj2 (proj2 (proj2
           (frame_checks_then_store flat_atan2 initial_state downswing_pose)))) H)).
Defined.

(** C4. The phases recorded over the frames of a run never move
    backwards in the order STANCE, BACKLIFT, DOWNSWING, FOLLOW_THROUGH. *)
Theorem recorded_phases_nondecreasing (atan2_deg : Q -> Q -> Q)
    (frames : list PoseFrame) :
  StronglySorted stage_le (recorded_phases atan2_deg frames)
  /\ Forall (fun s => s <> UNKNOWN) (recorded_phases atan2_deg frames)
  /\ StronglySorted stage_le
       (map stage (frame_loop atan2_deg initial_state frames)).
Proof.
  unfold recorded_phases.
  destruct (detected_log_sorted atan2_deg frames initial_state) as [Hall Hsorted].
  split; [exact Hsorted|]. split.
  - apply List.Forall_map. eapply List.Forall_impl; [|exact Hall].
    intros e [_ H]. exact H.
  - apply frame_loop_sorted.
Qed.

(** C10. The BACKLIFT lists hold exactly the samples of the frames that
    ended in BACKLIFT, and each of these frames has the wrist at most 0.9
    times the nose in [y]; a frame with the wrist strictly between 0.9 and
    1.1 times the nose never ends in BACKLIFT, as check 2 fires on the
    phase check 1 has just set. *)
Theorem backlift_samples_wrist_above (atan2_deg : Q -> Q -> Q)
    (frames : list PoseFrame) :
  let log := detected_log atan2_deg initial_state frames in
  pd_backlift (phase_data (final_state atan2_deg frames))
  = fold_left append_sample (samples_in atan2_deg BACKLIFT log) empty_lists
  /\ (forall lm s, In (lm, s) log -> s = BACKLIFT ->
                   (wrist_y lm <= 0.9 * nose_y lm)%Q)
  /\ (forall lm s, In (lm, s) log ->
                   (0.9 * nose_y lm < wrist_y lm)%Q ->
                   (wrist_y lm < 1.1 * nose_y lm)%Q -> s <> BACKLIFT)
  /\ (forall lm s0,
        s0 = UNKNOWN \/ s0 = STANCE \/ s0 = BACKLIFT ->
        (0.9 * nose_y lm < wrist_y lm)%Q ->
        (wrist_y lm < 1.1 * nose_y lm)%Q ->
        check1 lm (resolve_unknown s0) = BACKLIFT
        /\ check2 lm BACKLIFT = DOWNSWING
        /\ detect_phase lm s0 <> BACKLIFT).
Proof.
  intros log.
  assert (Hentries : forall lm s, In (lm, s) log -> exists s0, s = detect_phase lm s0).
  { intros lm s Hin.
    pose proof (detected_log_detect atan2_deg frames initial_state) as Hall.
    rewrite List.Forall_forall in Hall. apply (Hall (lm, s) Hin). }
  split.
  { pose proof (accumulated atan2_deg frames initial_state BACKLIFT empty_lists
                  eq_refl) as H.
    cbn [phase_get] in H. injection H as H. exact H. }
  split.
  { intros lm s Hin ->. destruct (Hentries lm _ Hin) as [s0 Hs0].
    apply (detect_phase_backlift lm s0). symmetry. exact Hs0. }
  split.
  { intros lm s Hin Hlo Hhi ->. destruct (Hentries lm _ Hin) as [s0 Hs0].
    pose proof (detect_phase_backlift lm s0 (eq_sym Hs0)). lra. }
  intros lm s0 Hs0 Hlo Hhi.
  assert (H1 : Qltb (py (left_wrist lm)) (py (nose lm) * 1.1) = true)
    by (apply Qltb_lt; unfold wrist_y, nose_y in *; lra).
  assert (H2 : Qltb (py (nose lm) * 0.9) (py (left_wrist lm)) = true)
    by (apply Qltb_lt; unfold wrist_y, nose_y in *; lra).
  split; [|split].
  - unfold check1. rewrite H1. destruct Hs0 as [->|[->| ->]]; reflexivity.
  - unfold check2. rewrite H2. reflexivity.
  - intros E. pose proof (detect_phase_backlift lm s0 E). lra.
Qed.

(** A witness of C10: a run of one frame that ends in BACKLIFT. *)
Lemma backlift_samples_wrist_above_witness :
  In (backlift_pose, BACKLIFT)
     (detected_log flat_atan2 initial_state [Some backlift_pose])
  /\ (wrist_y backlift_pose <= 0.9 * nose_y backlift_pose)%Q.
Proof.
  assert (Hin : In (backlift_pose, BACKLIFT)
                   (detected_log flat_atan2 initial_state [Some backlift_pose]))
    by (left; reflexivity).
  split; [exact Hin|].
  exact (proj1 (proj2 (backlift_samples_wrist_above flat_atan2 [Some backlift_pose]))
           backlift_pose BACKLIFT Hin eq_refl).
Defined.

(** **** Runs without landmarks *)

Lemma stop_after_initial : stop_after initial_state = false.
Proof. reflexivity. Qed.

Lemma undetected_run (atan2_deg : Q -> Q -> Q) frames :
  Forall undetected frames ->
  final_state atan2_deg frames = initial_state.
Proof.
  unfold final_state.
  induction 1 as [|f rest Hf _ IH]; [reflexivity|].
  rewrite final_cons. rewrite Hf, process_frame_none, stop_after_initial.
  exact IH.
Qed.

Lemma terminal_analyze (atan2_deg : Q -> Q -> Q) frames :
  terminal (analyze_cricket_shot atan2_deg (Some frames))
  = Some (final_metrics (phase_data (final_state atan2_deg frames))).
Proof.
  unfold terminal, analyze_cricket_shot. rewrite List.last_last. reflexivity.
Qed.

(** C1, as amended. Every run of an opened capture ends with a fully
    populated record, the [try] block of the final metrics and the
    classifier raise nothing, and the label is never UNKNOWN. For a run
    with no frame, or with no landmarks in any frame, every aggregated
    number is 0 and the series is empty, and the label is DEFENSIVE with
    confidence 0.85. *)
Theorem terminal_record (atan2_deg : Q -> Q -> Q) :
  (forall frames,
      let pd := phase_data (final_state atan2_deg frames) in
      exists m,
        terminal (analyze_cricket_shot atan2_deg (Some frames)) = Some m
        /\ fully_populated m
        /\ run_block (final_metrics_block pd) empty_metrics = (m, Ok tt)
        /\ (exists f, shot_features pd = Ok f)
        /\ shot_type m <> Some "UNKNOWN"%string)
  /\ (forall frames,
        Forall undetected frames ->
        exists m,
          terminal (analyze_cricket_shot atan2_deg (Some frames)) = Some m
          /\ shot_type m = Some "DEFENSIVE"%string
          /\ scalars m !! "shot_confidence"%string = Some 0.85%Q
          /\ (forall k, In k scalar_keys -> k <> "shot_confidence"%string ->
                        scalars m !! k = Some 0%Q)
          /\ body_rotation_over_time m = Some []).
Proof.
  split.
  - intros frames pd. exists (final_metrics pd).
    split; [apply terminal_analyze|].
    rewrite final_metrics_aggregate.
    split; [apply aggregate_fully_populated|].
    split; [apply final_metrics_run|].
    split; [eexists; apply shot_features_ok|].
    cbn [aggregate shot_type]. intros E. injection E as E.
    exact (detect_shot_type_known pd E).
  - intros frames Hall.
    exists (final_metrics empty_phase_data).
    split; [rewrite terminal_analyze, (undetected_run _ _ Hall); reflexivity|].
    split; [reflexivity|]. split; [reflexivity|]. split; [|reflexivity].
    intros k Hk Hne. unfold scalar_keys in Hk. cbn [In] in Hk.
    repeat (destruct Hk as [<-|Hk]; [first [reflexivity | congruence]|]).
    contradiction.
Qed.

(** A witness of C1: two frames without landmarks. *)
Lemma terminal_record_witness :
  Forall undetected [None; None]
  /\ exists m,
       terminal (analyze_cricket_shot flat_atan2 (Some [None; None])) = Some m
       /\ shot_type m = Some "DEFENSIVE"%string.
Proof.
  assert (H : Forall undetected [None; None])
    by (repeat constructor).
  split; [exact H|].
  destruct (proj2 (terminal_record flat_atan2) [None; None] H)
    as (m & Hm & Hlabel & _).
  exists m. split; assumption.
Defined.

(** The claim C1 fails on the empty run: the label is DEFENSIVE and the
    confidence 0.85, for every function in the place of [atan2_deg]. *)
Lemma empty_run_not_unknown :
  ~ (exists (atan2_deg : Q -> Q -> Q) (m : Metrics),
        terminal (analyze_cricket_shot atan2_deg (Some [])) = Some m
        /\ zero_and_unknown m).
Proof.
  intros (atan2_deg & m & Hm & Hlabel & _).
  rewrite terminal_analyze in Hm. injection Hm as <-.
  discriminate Hlabel.
Qed.

(** **** Comparisons respect equality of rationals *)

Lemma Qltb_compat a a' b b' : (a == a')%Q -> (b == b')%Q -> Qltb a b = Qltb a' b'.
Proof. intros Ha Hb. unfold Qltb. rewrite (Qleb_comp _ _ Hb _ _ Ha). reflexivity. Qed.

Lemma find_first {A} (p : A -> bool) before r after :
  p r = true -> Forall (fun r' => p r' = false) before ->
  List.find p (before ++ r :: after) = Some r.
Proof.
  intros Hr Hb. induction Hb as [|x l Hx _ IH]; simpl.
  - rewrite Hr. reflexivity.
  - rewrite Hx. exact IH.
Qed.

(** C2. The classifier is the ordered cascade of its rules, first match
    wins: the first rule whose predicate holds gives the result, whatever
    later rules hold; with rotation 10, shift 2 and backlift ratio 0.3 the
    result is DEFENSIVE with confidence 0.85. *)
Theorem classifier_first_match :
  (forall f, classify f = first_match rules f)
  /\ (forall pd f, shot_features pd = Ok f ->
                   detect_shot_type pd = first_match rules f)
  /\ (forall f before r after,
        rules = before ++ r :: after ->
        fst r f = true ->
        Forall (fun r' => fst r' f = false) before ->
        classify f = snd r)
  /\ (forall pd f,
        shot_features pd = Ok f ->
        (body_rotation f == 10)%Q ->
        (weight_shift f == 2)%Q ->
        (backlift_height f == 0.3)%Q ->
        detect_shot_type pd = ("DEFENSIVE"%string, 0.85%Q)).
Proof.
  split; [exact classify_first_match|].
  split.
  { intros pd f Hf. unfold detect_shot_type. rewrite Hf.
    apply classify_first_match. }
  split.
  { intros f before r after Hrules Hr Hbefore.
    rewrite classify_first_match. unfold first_match. rewrite Hrules.
    unfold Rule in *.
    rewrite (find_first (fun r0 => fst r0 f) before r after Hr Hbefore).
    reflexivity. }
  intros pd f Hf Hr Hs Hb.
  unfold detect_shot_type. rewrite Hf. cbn [mbind Result_bind mret Result_ret try_except].
  unfold classify.
  rewrite (Qltb_compat _ 10 15 15 Hr (Qeq_refl _)).
  rewrite (Qltb_compat (Qabs (weight_shift f)) (Qabs 2) 5 5
             (Qabs_wd _ _ Hs) (Qeq_refl _)).
  rewrite (Qltb_compat _ 0.3 0.5 0.5 Hb (Qeq_refl _)).
  reflexivity.
Qed.

(** A witness of C2: accumulators with rotation 10, shift 2, ratio 0.3. *)
Lemma classifier_first_match_witness :
  exists f,
    shot_features defensive_data = Ok f
    /\ (body_rotation f == 10)%Q /\ (weight_shift f == 2)%Q
    /\ (backlift_height f == 0.3)%Q
    /\ detect_shot_type defensive_data = ("DEFENSIVE"%string, 0.85%Q).
Proof.
  exists (features_of defensive_data).
  assert (Hf : shot_features defensive_data = Ok (features_of defensive_data))
    by apply shot_features_ok.
  assert (Hr : (body_rotation (features_of defensive_data) == 10)%Q) by reflexivity.
  assert (Hs : (weight_shift (features_of defensive_data) == 2)%Q) by reflexivity.
  assert (Hb : (backlift_height (features_of defensive_data) == 0.3)%Q) by reflexivity.
  repeat (split; [assumption|]).
  exact (proj2 (proj2 (proj2 classifier_first_match))
           defensive_data (features_of defensive_data) Hf Hr Hs Hb).
Defined.

(** **** The classifier's indicators against the aggregator *)

Lemma truthy_nonempty {A} (l : list A) : truthy l = true <-> l <> [].
Proof. destruct l; simpl; split; congruence. Qed.

Lemma np_mean_mean0 l : l <> [] -> np_mean l = mean0 l.
Proof. destruct l; [congruence | reflexivity]. Qed.

(** C5, as amended. The aggregator's rotation and shift are the stated
    formulas with the conventions for empty lists. The classifier's
    rotation (shift) is the same number when the STANCE and the DOWNSWING
    lists of body directions (weight transfers) are both non-empty, and is
    0 when either is empty. *)
Theorem features_against_aggregate (pd : PhaseData) :
  exists f,
    shot_features pd = Ok f
    /\ scalars (final_metrics pd) !! "body_rotation_total"%string
       = Some (spec_body_rotation_total pd)
    /\ scalars (final_metrics pd) !! "weight_transfer_amount"%string
       = Some (spec_weight_transfer_amount pd)
    /\ (body_directions (pd_stance pd) <> [] ->
        body_directions (pd_downswing pd) <> [] ->
        body_rotation f = spec_body_rotation_total pd)
    /\ (body_directions (pd_stance pd) = [] \/ body_directions (pd_downswing pd) = [] ->
        body_rotation f = 0%Q)
    /\ (weight_transfers (pd_stance pd) <> [] ->
        weight_transfers (pd_downswing pd) <> [] ->
        weight_shift f = spec_weight_transfer_amount pd)
    /\ (weight_transfers (pd_stance pd) = [] \/ weight_transfers (pd_downswing pd) = [] ->
        weight_shift f = 0%Q).
Proof.
  exists (features_of pd).
  split; [apply shot_features_ok|].
  rewrite final_metrics_aggregate.
  split; [apply aggregate_lookup; unfold aggregate_scalars; cbn [In]; auto 20|].
  split; [apply aggregate_lookup; unfold aggregate_scalars; cbn [In]; auto 20|].
  unfold features_of, spec_body_rotation_total, spec_weight_transfer_amount.
  cbn [body_rotation weight_shift].
  split; [|split; [|split]].
  - intros H1 H2.
    rewrite (proj2 (truthy_nonempty _) H1), (proj2 (truthy_nonempty _) H2).
    cbn [andb]. rewrite (np_mean_mean0 _ H1). reflexivity.
  - intros [->| ->]; [|rewrite andb_false_r]; reflexivity.
  - intros H1 H2.
    rewrite (proj2 (truthy_nonempty _) H1), (proj2 (truthy_nonempty _) H2).
    cbn [andb]. rewrite (np_mean_mean0 _ H1). reflexivity.
  - intros [->| ->]; [|rewrite andb_false_r]; reflexivity.
Qed.

(** A witness of C5: accumulators with both lists non-empty. *)
Lemma features_against_aggregate_witness :
  body_directions (pd_stance defensive_data) <> []
  /\ body_directions (pd_downswing defensive_data) <> []
  /\ exists f,
       shot_features defensive_data = Ok f
       /\ body_rotation f = spec_body_rotation_total defensive_data.
Proof.
  assert (H1 : body_directions (pd_stance defensive_data) <> []) by discriminate.
  assert (H2 : body_directions (pd_downswing defensive_data) <> []) by discriminate.
  split; [exact H1|]. split; [exact H2|].
  destruct (features_against_aggregate defensive_data)
    as (f & Hf & _ & _ & Hrot & _).
  exists f. split; [exact Hf | exact (Hrot H1 H2)].
Defined.

(** After one frame of stance, hips a tenth ahead of the ankles, the
    aggregator reports a shift of -10 and the classifier reads 0, for every
    function in the place of [atan2_deg]. *)
Lemma stance_only_disagree (atan2_deg : Q -> Q -> Q) :
  ~ features_agree (phase_data (final_state atan2_deg [Some stance_pose])).
Proof.
  intros (f & r & w & Hf & _ & Hw & _ & Hshift).
  rewrite shot_features_ok in Hf. injection Hf as <-.
  rewrite final_metrics_aggregate in Hw.
  erewrite aggregate_lookup in Hw
    by (unfold aggregate_scalars; cbn [In]; auto 20).
  injection Hw as <-.
  vm_compute in Hshift. discriminate Hshift.
Qed.

(** The claim C5 fails on the run of one frame of stance. *)
Lemma features_disagree_on_stance_run :
  ~ (forall (atan2_deg : Q -> Q -> Q) (frames : list PoseFrame),
        features_agree (phase_data (final_state atan2_deg frames))).
Proof.
  intros H. exact (stance_only_disagree flat_atan2 (H flat_atan2 [Some stance_pose])).
Qed.

End AnalysisTheory.

(** ** Properties of [ImprovementEngine] *)
Module ImprovementTheory.
Import Improvement Spec Examples.
Import AnalysisTheory.

Local Open Scope Q_scope.

(** **** The band *)

Lemma mid_double lo hi : mid lo hi * 2 == lo + hi.
Proof. unfold mid. field. Qed.

Lemma half_double lo hi : half lo hi * 2 == hi - lo.
Proof. unfold half. field. Qed.

Lemma Qabs_cases (x : Q) : (0 <= x /\ Qabs x == x) \/ (x < 0 /\ Qabs x == - x).
Proof.
  destruct (Qlt_le_dec x 0) as [H|H].
  - right. split; [exact H|]. apply Qabs_neg. lra.
  - left. split; [exact H|]. apply Qabs_pos. exact H.
Qed.

Lemma unit_ratio a h : 0 < h -> 0 <= a -> a <= h -> 0 <= a / h /\ a / h <= 1.
Proof.
  intros Hh Ha Hah. split.
  - apply Qle_shift_div_l; lra.
  - apply Qle_shift_div_r; lra.
Qed.

Lemma penalised_bounds d : 0 <= d -> 20 <= penalised d /\ penalised d <= 80.
Proof.
  intros Hd. unfold penalised.
  destruct (Q.min_spec (d * 2) 50) as [[? Hm]|[? Hm]];
    destruct (Q.max_spec (80 - Qmin (d * 2) 50) 20) as [[? Hx]|[? Hx]]; lra.
Qed.

Lemma penalised_antitone d d' : d <= d' -> penalised d' <= penalised d.
Proof.
  intros Hd. unfold penalised.
  destruct (Q.min_spec (d * 2) 50) as [[? Hm]|[? Hm]];
    destruct (Q.max_spec (80 - Qmin (d * 2) 50) 20) as [[? Hx]|[? Hx]];
    destruct (Q.min_spec (d' * 2) 50) as [[? Hm']|[? Hm']];
    destruct (Q.max_spec (80 - Qmin (d' * 2) 50) 20) as [[? Hx']|[? Hx']]; lra.
Qed.

Lemma penalised_wd d d' : d == d' -> penalised d == penalised d'.
Proof.
  intros H. apply Qle_antisym; apply penalised_antitone; lra.
Qed.

(** The four ways through [_calculate_metric_score]. *)
Lemma score_cases v lo hi :
  (lo <= v /\ v <= hi /\ 0 < half lo hi
   /\ _calculate_metric_score v (lo, hi)
      = 100 - (Qabs (v - mid lo hi) / half lo hi) * 20)
  \/ (lo <= v /\ v <= hi /\ ~ 0 < half lo hi
      /\ _calculate_metric_score v (lo, hi) = 100)
  \/ (v < lo /\ _calculate_metric_score v (lo, hi) = penalised (lo - v))
  \/ (lo <= v /\ hi < v /\ _calculate_metric_score v (lo, hi) = penalised (v - hi)).
Proof.
  unfold _calculate_metric_score, mid, half, penalised.
  destruct (Qleb lo v) eqn:E1; [destruct (Qleb v hi) eqn:E2|]; cbn [andb].
  - apply Qleb_le in E1, E2.
    destruct (Qltb 0 ((hi - lo) / 2)) eqn:E3.
    + apply Qltb_lt in E3. left. auto.
    + apply Qltb_nlt in E3. right. left. auto.
  - apply Qleb_le in E1.
    assert (Hv : hi < v).
    { apply Qnot_le_lt. intros H. apply Qleb_le in H. congruence. }
    assert (E3 : Qltb v lo = false) by (apply Qltb_nlt; lra).
    rewrite E3. right. right. right. auto.
  - assert (Hv : v < lo).
    { apply Qnot_le_lt. intros H. apply Qleb_le in H. congruence. }
    rewrite (proj2 (Qltb_lt v lo) Hv). right. right. left. auto.
Qed.

(** Inside the band the score is between 80 and 100. *)
Lemma score_inside_bounds v lo hi :
  lo <= v -> v <= hi ->
  80 <= _calculate_metric_score v (lo, hi)
  /\ _calculate_metric_score v (lo, hi) <= 100.
Proof.
  intros Hlo Hhi.
  pose proof (mid_double lo hi) as Hm. pose proof (half_double lo hi) as Hh.
  destruct (score_cases v lo hi)
    as [(_ & _ & Hpos & ->)|[(_ & _ & _ & ->)|[(H & _)|(_ & H & _)]]]; try lra.
  destruct (Qabs_cases (v - mid lo hi)) as [[Hs Ha]|[Hs Ha]];
    destruct (unit_ratio (Qabs (v - mid lo hi)) (half lo hi) Hpos) as [H0 H1];
    lra.
Qed.

(** Outside the band the distance to the nearer edge is the distance to
    the middle less half the width. *)
Lemma edge_distance_outside v lo hi :
  lo <= hi -> (v < lo \/ hi < v) ->
  edge_distance v lo hi == Qabs (v - mid lo hi) - half lo hi
  /\ 0 < edge_distance v lo hi
  /\ (v < lo -> edge_distance v lo hi == lo - v)
  /\ (hi < v -> edge_distance v lo hi == v - hi).
Proof.
  intros Hband Hout. unfold edge_distance.
  pose proof (mid_double lo hi) as Hm. pose proof (half_double lo hi) as Hh.
  destruct (Qabs_cases (v - lo)) as [[? Hl]|[? Hl]];
    destruct (Qabs_cases (v - hi)) as [[? Hu]|[? Hu]];
    destruct (Qabs_cases (v - mid lo hi)) as [[? Hc]|[? Hc]];
    destruct (Q.min_spec (Qabs (v - lo)) (Qabs (v - hi))) as [[? Hn]|[? Hn]];
    destruct Hout; repeat split; intros; lra.
Qed.

Lemma inside_iff v lo hi :
  lo <= hi -> (lo <= v /\ v <= hi <-> Qabs (v - mid lo hi) <= half lo hi).
Proof.
  intros Hband.
  pose proof (mid_double lo hi) as Hm. pose proof (half_double lo hi) as Hh.
  destruct (Qabs_cases (v - mid lo hi)) as [[? Hc]|[? Hc]]; split;
    intros; try split; lra.
Qed.

Lemma score_outside v lo hi :
  lo <= hi -> ~ (lo <= v /\ v <= hi) ->
  _calculate_metric_score v (lo, hi) == penalised (edge_distance v lo hi).
Proof.
  intros Hband Hout.
  destruct (score_cases v lo hi)
    as [(? & ? & _)|[(? & ? & _)|[(Hv & ->)|(_ & Hv & ->)]]];
    try (exfalso; apply Hout; split; assumption).
  - apply penalised_wd. symmetry.
    apply (edge_distance_outside v lo hi Hband); auto.
  - apply penalised_wd. symmetry.
    apply (edge_distance_outside v lo hi Hband); auto.
Qed.

(** C6. The score of [v] against the band [(lo, hi)]: inside the band it
    is 100 less 20 times the distance to the middle relative to half the
    width (100 for a band of no width); outside it is 80 less twice the
    distance to the nearer edge, the penalty capped at 50 and the score
    floored at 20. So the middle scores 100, every score is between 20
    and 100, and the score does not increase with the distance to the
    middle once that distance is at least half the width. *)
Theorem metric_score_shape (v lo hi : Q) (Hband : lo <= hi) :
  (lo <= v /\ v <= hi -> 0 < half lo hi ->
   _calculate_metric_score v (lo, hi)
   == 100 - 20 * Qabs (v - mid lo hi) / half lo hi)
  /\ (lo <= v /\ v <= hi -> half lo hi == 0 ->
      _calculate_metric_score v (lo, hi) == 100)
  /\ (~ (lo <= v /\ v <= hi) ->
      _calculate_metric_score v (lo, hi)
      == Qmax (80 - Qmin (2 * edge_distance v lo hi) 50) 20)
  /\ _calculate_metric_score (mid lo hi) (lo, hi) == 100
  /\ (20 <= _calculate_metric_score v (lo, hi)
      /\ _calculate_metric_score v (lo, hi) <= 100)
  /\ (forall v',
        half lo hi <= Qabs (v - mid lo hi) ->
        Qabs (v - mid lo hi) <= Qabs (v' - mid lo hi) ->
        _calculate_metric_score v' (lo, hi) <= _calculate_metric_score v (lo, hi)).
Proof.
  pose proof (mid_double lo hi) as Hm. pose proof (half_double lo hi) as Hh.
  split; [|split; [|split; [|split; [|split]]]].
  - intros [Hlo Hhi] Hpos.
    destruct (score_cases v lo hi)
      as [(_ & _ & _ & ->)|[(_ & _ & Hn & _)|[(H & _)|(_ & H & _)]]];
      try lra; try contradiction.
    field. lra.
  - intros [Hlo Hhi] Hzero.
    destruct (score_cases v lo hi)
      as [(_ & _ & Hpos & _)|[(_ & _ & _ & ->)|[(H & _)|(_ & H & _)]]];
      lra.
  - intros Hout. rewrite (score_outside v lo hi Hband Hout).
    unfold penalised.
    assert (E : edge_distance v lo hi * 2 == 2 * edge_distance v lo hi) by ring.
    rewrite E. reflexivity.
  - assert (Hin : lo <= mid lo hi /\ mid lo hi <= hi) by (split; lra).
    destruct (score_cases (mid lo hi) lo hi)
      as [(_ & _ & Hpos & ->)|[(_ & _ & _ & ->)|[(H & _)|(_ & H & _)]]];
      try lra.
    assert (E : Qabs (mid lo hi - mid lo hi) == 0).
    { destruct (Qabs_cases (mid lo hi - mid lo hi)) as [[? Hc]|[? Hc]]; lra. }
    rewrite E. field. lra.
  - destruct (score_cases v lo hi)
      as [(Hlo & Hhi & _)|[(Hlo & Hhi & _)|[(Hv & ->)|(_ & Hv & ->)]]].
    + pose proof (score_inside_bounds v lo hi Hlo Hhi). lra.
    + pose proof (score_inside_bounds v lo hi Hlo Hhi). lra.
    + pose proof (penalised_bounds (lo - v)). lra.
    + pose proof (penalised_bounds (v - hi)). lra.
  - intros v' Hpast Hfar.
    destruct (Qlt_le_dec (half lo hi) (Qabs (v' - mid lo hi))) as [Hout'|Hin'].
    + (* v' is outside the band *)
      assert (Hnot' : ~ (lo <= v' /\ v' <= hi)).
      { intros H. apply (inside_iff v' lo hi Hband) in H. lra. }
      rewrite (score_outside v' lo hi Hband Hnot').
      destruct (Qlt_le_dec (half lo hi) (Qabs (v - mid lo hi))) as [Hout|Hin].
      * assert (Hnot : ~ (lo <= v /\ v <= hi)).
        { intros H. apply (inside_iff v lo hi Hband) in H. lra. }
        rewrite (score_outside v lo hi Hband Hnot).
        apply penalised_antitone.
        assert (v < lo \/ hi < v) as Ho
          by (destruct (Qlt_le_dec v lo); [auto|];
              destruct (Qlt_le_dec hi v); [auto|]; exfalso; apply Hnot; auto).
        assert (v' < lo \/ hi < v') as Ho'
          by (destruct (Qlt_le_dec v' lo); [auto|];
              destruct (Qlt_le_dec hi v'); [auto|]; exfalso; apply Hnot'; auto).
        destruct (edge_distance_outside v lo hi Hband Ho) as (E & _).
        destruct (edge_distance_outside v' lo hi Hband Ho') as (E' & _).
        lra.
      * assert (Hins : lo <= v /\ v <= hi) by (apply (inside_iff v lo hi Hband); exact Hin).
        destruct Hins as [Hlo Hhi].
        pose proof (score_inside_bounds v lo hi Hlo Hhi).
        assert (Hnn : 0 <= edge_distance v' lo hi).
        { assert (v' < lo \/ hi < v') as Ho'
            by (destruct (Qlt_le_dec v' lo); [auto|];
                destruct (Qlt_le_dec hi v'); [auto|]; exfalso; apply Hnot'; auto).
          destruct (edge_distance_outside v' lo hi Hband Ho') as (_ & ? & _). lra. }
        pose proof (penalised_bounds _ Hnn). lra.
    + (* v' is inside the band: both are at distance half from the middle *)
      assert (Heq : Qabs (v - mid lo hi) == Qabs (v' - mid lo hi)) by lra.
      assert (Hins' : lo <= v' /\ v' <= hi) by (apply (inside_iff v' lo hi Hband); exact Hin').
      assert (Hins : lo <= v /\ v <= hi) by (apply (inside_iff v lo hi Hband); lra).
      destruct (score_cases v lo hi)
        as [(_ & _ & Hpos & ->)|[(_ & _ & Hn & ->)|[(H & _)|(_ & H & _)]]];
        try lra;
        destruct (score_cases v' lo hi)
          as [(_ & _ & Hpos' & ->)|[(_ & _ & Hn' & ->)|[(H' & _)|(_ & H' & _)]]];
        try lra; try contradiction.
      rewrite Heq. lra.
Qed.

(** A witness of C6: the band of the elbow angle of a drive. *)
Lemma metric_score_shape_witness :
  165 <= 180 /\ _calculate_metric_score (mid 165 180) (165, 180) == 100.
Proof.
  assert (H : 165 <= 180) by (unfold Qle; simpl; lia).
  split; [exact H|].
  exact (proj1 (proj2 (proj2 (proj2 (metric_score_shape 170 165 180 H))))).
Defined.

(** **** The follow-up's label is read once *)

Lemma compare_metric_scalars orig f1 f2 shot :
  scalars f1 = scalars f2 ->
  compare_metric orig f1 shot = compare_metric orig f2 shot.
Proof. intros H. unfold compare_metric. rewrite H. reflexivity. Qed.

Lemma accuracy_scalars f1 f2 shot :
  scalars f1 = scalars f2 ->
  _calculate_overall_accuracy f1 shot = _calculate_overall_accuracy f2 shot.
Proof. intros H. unfold _calculate_overall_accuracy. rewrite H. reflexivity. Qed.

Lemma compare_metric_banded orig fup shot vars metric :
  Forall (banded_by shot) (v_comparisons vars) ->
  Forall (banded_by shot) (v_comparisons (compare_metric orig fup shot vars metric)).
Proof.
  intros H. unfold compare_metric.
  destruct (scalars orig !! metric) as [a|]; [|exact H].
  destruct (scalars fup !! metric) as [b|]; [|exact H].
  destruct (metric_info !!! metric) as [name unit].
  assert (Hnew : Forall (banded_by shot)
                   (v_comparisons vars
                    ++ [(metric, _calculate_improvement_delta a b
                                   (_get_optimal_range metric shot) metric shot)])).
  { apply Forall_app. split; [exact H|].
    constructor; [|constructor]. cbn. auto. }
  destruct (delta_status _); exact Hnew.
Qed.

Lemma comparisons_banded orig fup shot metrics : forall vars,
  Forall (banded_by shot) (v_comparisons vars) ->
  Forall (banded_by shot)
    (v_comparisons (fold_left (compare_metric orig fup shot) metrics vars)).
Proof.
  induction metrics as [|m rest IH]; intros vars H; [exact H|].
  apply IH, compare_metric_banded, H.
Qed.

(** C7. Two comparisons against the same original attempt whose follow-up
    records carry the same numbers return the same result in every field
    but the recorded follow-up label; every band is the one of the
    original attempt's label. *)
Theorem followup_label_is_only_recorded (orig f1 f2 : Metrics)
    (Hsame : scalars f1 = scalars f2) :
  let r1 := analyze_improvement orig f1 in
  let r2 := analyze_improvement orig f2 in
  result_shot_type r1 = default "FORWARD SHOT"%string (shot_type orig)
  /\ Forall (banded_by (result_shot_type r1)) (metric_comparisons r1)
  /\ followup_shot_type r1 = default "FORWARD SHOT"%string (shot_type f1)
  /\ followup_shot_type r2 = default "FORWARD SHOT"%string (shot_type f2)
  /\ result_shot_type r1 = result_shot_type r2
  /\ metric_comparisons r1 = metric_comparisons r2
  /\ improved_areas r1 = improved_areas r2
  /\ regressed_areas r1 = regressed_areas r2
  /\ maintained_areas r1 = maintained_areas r2
  /\ original_accuracy r1 = original_accuracy r2
  /\ followup_accuracy r1 = followup_accuracy r2
  /\ accuracy_change r1 = accuracy_change r2
  /\ overall_verdict r1 = overall_verdict r2
  /\ verdict_description r1 = verdict_description r2
  /\ improvement_score r1 = improvement_score r2.
Proof.
  intros r1 r2. subst r1 r2. unfold analyze_improvement.
  rewrite (compare_metric_scalars orig f1 f2 _ Hsame).
  rewrite (accuracy_scalars f1 f2 _ Hsame).
  pose proof (comparisons_banded orig f2
                (default "FORWARD SHOT"%string (shot_type orig))
                comparison_metrics (mkVars [] 0 0%nat [] [] [])
                (List.Forall_nil _)) as Hband.
  set (vars := fold_left _ comparison_metrics _) in *.
  repeat match goal with
         | |- context [if ?b then _ else _] => destruct b
         end;
    cbn [result_shot_type followup_shot_type metric_comparisons improved_areas
         regressed_areas maintained_areas original_accuracy followup_accuracy
         accuracy_change overall_verdict verdict_description improvement_score];
    repeat split; try reflexivity; exact Hband.
Qed.

(** A witness of C7: the same follow-up, labelled DRIVE and labelled CUT. *)
Lemma followup_label_is_only_recorded_witness :
  scalars (followup_attempt (Some "DRIVE"%string))
  = scalars (followup_attempt (Some "CUT"%string))
  /\ overall_verdict
       (analyze_improvement original_attempt (followup_attempt (Some "DRIVE"%string)))
     = overall_verdict
         (analyze_improvement original_attempt (followup_attempt (Some "CUT"%string))).
Proof.
  split; [reflexivity|].
  exact (proj1 (proj2 (proj2 (proj2 (proj2 (proj2 (proj2 (proj2 (proj2 (proj2
          (proj2 (proj2 (proj2
            (followup_label_is_only_recorded original_attempt
               (followup_attempt (Some "DRIVE"%string))
               (followup_attempt (Some "CUT"%string)) eq_refl)))))))))))))).
Defined.

(** The worked example of the two attempts at a drive: accuracy 62 and
    92, verdict IMPROVED. *)
Example drive_attempts_improve :
  let r := analyze_improvement original_attempt (followup_attempt None) in
  original_accuracy r == 62 /\ followup_accuracy r == 92
  /\ overall_verdict r = IMPROVED.
Proof. vm_compute. repeat split; reflexivity. Qed.

End ImprovementTheory.

(** ** Properties of [CricketAdviceEngine] *)
Module AdviceTheory.
Import Advice Spec Examples.

Lemma in_firstn {A} (x : A) n : forall l, In x (firstn n l) -> In x l.
Proof.
  induction n as [|n IH]; intros [|y l] H; cbn in *; try contradiction.
  destruct H as [H|H]; [left; exact H | right; apply IH, H].
Qed.

Section WithRuntime.
Variable format_1f : Q -> string.
Variable random_choice : list string -> string.

(** **** The three lists before the fallback *)

Lemma strengths_loop_count shot items : forall acc,
  length (fst acc) = snd acc -> (snd acc <= 3)%nat ->
  let r := fold_left (strengths_step format_1f shot) items acc in
  length (fst r) = snd r /\ (snd r <= 3)%nat.
Proof.
  induction items as [|[metric analysis] rest IH]; intros [l n] Hl Hn;
    cbn [fold_left].
  - auto.
  - apply IH; unfold strengths_step; cbn [fst snd] in *;
      (destruct (status_eqb (status analysis) excellent); cbn [andb];
       [destruct (n <? 3)%nat eqn:E|]; cbn [fst snd]; try assumption);
      apply Nat.ltb_lt in E; [rewrite length_app; cbn [length]|]; lia.
Qed.

Lemma strengths_bound metrics :
  (length (strengths (collect_advice format_1f random_choice metrics)) <= 3)%nat.
Proof.
  unfold collect_advice. cbn [strengths]. unfold strengths_loop.
  match goal with
  | |- (length (fst (fold_left _ ?items _)) <= 3)%nat =>
      pose proof (strengths_loop_count
                    (default "UNKNOWN"%string (shot_type metrics))
                    items ([], 0%nat) eq_refl (Nat.le_0_l 3)) as H
  end.
  cbv zeta in H. destruct H as [H1 H2]. rewrite H1. exact H2.
Qed.

Lemma flaws_bound metrics :
  (length (flaws (collect_advice format_1f random_choice metrics)) <= 4)%nat.
Proof.
  unfold collect_advice. cbn [flaws].
  rewrite List.length_map. apply List.firstn_le_length.
Qed.

Lemma kept_recommendations_bound shot items : forall recs,
  (length (fold_left (recommendation_step format_1f shot) items recs)
   <= length recs + length items)%nat.
Proof.
  induction items as [|[[metric analysis] p] rest IH]; intros recs;
    cbn [fold_left length].
  - lia.
  - unfold recommendation_step at 2.
    destruct (String.eqb _ "");
      [specialize (IH recs) |
       specialize (IH (recs ++ [_get_contextual_feedback format_1f metric analysis
                                  shot recommendation]));
       rewrite length_app in IH; cbn [length] in IH]; lia.
Qed.

Lemma kept_recommendations_nonempty shot items : forall recs,
  ~ In ""%string recs ->
  ~ In ""%string (fold_left (recommendation_step format_1f shot) items recs).
Proof.
  induction items as [|[[metric analysis] p] rest IH]; intros recs Hrecs;
    cbn [fold_left].
  - exact Hrecs.
  - apply IH. unfold recommendation_step.
    destruct (String.eqb _ "") eqn:E; [exact Hrecs|].
    apply String.eqb_neq in E.
    intros Hin. apply in_app_or in Hin. destruct Hin as [Hin|[Hin|[]]].
    + exact (Hrecs Hin).
    + exact (E Hin).
Qed.

Lemma pro_tips_nonempty shot tip : pro_tips !! shot = Some tip -> tip <> ""%string.
Proof.
  intros H. apply elem_of_list_to_map_2 in H.
  apply list_elem_of_In in H. cbn [In] in H.
  repeat (destruct H as [H|H]; [injection H as _ <-; discriminate|]).
  contradiction.
Qed.

Lemma shot_specific_nonempty shot :
  ~ In ""%string (_get_shot_specific_recommendations random_choice shot).
Proof.
  unfold _get_shot_specific_recommendations.
  destruct (shot_drills !! shot) as [drills|]; [|intros []].
  assert (Htips : ~ In ""%string
                    match pro_tips !! shot with
                    | Some tip => [] ++ [tip]
                    | None => []
                    end).
  { destruct (pro_tips !! shot) as [tip|] eqn:E; [|intros []].
    intros [Hin|[]]. exact (pro_tips_nonempty shot tip E Hin). }
  destruct (truthy drills); [|exact Htips].
  intros Hin. apply in_app_or in Hin. destruct Hin as [Hin|[Hin|[]]].
  - exact (Htips Hin).
  - discriminate Hin.
Qed.

Lemma recommendations_bound metrics :
  (length (recommendations (collect_advice format_1f random_choice metrics)) <= 5)%nat.
Proof.
  unfold collect_advice. cbn [recommendations].
  match goal with
  | |- context [fold_left ?f (firstn 3 ?l) []] =>
      pose proof (kept_recommendations_bound
                    (default "UNKNOWN"%string (shot_type metrics))
                    (firstn 3 l) []) as Hk;
      pose proof (List.firstn_le_length 3 l) as H3
  end.
  cbn [length] in Hk.
  pose proof (List.firstn_le_length 2
                (_get_shot_specific_recommendations random_choice
                   (default "UNKNOWN"%string (shot_type metrics)))) as H2.
  destruct (truthy _); [rewrite length_app|]; lia.
Qed.

(** C8. The advice has at most 3 strengths, 4 flaws and 5
    recommendations, and none of the lists is empty: a list that is
    empty after the analysis holds the one generic text of its kind, and
    a list that is not is left as it is. *)
Theorem advice_lists_bounded (metrics : Metrics) :
  let collected := collect_advice format_1f random_choice metrics in
  let advice := generate_advice format_1f random_choice metrics in
  ((length (strengths advice) <= 3)%nat
   /\ (length (flaws advice) <= 4)%nat
   /\ (length (recommendations advice) <= 5)%nat)
  /\ (strengths advice <> [] /\ flaws advice <> [] /\ recommendations advice <> [])
  /\ (strengths advice
      = match strengths collected with
        | [] => [generic_strength]
        | _ => strengths collected
        end)
  /\ (flaws advice
      = match flaws collected with
        | [] => [generic_flaw]
        | _ => flaws collected
        end)
  /\ (recommendations advice
      = match recommendations collected with
        | [] => [generic_recommendation]
        | _ => recommendations collected
        end).
Proof.
  intros collected advice.
  pose proof (strengths_bound metrics) as Hs.
  pose proof (flaws_bound metrics) as Hf.
  pose proof (recommendations_bound metrics) as Hr.
  fold collected in Hs, Hf, Hr.
  subst advice. unfold generate_advice. fold collected.
  cbn [strengths flaws recommendations].
  destruct (strengths collected) as [|s ss];
    destruct (flaws collected) as [|f fs];
    destruct (recommendations collected) as [|r rs];
    cbn [truthy app length] in *;
    repeat split; try discriminate; try reflexivity; lia.
Qed.

End WithRuntime.

(** C9 fails on the code. For the record of a run without landmarks,
    labelled DEFENSIVE by the classifier, the first strength is the empty
    text; for a defensive shot with a weight transfer of 7 the first flaw
    is the empty text. The recommendations drop empty texts. *)
Theorem advice_has_empty_entries (format_1f : Q -> string)
    (random_choice : list string -> string) :
  In ""%string
     (strengths (generate_advice format_1f random_choice undetected_record))
  /\ In ""%string
       (flaws (generate_advice format_1f random_choice defensive_transfer))
  /\ (forall metrics,
        ~ In ""%string
            (recommendations (generate_advice format_1f random_choice metrics))).
Proof.
  split; [vm_compute; left; reflexivity|].
  split; [vm_compute; left; reflexivity|].
  intros metrics. unfold generate_advice.
  cbn [recommendations].
  assert (Hc : ~ In ""%string
                 (recommendations (collect_advice format_1f random_choice metrics))).
  { unfold collect_advice. cbn [recommendations].
    match goal with
    | |- context [fold_left ?f ?l []] =>
        pose proof (kept_recommendations_nonempty format_1f
                      (default "UNKNOWN"%string (shot_type metrics)) l []
                      (fun H => H)) as Hk
    end.
    pose proof (shot_specific_nonempty random_choice
                  (default "UNKNOWN"%string (shot_type metrics))) as Hs.
    destruct (truthy _); [|exact Hk].
    intros Hin. apply in_app_or in Hin. destruct Hin as [Hin|Hin].
    - exact (Hk Hin).
    - apply Hs. eapply in_firstn, Hin. }
  destruct (recommendations (collect_advice format_1f random_choice metrics))
    as [|r rs]; cbn [truthy app].
  - intros [Hin|[]]. discriminate Hin.
  - exact Hc.
Qed.


End AdviceTheory.

(** ** Further properties of [analysis.py] *)
Module RunTheory.
Import Analysis Spec Examples RunFacts AnalysisTheory.

(** **** Angles *)

Lemma Qleb_compat a a' b b' : (a == a')%Q -> (b == b')%Q -> Qleb a b = Qleb a' b'.
Proof. intros Ha Hb. unfold Qleb. apply Qleb_comp; assumption. Qed.

(** X1. With the arctangent between -180 and 180 degrees, the angle at a
    vertex is between 0 and 180, and it is the same read from either
    ray. *)
Theorem calculate_angle_range (atan2_deg : Q -> Q -> Q)
    (Hrange : in_half_turns atan2_deg) (a b c : Point) :
  (0 <= calculate_angle atan2_deg a b c)%Q
  /\ (calculate_angle atan2_deg a b c <= 180)%Q
  /\ (calculate_angle atan2_deg a b c == calculate_angle atan2_deg c b a)%Q.
Proof.
  unfold calculate_angle.
  set (u := atan2_deg (py c - py b)%Q (px c - px b)%Q).
  set (v := atan2_deg (py a - py b)%Q (px a - px b)%Q).
  destruct (Hrange (py c - py b)%Q (px c - px b)%Q) as [Hu1 Hu2].
  destruct (Hrange (py a - py b)%Q (px a - px b)%Q) as [Hv1 Hv2].
  fold u in Hu1, Hu2. fold v in Hv1, Hv2.
  assert (Hsym : (Qabs (u - v) == Qabs (v - u))%Q).
  { rewrite <- (Qabs_opp (v - u)). apply Qabs_wd. ring. }
  assert (Hnn : (0 <= Qabs (u - v))%Q) by apply Qabs_nonneg.
  assert (Hle : (Qabs (u - v) <= 360)%Q).
  { apply Qabs_Qle_condition. split; lra. }
  rewrite <- (Qleb_compat _ _ 180 180 Hsym (Qeq_refl _)).
  destruct (Qleb (Qabs (u - v)) 180) eqn:E.
  - apply Qleb_le in E. split; [lra|]. split; [lra | exact Hsym].
  - assert (~ (Qabs (u - v) <= 180)%Q) by (intros H; apply Qleb_le in H; congruence).
    split; [lra|]. split; [lra|]. rewrite Hsym. reflexivity.
Qed.

(** A witness of X1: the arctangent that is 0 everywhere. *)
Lemma calculate_angle_range_witness :
  in_half_turns flat_atan2
  /\ (calculate_angle flat_atan2 (0, 0)%Q (1, 0)%Q (1, 1)%Q <= 180)%Q.
Proof.
  assert (H : in_half_turns flat_atan2).
  { intros dy dx. unfold flat_atan2. split; lra. }
  split; [exact H|].
  exact (proj1 (proj2 (calculate_angle_range flat_atan2 H (0, 0)%Q (1, 0)%Q (1, 1)%Q))).
Defined.

(** **** Frames without landmarks *)

Section Skipping.
Variable atan2_deg : Q -> Q -> Q.

Lemma skip_undetected frames : forall st,
  stop_after st = false ->
  List.last (frame_loop atan2_deg st frames) st
  = List.last (frame_loop atan2_deg st (detected_only frames)) st.
Proof.
  induction frames as [|f rest IH]; intros st Hst; [reflexivity|].
  destruct f as [lm|]; cbn [detected_only List.filter has_landmarks].
  - rewrite !final_cons.
    destruct (stop_after (process_frame atan2_deg st (Some lm))) eqn:E;
      [reflexivity|].
    apply IH, E.
  - rewrite final_cons, process_frame_none, Hst. apply IH, Hst.
Qed.

End Skipping.

(** X2. Frames without landmarks change nothing: a run ends in the same
    state, and with the same record, as the run over its frames with
    landmarks alone. *)
Theorem undetected_frames_are_skipped (atan2_deg : Q -> Q -> Q)
    (frames : list PoseFrame) :
  final_state atan2_deg frames = final_state atan2_deg (detected_only frames)
  /\ terminal (analyze_cricket_shot atan2_deg (Some frames))
     = terminal (analyze_cricket_shot atan2_deg (Some (detected_only frames))).
Proof.
  assert (H : final_state atan2_deg frames
              = final_state atan2_deg (detected_only frames))
    by (apply skip_undetected; reflexivity).
  split; [exact H|].
  rewrite !terminal_analyze, H. reflexivity.
Qed.


(** **** What the loop keeps true *)

Lemma parallel_append l n x : parallel l n -> parallel (append_sample l x) (S n).
Proof.
  intros (H1 & H2 & H3 & H4 & H5). unfold parallel, append_sample.
  cbn [knee_angles leg_directions head_directions body_directions weight_transfers].
  rewrite !length_app. cbn [length]. repeat split; lia.
Qed.

Lemma initial_consistent : consistent initial_state.
Proof.
  unfold consistent, parallel. cbn.
  repeat split; try (exists 0%nat; repeat split); reflexivity.
Qed.

Section Invariant.
Variable atan2_deg : Q -> Q -> Q.

Lemma process_frame_consistent st f :
  consistent st -> consistent (process_frame atan2_deg st f).
Proof.
  intros Hst. destruct f as [lm|]; [|exact Hst].
  rewrite process_frame_some. unfold process_landmarks.
  pose proof (detect_phase_le lm (stage st)) as Hle.
  pose proof (detect_phase_known lm (stage st)) as Hk.
  destruct Hst as ([ns Hs] & [nb Hb] & Hd & Hf & Hz).
  unfold consistent. cbn [stage phase_data follow_through_frames].
  assert (Hrank : stage_rank (detect_phase lm (stage st)) < 4 ->
                  follow_through_frames st = 0%nat).
  { intros Hlt. apply Hz. intros E. unfold stage_le in Hle. rewrite E in Hle, Hlt.
    remember (stage_rank (detect_phase lm FOLLOW_THROUGH)) as r.
    cbn [stage_rank] in Hle. lia. }
  destruct (detect_phase lm (stage st)) eqn:E; [congruence| | | |];
    cbn [store_sample phase_get phase_set stage_eqb pd_stance pd_backlift
         pd_downswing pd_follow_through elbow_angles] in *.
  - split; [eexists; apply parallel_append, Hs|]. split; [eauto|].
    split; [exact Hd|]. split; [exact Hf|]. intros _. apply Hrank. cbn. lia.
  - split; [eauto|]. split; [eexists; apply parallel_append, Hb|].
    split; [exact Hd|]. split; [exact Hf|]. intros _. apply Hrank. cbn. lia.
  - split; [eauto|]. split; [eauto|].
    split; [rewrite length_app; cbn [length]; rewrite Nat.add_1_r;
            apply parallel_append, Hd|].
    split; [exact Hf|]. intros _. apply Hrank. cbn. lia.
  - split; [eauto|]. split; [eauto|]. split; [exact Hd|].
    split; [apply parallel_append, Hf | congruence].
Qed.

Lemma frame_loop_consistent frames : forall st,
  consistent st -> stop_after st = false ->
  Forall (fun st' => consistent st'
                     /\ (follow_through_frames st' <= FOLLOW_THROUGH_BUFFER)%nat)
         (frame_loop atan2_deg st frames).
Proof.
  induction frames as [|f rest IH]; intros st Hst Hgo; [constructor|].
  cbn [frame_loop].
  pose proof (process_frame_consistent st f Hst) as Hst'.
  assert (Hlt : (follow_through_frames st < FOLLOW_THROUGH_BUFFER)%nat).
  { unfold stop_after in Hgo. destruct Hst as (_ & _ & _ & _ & Hz).
    destruct (stage_eqb (stage st) FOLLOW_THROUGH) eqn:E.
    - cbn [andb] in Hgo. apply Nat.leb_gt in Hgo. exact Hgo.
    - rewrite Hz; [unfold FOLLOW_THROUGH_BUFFER; lia|].
      intros H. apply stage_eqb_eq in H. congruence. }
  assert (Hstep : (follow_through_frames (process_frame atan2_deg st f)
                   <= S (follow_through_frames st))%nat).
  { destruct f as [lm|]; [|rewrite process_frame_none; lia].
    rewrite process_frame_some. unfold process_landmarks.
    cbn [follow_through_frames]. destruct (stage_eqb _ _); lia. }
  constructor; [split; [exact Hst' | lia]|].
  destruct (stop_after (process_frame atan2_deg st f)) eqn:E; [constructor|].
  apply IH; assumption.
Qed.

Lemma frame_loop_length frames : forall st,
  (length (frame_loop atan2_deg st frames) <= length frames)%nat
  /\ ((length (frame_loop atan2_deg st frames) < length frames)%nat ->
      stop_after (List.last (frame_loop atan2_deg st frames) st) = true).
Proof.
  induction frames as [|f rest IH]; intros st; [cbn; split; lia|].
  rewrite final_cons. cbn [frame_loop length].
  destruct (stop_after (process_frame atan2_deg st f)) eqn:E.
  - cbn [length]. split; [lia | intros _; exact E].
  - destruct (IH (process_frame atan2_deg st f)) as [H1 H2].
    cbn [length]. split; [lia|]. intros H. apply H2. lia.
Qed.

End Invariant.

Lemma last_Forall {A} (P : A -> Prop) (l : list A) (d : A) :
  P d -> Forall P l -> P (List.last l d).
Proof.
  intros Hd Hl. revert d Hd. induction Hl as [|x l Hx Hl IH]; intros d Hd; [exact Hd|].
  destruct l as [|y l]; [exact Hx|]. change (P (List.last (y :: l) d)).
  apply IH, Hd.
Qed.

Lemma final_state_consistent (atan2_deg : Q -> Q -> Q) (frames : list PoseFrame) :
  consistent (final_state atan2_deg frames)
  /\ (follow_through_frames (final_state atan2_deg frames)
      <= FOLLOW_THROUGH_BUFFER)%nat.
Proof.
  unfold final_state.
  apply (last_Forall (fun st' => consistent st'
           /\ (follow_through_frames st' <= FOLLOW_THROUGH_BUFFER)%nat)).
  - split; [apply initial_consistent | cbn; unfold FOLLOW_THROUGH_BUFFER; lia].
  - apply frame_loop_consistent; [apply initial_consistent | reflexivity].
Qed.

(** X3. At the end of every run the five lists of each phase have one
    length, DOWNSWING has as many elbow angles as samples, and
    FOLLOW_THROUGH holds as many samples as frames were counted after the
    shot, never more than 30. *)
Theorem accumulators_stay_parallel (atan2_deg : Q -> Q -> Q)
    (frames : list PoseFrame) :
  let st := final_state atan2_deg frames in
  let pd := phase_data st in
  (exists n, parallel (pd_stance pd) n)
  /\ (exists n, parallel (pd_backlift pd) n)
  /\ parallel (pd_downswing pd) (length (elbow_angles pd))
  /\ parallel (pd_follow_through pd) (follow_through_frames st)
  /\ (follow_through_frames st <= 30)%nat.
Proof.
  intros st pd.
  destruct (final_state_consistent atan2_deg frames)
    as ((Hs & Hb & Hd & Hf & _) & Hn).
  fold st in Hs, Hb, Hd, Hf, Hn. fold pd in Hs, Hb, Hd, Hf.
  unfold FOLLOW_THROUGH_BUFFER in Hn.
  repeat (split; [assumption|]). exact Hn.
Qed.

Lemma map_const {A B} (b : B) (l : list A) :
  map (fun _ => b) l = repeat b (length l).
Proof. induction l as [|x l IH]; [reflexivity | cbn; f_equal; exact IH]. Qed.

(** X5. What the generator yields: nothing for a capture that does not
    open; otherwise one preview per frame read and then the record, once.
    Frames are left unread only after the run stopped itself, in
    FOLLOW_THROUGH with exactly 30 frames counted. *)
Theorem generator_shape (atan2_deg : Q -> Q -> Q) (frames : list PoseFrame) :
  let st := final_state atan2_deg frames in
  analyze_cricket_shot atan2_deg None = []
  /\ exists n,
       analyze_cricket_shot atan2_deg (Some frames)
       = repeat Preview n ++ [Terminal (final_metrics (phase_data st))]
       /\ (n <= length frames)%nat
       /\ ((n < length frames)%nat ->
           stage st = FOLLOW_THROUGH /\ follow_through_frames st = 30%nat).
Proof.
  intros st. split; [reflexivity|].
  exists (length (frame_loop atan2_deg initial_state frames)).
  destruct (frame_loop_length atan2_deg frames initial_state) as [Hle Hstop].
  split; [|split; [exact Hle|]].
  - unfold analyze_cricket_shot. f_equal. apply map_const.
  - intros Hlt. specialize (Hstop Hlt). fold (final_state atan2_deg frames) in Hstop.
    fold st in Hstop. unfold stop_after in Hstop.
    apply andb_true_iff in Hstop. destruct Hstop as [Hs Hn].
    apply stage_eqb_eq in Hs. apply Nat.leb_le in Hn.
    destruct (final_state_consistent atan2_deg frames) as (_ & Hb).
    fold st in Hb. unfold FOLLOW_THROUGH_BUFFER in Hn, Hb. split; [exact Hs | lia].
Qed.


(** **** The series of body directions *)

Lemma body_directions_fold xs : forall l,
  body_directions (fold_left append_sample xs l)
  = body_directions l ++ map body_direction xs.
Proof.
  induction xs as [|x xs IH]; intros l; cbn [fold_left map].
  - rewrite app_nil_r. reflexivity.
  - rewrite IH. cbn [append_sample body_directions]. rewrite <- app_assoc. reflexivity.
Qed.

Lemma filter_later (p : Stage) (log : list (Landmarks * Stage)) :
  Forall (fun e => (stage_rank p < stage_rank (snd e))%nat) log ->
  List.filter (fun e => stage_eqb (snd e) p) log = [].
Proof.
  induction 1 as [|e l He _ IH]; [reflexivity|].
  cbn [List.filter]. destruct (stage_eqb (snd e) p) eqn:E; [|exact IH].
  apply stage_eqb_eq in E. rewrite E in He. lia.
Qed.

(** A log in the order of the phases is its STANCE entries, then its
    BACKLIFT entries, then DOWNSWING, then FOLLOW_THROUGH. *)
Lemma sorted_log_by_phase (log : list (Landmarks * Stage)) :
  StronglySorted stage_le (map snd log) ->
  Forall (fun e => snd e <> UNKNOWN) log ->
  List.filter (fun e => stage_eqb (snd e) STANCE) log
  ++ List.filter (fun e => stage_eqb (snd e) BACKLIFT) log
  ++ List.filter (fun e => stage_eqb (snd e) DOWNSWING) log
  ++ List.filter (fun e => stage_eqb (snd e) FOLLOW_THROUGH) log
  = log.
Proof.
  induction log as [|[lm s] l IH]; intros Hsorted Hknown; [reflexivity|].
  cbn [map snd] in Hsorted. apply StronglySorted_inv in Hsorted.
  destruct Hsorted as [Hsorted Hhead].
  apply (proj1 (List.Forall_map snd (stage_le s) l)) in Hhead.
  apply List.Forall_cons_iff in Hknown. destruct Hknown as [Hs Hknown].
  specialize (IH Hsorted Hknown). cbn [snd] in Hs.
  assert (Hlater : forall p, (stage_rank p < stage_rank s)%nat ->
                     List.filter (fun e => stage_eqb (snd e) p) l = []).
  { intros p Hp. apply filter_later.
    eapply List.Forall_impl; [|exact Hhead].
    intros e He. unfold stage_le in He. lia. }
  cbn [List.filter snd].
  destruct s; [congruence| | | |]; cbn [stage_eqb app].
  - rewrite IH. reflexivity.
  - rewrite (Hlater STANCE) in IH |- * by (cbn; lia).
    cbn [app] in IH |- *. rewrite IH. reflexivity.
  - rewrite (Hlater STANCE) in IH |- * by (cbn; lia).
    rewrite (Hlater BACKLIFT) in IH |- * by (cbn; lia).
    cbn [app] in IH |- *. rewrite IH. reflexivity.
  - rewrite (Hlater STANCE) in IH |- * by (cbn; lia).
    rewrite (Hlater BACKLIFT) in IH |- * by (cbn; lia).
    rewrite (Hlater DOWNSWING) in IH |- * by (cbn; lia).
    cbn [app] in IH |- *. rewrite IH. reflexivity.
Qed.

(** X4. The series [body_rotation_over_time] of the record is the body
    direction of every frame with landmarks that was read, in the order of
    the frames: grouping by phase does not reorder them. *)
Theorem rotation_series_is_chronological (atan2_deg : Q -> Q -> Q)
    (frames : list PoseFrame) :
  body_rotation_over_time
    (final_metrics (phase_data (final_state atan2_deg frames)))
  = Some (map (fun e => body_direction (frame_sample atan2_deg (fst e)))
              (detected_log atan2_deg initial_state frames)).
Proof.
  rewrite final_metrics_aggregate. unfold aggregate.
  cbn [body_rotation_over_time]. f_equal.
  set (log := detected_log atan2_deg initial_state frames).
  assert (Hacc : forall p l,
             phase_get (phase_data (final_state atan2_deg frames)) p = Some l ->
             body_directions l
             = map (fun e => body_direction (frame_sample atan2_deg (fst e)))
                   (List.filter (fun e => stage_eqb (snd e) p) log)).
  { intros p l Hl.
    assert (Hp : phase_get (phase_data initial_state) p = Some empty_lists)
      by (destruct p; [discriminate Hl | reflexivity..]).
    pose proof (accumulated atan2_deg frames initial_state p empty_lists Hp) as H.
    fold (final_state atan2_deg frames) in H. rewrite Hl in H. injection H as ->.
    rewrite body_directions_fold. unfold samples_in. fold log.
    cbn [empty_lists body_directions app]. rewrite List.map_map. reflexivity. }
  rewrite (Hacc STANCE _ eq_refl), (Hacc BACKLIFT _ eq_refl),
    (Hacc DOWNSWING _ eq_refl), (Hacc FOLLOW_THROUGH _ eq_refl).
  rewrite <- !List.map_app. f_equal.
  destruct (detected_log_sorted atan2_deg frames initial_state) as [Hall Hsorted].
  apply sorted_log_by_phase; [exact Hsorted|].
  eapply List.Forall_impl; [|exact Hall]. intros e [_ H]. exact H.
Qed.

(** **** What the classifier can answer *)

(** X6. Without a sample in DOWNSWING the classifier reads rotation 0 and
    shift 0, and answers DEFENSIVE when the BACKLIFT samples are fewer
    than half the STANCE samples (counting at least one), FORWARD SHOT
    otherwise. *)
Theorem no_downswing_label (pd : PhaseData)
    (Hbody : body_directions (pd_downswing pd) = [])
    (Hweight : weight_transfers (pd_downswing pd) = []) :
  detect_shot_type pd
  = if Qltb (qlen (knee_angles (pd_backlift pd))
             / Qmax (qlen (knee_angles (pd_stance pd))) 1) 0.5
    then ("DEFENSIVE"%string, 0.85%Q)
    else ("FORWARD SHOT"%string, 0.60%Q).
Proof.
  rewrite detect_shot_type_classify. unfold features_of.
  rewrite Hbody, Hweight. cbn [truthy]. rewrite !andb_false_r.
  unfold classify. cbn [body_rotation weight_shift backlift_height
                        downswing_len backlift_len].
  change (Qltb 0 15) with true. change (Qltb (Qabs 0) 5) with true.
  change (Qltb 5 0) with false. change (Qltb 50 0) with false.
  change (Qltb 45 0) with false. change (Qltb 60 0) with false.
  change (Qltb 30 0) with false.
  cbn [andb]. rewrite andb_false_r. reflexivity.
Qed.

(** A witness of X6: the accumulators of a run that has read nothing. *)
Lemma no_downswing_label_witness :
  detect_shot_type empty_phase_data = ("DEFENSIVE"%string, 0.85%Q).
Proof.
  exact (no_downswing_label empty_phase_data eq_refl eq_refl).
Defined.

(** X7. What each label of the cascade implies once the earlier rules
    have been passed over: CUT needs a rotation above 45 and at most 50;
    SWEEP and every LOFTED shot with a rotation above 50 have a shift of at
    least 5; LOFTED has a rotation above 30 and at most 60. *)
Theorem label_conditions (f : ShotFeatures) :
  (fst (classify f) = "CUT"%string ->
   (45 < body_rotation f)%Q /\ (body_rotation f <= 50)%Q
   /\ (weight_shift f < 3)%Q /\ (downswing_len f < backlift_len f)%nat)
  /\ (fst (classify f) = "SWEEP"%string ->
      (60 < body_rotation f)%Q /\ (5 <= weight_shift f)%Q)
  /\ (fst (classify f) = "LOFTED"%string ->
      (30 < body_rotation f)%Q /\ (body_rotation f <= 60)%Q
      /\ (1.2 < backlift_height f)%Q
      /\ ((50 < body_rotation f)%Q -> (5 <= weight_shift f)%Q)).
Proof.
  unfold classify.
  destruct (Qltb (body_rotation f) 15 && Qltb (Qabs (weight_shift f)) 5
            && Qltb (backlift_height f) 0.5);
    [cbn [fst]; repeat split; discriminate|].
  destruct (Qltb 5 (weight_shift f)
            && (Qleb 15 (body_rotation f) && Qleb (body_rotation f) 45));
    [cbn [fst]; repeat split; discriminate|].
  destruct (Qltb 50 (body_rotation f)) eqn:E50;
    destruct (Qltb (weight_shift f) 5) eqn:Es5; cbn [andb];
    try (cbn [fst]; repeat split; discriminate);
    destruct (Qltb 45 (body_rotation f)) eqn:E45;
    destruct (Qltb (weight_shift f) 3) eqn:Es3;
    destruct (downswing_len f <? backlift_len f)%nat eqn:El; cbn [andb];
    destruct (Qltb 60 (body_rotation f)) eqn:E60;
    destruct (Qltb 1.2 (backlift_height f)) eqn:Eb;
    destruct (Qltb 30 (body_rotation f)) eqn:E30; cbn [andb fst];
    repeat match goal with
           | H : Qltb _ _ = true |- _ => apply Qltb_lt in H
           | H : Qltb _ _ = false |- _ => apply Qltb_nlt in H
           | H : (_ <? _)%nat = true |- _ => apply Nat.ltb_lt in H
           end;
    (split; [|split]); intros Hl; try discriminate Hl;
    repeat match goal with |- _ /\ _ => split end;
    first [lra | lia | intros Hr; lra].
Qed.

(** A witness of X7: a rotation of 48 with no shift and a downswing
    shorter than the backlift is a CUT. *)
Lemma label_conditions_witness :
  fst (classify (mkFeatures 48 0 1 2 5)) = "CUT"%string
  /\ (body_rotation (mkFeatures 48 0 1 2 5) <= 50)%Q.
Proof.
  assert (H : fst (classify (mkFeatures 48 0 1 2 5)) = "CUT"%string) by reflexivity.
  split; [exact H|].
  exact (proj1 (proj2 (proj1 (label_conditions (mkFeatures 48 0 1 2 5)) H))).
Defined.

End RunTheory.

(** ** Further properties of [ImprovementEngine] *)
Module ComparisonTheory.
Import Improvement Spec Examples ComparisonFacts.
Import AnalysisTheory ImprovementTheory.

Local Open Scope Q_scope.

(** **** The bands of the tables *)

Lemma table_ordered (t : gmap string Range) metric r :
  table_ok t = true -> t !! metric = Some r -> ordered r = true.
Proof.
  intros Hall Hr. unfold table_ok in Hall. rewrite forallb_forall in Hall.
  apply (Hall (metric, r)), list_elem_of_In, elem_of_map_to_list, Hr.
Qed.

Lemma default_optimal_ordered : table_ok default_optimal = true.
Proof. vm_compute. reflexivity. Qed.

Lemma optimal_ranges_ordered :
  forallb (fun e => table_ok (snd e)) (map_to_list optimal_ranges) = true.
Proof. vm_compute. reflexivity. Qed.

Lemma shot_table_ordered shot ranges :
  optimal_ranges !! shot = Some ranges -> table_ok ranges = true.
Proof.
  intros E. pose proof optimal_ranges_ordered as Hall.
  rewrite forallb_forall in Hall.
  apply elem_of_map_to_list in E. apply list_elem_of_In in E.
  exact (Hall _ E).
Qed.

Lemma band_ordered metric shot : ordered (_get_optimal_range metric shot) = true.
Proof.
  unfold _get_optimal_range.
  destruct (optimal_ranges !! shot) as [ranges|] eqn:E.
  - simpl default.
    destruct (ranges !! metric) as [r|] eqn:Er.
    + simpl default.
      apply (table_ordered ranges metric r (shot_table_ordered shot ranges E) Er).
    + simpl default.
      destruct (default_optimal !! metric) as [r|] eqn:Ed.
      * simpl default. exact (table_ordered _ _ _ default_optimal_ordered Ed).
      * reflexivity.
  - simpl default.
    destruct (default_optimal !! metric) as [r|] eqn:Ed.
    + simpl default. exact (table_ordered _ _ _ default_optimal_ordered Ed).
    + reflexivity.
Qed.

Lemma score_bounds v lo hi :
  20 <= _calculate_metric_score v (lo, hi)
  /\ _calculate_metric_score v (lo, hi) <= 100.
Proof.
  destruct (score_cases v lo hi)
    as [(H1 & H2 & _ & _)|[(H1 & H2 & _ & _)|[(H1 & E)|(H1 & H2 & E)]]].
  - destruct (score_inside_bounds v lo hi H1 H2). split; lra.
  - destruct (score_inside_bounds v lo hi H1 H2). split; lra.
  - rewrite E. destruct (penalised_bounds (lo - v)); [lra|]. split; lra.
  - rewrite E. destruct (penalised_bounds (v - hi)); [lra|]. split; lra.
Qed.

(** X8.  Every band that [_get_optimal_range] can return, for any metric name
    and any label (known or not), has its lower edge at or below its upper
    edge; the score of any value against it lies between 20 and 100, and
    the midpoint of the band scores 100. *)
Theorem table_bands_ordered (metric shot : string) (value : Q) :
  let band := _get_optimal_range metric shot in
  fst band <= snd band
  /\ 20 <= _calculate_metric_score value band
  /\ _calculate_metric_score value band <= 100
  /\ _calculate_metric_score (mid (fst band) (snd band)) band == 100.
Proof.
  intros band. pose proof (band_ordered metric shot) as Hb.
  fold band in Hb. destruct band as [lo hi]. cbn [fst snd].
  apply Qleb_le in Hb. cbn [fst snd] in Hb.
  destruct (score_bounds value lo hi) as [Hlo Hhi].
  split; [exact Hb|]. split; [exact Hlo|]. split; [exact Hhi|].
  pose proof (mid_double lo hi) as Hm.
  destruct (score_cases (mid lo hi) lo hi)
    as [(H1 & H2 & Hh & E)|[(H1 & H2 & _ & E)|[(H1 & E)|(H1 & H2 & E)]]].
  - rewrite E.
    assert (Hz : mid lo hi - mid lo hi == 0) by ring.
    rewrite Hz. change (Qabs 0) with 0.
    assert (Hq : 0 / half lo hi == 0) by (unfold Qdiv; ring).
    rewrite Hq. ring.
  - rewrite E. reflexivity.
  - exfalso. lra.
  - exfalso. lra.
Qed.

(** **** The overall accuracy *)

Lemma round_half_even_lower (n : Z) (x : Q) :
  inject_Z n <= x -> (n <= round_half_even x)%Z.
Proof.
  intros H. unfold round_half_even.
  assert (Hf : (n <= Qfloor x)%Z).
  { rewrite <- (Qfloor_Z n). apply Qfloor_resp_le, H. }
  destruct (Qltb _ _); [exact Hf|].
  destruct (Qltb _ _); [lia|].
  destruct (Z.even _); lia.
Qed.

Lemma round_half_even_upper (n : Z) (x : Q) :
  x <= inject_Z n -> (round_half_even x <= n)%Z.
Proof.
  intros H. unfold round_half_even.
  assert (Hf : (Qfloor x <= n)%Z).
  { rewrite <- (Qfloor_Z n). apply Qfloor_resp_le, H. }
  destruct (Qltb (x - inject_Z (Qfloor x)) (1 # 2)) eqn:E; [exact Hf|].
  apply Qltb_nlt in E.
  assert (Hlt : (Qfloor x < n)%Z).
  { destruct (Z.eq_dec (Qfloor x) n) as [Heq|]; [|lia].
    exfalso. apply E. rewrite Heq. lra. }
  destruct (Qltb _ _); [lia|].
  destruct (Z.even _); lia.
Qed.

Lemma py_round1_bounds (a b : Z) (x : Q) :
  inject_Z a <= x -> x <= inject_Z b ->
  inject_Z a <= py_round1 x /\ py_round1 x <= inject_Z b.
Proof.
  intros Ha Hb. unfold py_round1.
  assert (H1 : (a * 10 <= round_half_even (x * 10))%Z).
  { apply round_half_even_lower. rewrite inject_Z_mult.
    change (inject_Z 10) with 10. lra. }
  assert (H2 : (round_half_even (x * 10) <= b * 10)%Z).
  { apply round_half_even_upper. rewrite inject_Z_mult.
    change (inject_Z 10) with 10. lra. }
  rewrite Zle_Qle, inject_Z_mult in H1, H2.
  change (inject_Z 10) with 10 in H1, H2.
  set (r := inject_Z (round_half_even (x * 10))) in *.
  assert (Hr : r / 10 * 10 == r) by (field).
  split; lra.
Qed.

Lemma qlen_app {A} (l : list A) (x : A) : qlen (l ++ [x]) == qlen l + 1.
Proof.
  unfold qlen. rewrite length_app. cbn [length].
  rewrite Nat2Z.inj_add, inject_Z_plus. reflexivity.
Qed.

Lemma qsum_app (l : list Q) (x : Q) : qsum (l ++ [x]) = (qsum l + x)%Q.
Proof. unfold qsum. rewrite fold_left_app. reflexivity. Qed.



Lemma scores_of_range metrics shot l acc :
  sum_in_range acc ->
  sum_in_range (scores_of metrics shot l acc)
  /\ (existsb (carries metrics) l = false -> scores_of metrics shot l acc = acc)
  /\ (existsb (carries metrics) l = true ->
      0 < qlen (scores_of metrics shot l acc)).
Proof.
  revert acc. induction l as [|m l IH]; intros acc Hacc.
  - cbn. split; [exact Hacc|]. split; [reflexivity|discriminate].
  - cbn [scores_of fold_left existsb]. unfold carries at 1 3.
    destruct (scalars metrics !! m) as [v|] eqn:E.
    + fold (scores_of metrics shot l
              (acc ++ [_calculate_metric_score v (_get_optimal_range m shot)])).
      assert (Hacc' : sum_in_range
                (acc ++ [_calculate_metric_score v (_get_optimal_range m shot)])).
      { unfold sum_in_range, sum_between in *. rewrite qsum_app, qlen_app.
        destruct Hacc as [Hlo Hhi].
        destruct (_get_optimal_range m shot) as [lo hi].
        destruct (score_bounds v lo hi) as [Hs Hs'].
        set (x := _calculate_metric_score v (lo, hi)) in *.
        split; lra. }
      destruct (IH _ Hacc') as (H1 & H2 & H3).
      split; [exact H1|]. split; [discriminate|]. intros _.
      destruct (existsb (carries metrics) l) eqn:El; [exact (H3 eq_refl)|].
      rewrite (H2 eq_refl), qlen_app. pose proof (qlen_nonneg acc). lra.
    + fold (scores_of metrics shot l acc). cbn [orb]. apply IH, Hacc.
Qed.

(** X9.  [_calculate_overall_accuracy] is 0 when the record carries none of
    the four compared metrics, and lies between 20 and 100 when it carries
    at least one, for every record and every label. *)
Theorem overall_accuracy_range (metrics : Metrics) (shot : string) :
  if existsb (carries metrics) comparison_metrics
  then 20 <= _calculate_overall_accuracy metrics shot
       /\ _calculate_overall_accuracy metrics shot <= 100
  else _calculate_overall_accuracy metrics shot == 0.
Proof.
  unfold _calculate_overall_accuracy.
  fold (scores_of metrics shot comparison_metrics []).
  assert (H0 : sum_in_range []).
  { unfold sum_in_range, sum_between. change (qlen (@nil Q)) with 0. change (qsum []) with 0.
    split; lra. }
  destruct (scores_of_range metrics shot comparison_metrics [] H0) as (H1 & H2 & H3).
  destruct (existsb (carries metrics) comparison_metrics).
  - specialize (H3 eq_refl).
    set (scores := scores_of metrics shot comparison_metrics []) in *.
    unfold sum_in_range, sum_between in H1. destruct H1 as [Hlo Hhi].
    assert (Hone : 1 <= qlen scores).
    { unfold qlen in *. change 1 with (inject_Z 1). rewrite <- Zle_Qle.
      change 0 with (inject_Z 0) in H3. rewrite <- Zlt_Qlt in H3. lia. }
    assert (Hm : Qmax (qlen scores) 1 == qlen scores).
    { apply Q.max_l, Hone. }
    assert (Hq : 20 <= qsum scores / Qmax (qlen scores) 1
                 /\ qsum scores / Qmax (qlen scores) 1 <= 100).
    { rewrite Hm. split.
      - apply Qle_shift_div_l; lra.
      - apply Qle_shift_div_r; lra. }
    apply (py_round1_bounds 20 100); apply Hq.
  - rewrite (H2 eq_refl). vm_compute. reflexivity.
Qed.

(** **** The score is symmetric about the middle of its band *)

Lemma Qabs_opp_eq (x y : Q) : x == - y -> Qabs x == Qabs y.
Proof. intros H. rewrite H. apply Qabs_opp. Qed.

(** X10.  For a band with lo <= hi the score depends on the value only
    through its distance from the middle: the value mirrored at the middle,
    lo + hi - v, gets the score of v. *)
Theorem score_mirror (v lo hi : Q) (Hband : lo <= hi) :
  _calculate_metric_score (lo + hi - v) (lo, hi)
  == _calculate_metric_score v (lo, hi).
Proof.
  pose proof (mid_double lo hi) as Hm.
  destruct (score_cases v lo hi)
    as [(H1 & H2 & Hh & E)|[(H1 & H2 & Hh & E)|[(H1 & E)|(H1 & H2 & E)]]];
  destruct (score_cases (lo + hi - v) lo hi)
    as [(H1' & H2' & Hh' & E')|[(H1' & H2' & Hh' & E')|[(H1' & E')|(H1' & H2' & E')]]];
  rewrite E, E'; try reflexivity; try (exfalso; lra).
  - assert (Ha : Qabs (lo + hi - v - mid lo hi) == Qabs (v - mid lo hi)).
    { apply Qabs_opp_eq. lra. }
    rewrite Ha. reflexivity.
  - apply penalised_wd. lra.
  - apply penalised_wd. lra.
Qed.

Lemma score_mirror_witness :
  _calculate_metric_score (0 + 10 - 3) (0, 10) == _calculate_metric_score 3 (0, 10).
Proof. apply (score_mirror 3 0 10). lra. Defined.

(** **** Every compared metric is filed once *)

Lemma filter_app_one {A} (f : A -> bool) (l : list A) (x : A) :
  List.filter f (l ++ [x]) = List.filter f l ++ (if f x then [x] else []).
Proof. rewrite List.filter_app. reflexivity. Qed.


Lemma compare_metric_files a b shot vars metric :
  files a b shot [metric] vars (compare_metric a b shot vars metric).
Proof.
  unfold files, compare_metric, compared, carries, filed, status_of.
  cbn [List.filter].
  destruct (scalars a !! metric) as [va|]; [|cbn; rewrite !app_nil_r; auto with arith].
  destruct (scalars b !! metric) as [vb|]; [|cbn; rewrite !app_nil_r; auto with arith].
  destruct (metric_info !!! metric) as [metric_name unit].
  cbn [andb].
  destruct (delta_status _); cbn [delta_status_eqb v_comparisons v_improved v_regressed
    v_maintained v_analyzed length];
    rewrite ?map_app, ?app_nil_r; cbn [map fst area_metric];
    repeat split; lia.
Qed.

Lemma fold_compare_files a b shot l vars :
  files a b shot l vars (fold_left (compare_metric a b shot) l vars).
Proof.
  revert vars. induction l as [|m l IH]; intros vars.
  - unfold files. cbn. rewrite !app_nil_r. repeat split; lia.
  - cbn [fold_left].
    destruct (IH (compare_metric a b shot vars m)) as (H1 & H2 & H3 & H4 & H5).
    destruct (compare_metric_files a b shot vars m) as (G1 & G2 & G3 & G4 & G5).
    unfold files. rewrite H1, H2, H3, H4, H5, G1, G2, G3, G4, G5.
    rewrite <- !app_assoc. cbn [List.filter].
    destruct (compared a b m), (filed a b shot improved m),
      (filed a b shot regressed m), (filed a b shot maintained m);
      cbn [app length]; repeat split; lia.
Qed.

Lemma analyze_vars a b :
  let r := analyze_improvement a b in
  let vars := fold_left (compare_metric a b (label_of a)) comparison_metrics
                (mkVars [] 0 0%nat [] [] []) in
  metric_comparisons r = v_comparisons vars
  /\ improved_areas r = v_improved vars
  /\ regressed_areas r = v_regressed vars
  /\ maintained_areas r = v_maintained vars
  /\ original_accuracy r = _calculate_overall_accuracy a (label_of a)
  /\ followup_accuracy r = _calculate_overall_accuracy b (label_of a).
Proof.
  unfold analyze_improvement, label_of.
  repeat match goal with |- context [if ?c then _ else _] => destruct c end;
    cbn; repeat split; reflexivity.
Qed.

Lemma filed_exclusive a b shot metric :
  compared a b metric
  = filed a b shot improved metric || filed a b shot regressed metric
    || filed a b shot maintained metric
  /\ (filed a b shot improved metric && filed a b shot regressed metric = false)
  /\ (filed a b shot improved metric && filed a b shot maintained metric = false)
  /\ (filed a b shot regressed metric && filed a b shot maintained metric = false).
Proof.
  unfold compared, carries, filed, status_of.
  destruct (scalars a !! metric); [|cbn; auto].
  destruct (scalars b !! metric); [|cbn; auto].
  destruct (delta_status _); cbn; auto.
Qed.

Lemma filed_lengths a b shot l :
  length (List.filter (compared a b) l)
  = (length (List.filter (filed a b shot improved) l)
     + length (List.filter (filed a b shot regressed) l)
     + length (List.filter (filed a b shot maintained) l))%nat.
Proof.
  induction l as [|m l IH]; [reflexivity|].
  cbn [List.filter].
  destruct (filed_exclusive a b shot m) as (-> & ? & ? & ?).
  destruct (filed a b shot improved m), (filed a b shot regressed m),
    (filed a b shot maintained m); try discriminate; cbn [orb length]; lia.
Qed.

Lemma analyze_filed a b :
  let r := analyze_improvement a b in
  map fst (metric_comparisons r) = List.filter (compared a b) comparison_metrics
  /\ (forall s, map area_metric (areas s r)
                = List.filter (filed a b (label_of a) s) comparison_metrics).
Proof.
  intros r.
  destruct (analyze_vars a b) as (E1 & E2 & E3 & E4 & _).
  fold r in E1, E2, E3, E4.
  destruct (fold_compare_files a b (label_of a) comparison_metrics
              (mkVars [] 0 0%nat [] [] [])) as (H1 & H2 & H3 & H4 & H5).
  cbn [v_comparisons v_improved v_regressed v_maintained v_analyzed map app] in *.
  rewrite <- E1 in H1. rewrite <- E2 in H2. rewrite <- E3 in H3. rewrite <- E4 in H4.
  split; [exact H1|]. intros []; assumption.
Qed.

(** X12.  In the result of [analyze_improvement] the compared metrics are
    exactly the metrics of the fixed list that both records carry, in the
    order of the list; the metrics of the improved, regressed and
    maintained areas are the compared metrics with that status, so each
    compared metric is filed in exactly one of the three lists, and at most
    four metrics are compared. *)
Theorem every_compared_metric_filed_once (a b : Metrics) :
  let r := analyze_improvement a b in
  map fst (metric_comparisons r) = List.filter (compared a b) comparison_metrics
  /\ (forall s, map area_metric (areas s r)
                = List.filter (filed a b (label_of a) s) comparison_metrics)
  /\ (forall metric,
        compared a b metric
        = filed a b (label_of a) improved metric
          || filed a b (label_of a) regressed metric
          || filed a b (label_of a) maintained metric
        /\ filed a b (label_of a) improved metric
           && filed a b (label_of a) regressed metric = false
        /\ filed a b (label_of a) improved metric
           && filed a b (label_of a) maintained metric = false
        /\ filed a b (label_of a) regressed metric
           && filed a b (label_of a) maintained metric = false)
  /\ (length (metric_comparisons r)
      = length (improved_areas r) + length (regressed_areas r)
        + length (maintained_areas r))%nat
  /\ (length (metric_comparisons r) <= 4)%nat.
Proof.
  intros r.
  destruct (analyze_filed a b) as (H1 & Hs). fold r in H1, Hs.
  pose proof (Hs improved) as H2. pose proof (Hs regressed) as H3.
  pose proof (Hs maintained) as H4. cbn [areas] in H2, H3, H4.
  split; [exact H1|].
  split; [exact Hs|].
  split; [intros metric; apply filed_exclusive|].
  assert (Hlen : forall (X : Type) (f : X -> string) (l : list X), length l = length (map f l)).
  { intros. symmetry. apply length_map. }
  rewrite (Hlen _ fst (metric_comparisons r)), (Hlen _ area_metric (improved_areas r)),
    (Hlen _ area_metric (regressed_areas r)), (Hlen _ area_metric (maintained_areas r)).
  rewrite H1, H2, H3, H4.
  split; [apply filed_lengths|].
  apply (List.filter_length_le (compared a b) comparison_metrics).
Qed.

(** **** Reading the comparison the other way round *)

Lemma analyze_verdict a b :
  let r := analyze_improvement a b in
  overall_verdict r
  = verdict_of (original_accuracy r) (followup_accuracy r)
      (length (improved_areas r)) (length (regressed_areas r)).
Proof.
  unfold analyze_improvement. cbv zeta.
  set (oa := _calculate_overall_accuracy a _).
  set (fa := _calculate_overall_accuracy b _).
  set (vars := fold_left _ _ _).
  unfold verdict_of.
  destruct (Qltb (oa + 5) fa) eqn:E1;
    [cbn [overall_verdict original_accuracy followup_accuracy improved_areas
          regressed_areas]; rewrite E1; reflexivity|].
  destruct (Qltb fa (oa - 5)) eqn:E2;
    [cbn [overall_verdict original_accuracy followup_accuracy improved_areas
          regressed_areas]; rewrite E1, E2; reflexivity|].
  destruct (length (v_regressed vars) <? length (v_improved vars))%nat eqn:E3;
    [cbn [overall_verdict original_accuracy followup_accuracy improved_areas
          regressed_areas]; rewrite E1, E2, E3; reflexivity|].
  destruct (length (v_improved vars) <? length (v_regressed vars))%nat eqn:E4;
    cbn [overall_verdict original_accuracy followup_accuracy improved_areas
         regressed_areas]; rewrite E1, E2, E3, E4; reflexivity.
Qed.






End ComparisonTheory.

(** ** Properties of the feedback on a comparison *)
Module FeedbackTheory.
Import Improvement Advice Feedback ComparisonFacts.
Import AnalysisTheory AdviceTheory ComparisonTheory.

(** **** Focus recommendations *)

Lemma focus_step_length shot recs area :
  (length recs <= length (focus_step shot recs area) <= S (length recs))%nat.
Proof.
  unfold focus_step.
  repeat match goal with |- context [if ?c then _ else _] => destruct c end;
    rewrite ?length_app; cbn [length]; lia.
Qed.

Lemma focus_fold_length shot areas : forall recs,
  (length recs <= length (fold_left (focus_step shot) areas recs)
   <= length recs + length areas)%nat.
Proof.
  induction areas as [|area rest IH]; intros recs; cbn [fold_left length]; [lia|].
  specialize (IH (focus_step shot recs area)).
  pose proof (focus_step_length shot recs area). lia.
Qed.

Lemma truthy_length {A} (l : list A) : truthy l = (0 <? length l)%nat.
Proof. destruct l; reflexivity. Qed.

(** X13.  [_get_focus_recommendations] returns between one and three
    texts, whatever the analysis it is given. *)
Theorem focus_recommendations_bounded (analysis : ImprovementResult) :
  (1 <= length (_get_focus_recommendations analysis) <= 3)%nat.
Proof.
  unfold _get_focus_recommendations. cbv zeta.
  set (recs := fold_left _ _ _).
  rewrite length_firstn.
  destruct (truthy recs) eqn:E.
  - rewrite truthy_length in E. apply Nat.ltb_lt in E. lia.
  - destruct (overall_verdict analysis); rewrite ?length_app; cbn [length]; lia.
Qed.

(** **** Drills *)

Lemma for_each_ok {A S} (body : S -> A -> Result S) (P : S -> Prop) (l : list A) :
  (forall s x, P s -> exists s', body s x = Ok s' /\ P s') ->
  forall s, P s -> exists s', for_each body l s = Ok s' /\ P s'.
Proof.
  intros Hbody. induction l as [|x rest IH]; intros s Hs; cbn [for_each].
  - exists s. split; [reflexivity | exact Hs].
  - destruct (Hbody s x Hs) as (s' & E & Hs'). rewrite E. cbn.
    apply IH, Hs'.
Qed.

Lemma drill_entries metric entry :
  drill_database !! metric = Some entry ->
  (metric = "weight_transfer_amount"%string)
  \/ (exists l, entry = DrillList l /\ (3 <= length l)%nat).
Proof.
  intros H. unfold drill_database in H.
  apply elem_of_list_to_map_2, list_elem_of_In in H. cbn [In] in H.
  destruct H as [H|[H|[H|[H|[]]]]]; injection H as <- <-;
    first [left; reflexivity | right; eexists; split; [reflexivity | cbn; lia]].
Qed.

Lemma py_item_ok {A} (l : list A) (i : nat) :
  (i < length l)%nat -> exists x, py_item l i = Ok x.
Proof.
  intros H. unfold py_item.
  destruct (nth_error l i) as [x|] eqn:E; [exists x; reflexivity|].
  apply nth_error_None in E. lia.
Qed.

Lemma regressed_drill_ok shot drills area :
  exists drills', regressed_drill shot drills area = Ok drills'
    /\ (length drills <= length drills')%nat.
Proof.
  unfold regressed_drill. cbv zeta.
  destruct (String.eqb (area_metric area) "weight_transfer_amount") eqn:Em.
  - destruct (in_list shot _); eexists; (split; [reflexivity|]);
      rewrite length_app; lia.
  - destruct (drill_database !! area_metric area) as [entry|] eqn:E.
    + destruct (drill_entries _ _ E) as [Hw|(l & -> & Hl)].
      * apply String.eqb_neq in Em. contradiction.
      * destruct (py_item_ok l 0) as (x & ->); [lia|]. cbn.
        eexists. split; [reflexivity|]. rewrite length_app. lia.
    + exists drills. split; [reflexivity | lia].
Qed.

Lemma maintained_drill_ok drills area :
  exists drills', maintained_drill drills area = Ok drills'
    /\ (length drills <= length drills')%nat.
Proof.
  unfold maintained_drill. cbv zeta.
  destruct (drill_database !! area_metric area) as [entry|] eqn:E;
    [|exists drills; split; [reflexivity | lia]].
  destruct (length drills <? 3)%nat; [|exists drills; split; [reflexivity | lia]].
  destruct entry as [l|forward back]; [|exists drills; split; [reflexivity | lia]].
  destruct (drill_entries _ _ E) as [Hw|(l' & [= <-] & Hl)].
  - rewrite Hw in E. vm_compute in E. discriminate E.
  - destruct (Nat.ltb_spec 1 (length l)); [|lia].
    destruct (py_item_ok l 1) as (x & ->); [lia|]. cbn.
    eexists. split; [reflexivity|]. rewrite length_app. lia.
Qed.

Lemma drills_never_raise (analysis : ImprovementResult) :
  exists drills, _get_improvement_drills analysis = Ok drills.
Proof.
  unfold _get_improvement_drills. cbv zeta.
  destruct (for_each_ok (regressed_drill (result_shot_type analysis))
              (fun _ => True) (regressed_areas analysis)) with (s := @nil string)
    as (d1 & -> & _); [|exact I|].
  { intros s x _. destruct (regressed_drill_ok (result_shot_type analysis) s x)
      as (s' & E & _). exists s'. split; [exact E | exact I]. }
  cbn.
  destruct (for_each_ok maintained_drill (fun _ => True) (maintained_areas analysis))
    with (s := d1) as (d2 & -> & _); [|exact I|].
  { intros s x _. destruct (maintained_drill_ok s x) as (s' & E & _).
    exists s'. split; [exact E | exact I]. }
  cbn. eexists. reflexivity.
Qed.

(** X15.  [_get_improvement_drills] raises nothing and returns between two
    and four drills, whatever the analysis it is given: every list of the
    drill table is long enough for the index the code uses, and the one
    entry that is a dict is never indexed by position. *)
Theorem improvement_drills_bounded (analysis : ImprovementResult) :
  exists drills, _get_improvement_drills analysis = Ok drills
    /\ (2 <= length drills <= 4)%nat.
Proof.
  unfold _get_improvement_drills. cbv zeta.
  destruct (for_each_ok (regressed_drill (result_shot_type analysis))
              (fun _ => True) (regressed_areas analysis)) with (s := @nil string)
    as (d1 & -> & _); [|exact I|].
  { intros s x _. destruct (regressed_drill_ok (result_shot_type analysis) s x)
      as (s' & E & _). exists s'. split; [exact E | exact I]. }
  cbn.
  destruct (for_each_ok maintained_drill (fun _ => True) (maintained_areas analysis))
    with (s := d1) as (d2 & -> & _); [|exact I|].
  { intros s x _. destruct (maintained_drill_ok s x) as (s' & E & _).
    exists s'. split; [exact E | exact I]. }
  cbn. eexists. split; [reflexivity|].
  rewrite length_firstn.
  destruct (Nat.leb_spec (length d2) 1); rewrite ?length_app;
    change (length general_drills) with 2%nat; lia.
Qed.

(** **** Focus recommendations on the result of a comparison *)


Lemma focus_step_known shot recs area :
  In (area_metric area) comparison_metrics ->
  exists text, focus_step shot recs area = recs ++ [text] /\ specific text.
Proof.
  intros Hin. unfold focus_step. cbv zeta.
  unfold comparison_metrics in Hin. cbn [In] in Hin.
  destruct Hin as [<-|[<-|[<-|[<-|[]]]]]; cbn [String.eqb Ascii.eqb Bool.eqb];
    repeat match goal with |- context [if ?c then _ else _] => destruct c end;
    eexists; (split; [reflexivity|]);
    split; apply String.eqb_neq; vm_compute; reflexivity.
Qed.

Lemma focus_fold_known shot areas : forall recs,
  Forall (fun area => In (area_metric area) comparison_metrics) areas ->
  exists texts, fold_left (focus_step shot) areas recs = recs ++ texts
    /\ length texts = length areas /\ Forall specific texts.
Proof.
  induction areas as [|area rest IH]; intros recs Hall; cbn [fold_left].
  - exists []. rewrite app_nil_r. repeat split. constructor.
  - inversion Hall as [|? ? Ha Hrest]; subst.
    destruct (focus_step_known shot recs area Ha) as (text & -> & Ht).
    destruct (IH (recs ++ [text]) Hrest) as (texts & -> & Hlen & Hts).
    exists (text :: texts). rewrite <- app_assoc. cbn [app length].
    repeat split; [congruence | constructor; assumption].
Qed.

Lemma filter_subset {A} (f : A -> bool) (l : list A) :
  Forall (fun x => In x l) (List.filter f l).
Proof.
  apply List.Forall_forall. intros x Hx. apply List.filter_In in Hx. tauto.
Qed.

Lemma regressed_known a b :
  Forall (fun area => In (area_metric area) comparison_metrics)
    (regressed_areas (analyze_improvement a b)).
Proof.
  destruct (analyze_filed a b) as (_ & Hs). specialize (Hs regressed).
  cbn [areas] in Hs.
  pose proof (filter_subset (filed a b (label_of a) regressed) comparison_metrics) as Hsub.
  rewrite <- Hs in Hsub.
  apply (proj1 (List.Forall_map area_metric
                  (fun m => In m comparison_metrics) _)) in Hsub.
  exact Hsub.
Qed.

Lemma verdict_without_regressions oa fa ni :
  verdict_of oa fa ni 0 <> SLIGHT_REGRESSION.
Proof.
  unfold verdict_of.
  destruct (Qltb _ _); [discriminate|]. destruct (Qltb _ _); [discriminate|].
  destruct (0 <? ni)%nat; [discriminate|].
  destruct (Nat.ltb_spec ni 0); [lia | discriminate].
Qed.

(** X14.  On the result of [analyze_improvement]: with no regressed area the
    verdict is never SLIGHT_REGRESSION and the focus texts are the general
    ones (the consistency text only with MAINTAINED, then the timing
    text); with regressed areas every one of them yields a text, the first
    three are kept and neither general text is among them. *)
Theorem focus_follows_regressions (a b : Metrics) :
  let r := analyze_improvement a b in
  match regressed_areas r with
  | [] =>
      overall_verdict r <> SLIGHT_REGRESSION
      /\ _get_focus_recommendations r
         = match overall_verdict r with
           | MAINTAINED => [consistency_focus; timing_focus]
           | _ => [timing_focus]
           end
  | _ :: _ =>
      length (_get_focus_recommendations r)
      = Nat.min 3 (length (regressed_areas r))
      /\ Forall specific (_get_focus_recommendations r)
  end.
Proof.
  intros r.
  pose proof (regressed_known a b) as Hknown. fold r in Hknown.
  pose proof (analyze_verdict a b) as Hv. cbv zeta in Hv. fold r in Hv.
  clearbody r.
  unfold _get_focus_recommendations. cbv zeta.
  destruct (regressed_areas r) as [|area rest] eqn:E.
  - cbn [length] in Hv.
    assert (Hns : overall_verdict r <> SLIGHT_REGRESSION).
    { rewrite Hv. apply verdict_without_regressions. }
    split; [exact Hns|].
    cbn [fold_left truthy]. destruct (overall_verdict r); try reflexivity.
    contradiction.
  - destruct (focus_fold_known (result_shot_type r) (area :: rest) [] Hknown)
      as (texts & -> & Hlen & Hts).
    cbn [app]. destruct texts as [|t ts]; [discriminate Hlen|].
    cbn [truthy]. rewrite length_firstn, Hlen. split; [reflexivity|].
    apply List.Forall_forall. intros x Hx.
    apply in_firstn in Hx. revert x Hx. apply List.Forall_forall, Hts.
Qed.

(** **** The feedback on the result of a comparison *)


Lemma compare_metric_changes a b shot vars metric :
  Forall has_change (v_improved vars) /\ Forall has_change (v_regressed vars) ->
  Forall has_change (v_improved (compare_metric a b shot vars metric))
  /\ Forall has_change (v_regressed (compare_metric a b shot vars metric)).
Proof.
  intros [Hi Hr]. unfold compare_metric.
  destruct (scalars a !! metric) as [va|]; [|split; assumption].
  destruct (scalars b !! metric) as [vb|]; [|split; assumption].
  destruct (metric_info !!! metric) as [metric_name unit].
  assert (Hnew : forall c, Forall has_change
            [mkArea metric metric_name (Some c) va vb unit]).
  { intros c. apply List.Forall_cons; [|apply List.Forall_nil].
    unfold has_change. cbn [area_change]. discriminate. }
  destruct (delta_status _); cbn [v_improved v_regressed]; split;
    try assumption; apply List.Forall_app; (split; [assumption | apply Hnew]).
Qed.

Lemma fold_compare_changes a b shot l : forall vars,
  Forall has_change (v_improved vars) /\ Forall has_change (v_regressed vars) ->
  Forall has_change (v_improved (fold_left (compare_metric a b shot) l vars))
  /\ Forall has_change (v_regressed (fold_left (compare_metric a b shot) l vars)).
Proof.
  induction l as [|m l IH]; intros vars H; cbn [fold_left]; [exact H|].
  apply IH, compare_metric_changes, H.
Qed.

Lemma analyze_changes a b :
  Forall has_change (improved_areas (analyze_improvement a b))
  /\ Forall has_change (regressed_areas (analyze_improvement a b)).
Proof.
  destruct (analyze_vars a b) as (_ & -> & -> & _).
  apply fold_compare_changes. cbn. split; constructor.
Qed.

Section WithFormat.

Variable format_0f : Q -> string.
Variable format_1f : Q -> string.

Lemma lines_ok (line : Area -> Result string) (areas : list Area) :
  (forall area, has_change area -> exists text, line area = Ok text) ->
  Forall has_change areas ->
  forall lines, exists lines',
    for_each (append_line line) areas lines = Ok lines'
    /\ length lines' = (length lines + length areas)%nat.
Proof.
  intros Hline. induction 1 as [|area rest Ha _ IH]; intros lines; cbn [for_each].
  - exists lines. split; [reflexivity | cbn; lia].
  - assert (Hstep : exists text,
              append_line line lines area = Ok (lines ++ [text])).
    { unfold append_line. destruct (Hline area Ha) as (text & ->).
      exists text. reflexivity. }
    destruct Hstep as (text & ->). cbn [mbind Result_bind].
    destruct (IH (lines ++ [text])) as (lines' & -> & Hlen).
    exists lines'. split; [reflexivity|].
    rewrite Hlen, length_app. cbn [length]. lia.
Qed.

Lemma improvement_line_ok area :
  has_change area -> exists text, improvement_line format_0f format_1f area = Ok text.
Proof.
  unfold has_change, improvement_line. destruct (area_change area); [|congruence].
  intros _. eexists. reflexivity.
Qed.

Lemma regression_line_ok area :
  has_change area -> exists text, regression_line format_0f format_1f area = Ok text.
Proof.
  unfold has_change, regression_line. destruct (area_change area); [|congruence].
  intros _. eexists. reflexivity.
Qed.

(** X16.  On the result of [analyze_improvement], for any two records,
    [generate_improvement_feedback] raises nothing (every improved and
    every regressed area carries its ['change']), writes one line per
    improved area and one per regressed area, and passes on the focus
    texts and the drills of the two helper functions. *)
Theorem feedback_on_comparison (a b : Metrics) :
  let r := analyze_improvement a b in
  exists fb,
    generate_improvement_feedback format_0f format_1f r = Ok fb
    /\ length (improvements fb) = length (improved_areas r)
    /\ length (regressions fb) = length (regressed_areas r)
    /\ focus_areas fb = _get_focus_recommendations r
    /\ _get_improvement_drills r = Ok (drills fb)
    /\ summary fb = summary_text format_0f r.
Proof.
  intros r. destruct (analyze_changes a b) as [Hi Hr]. fold r in Hi, Hr.
  unfold generate_improvement_feedback. cbv zeta.
  destruct (lines_ok _ _ improvement_line_ok Hi []) as (imp & -> & Himp).
  cbn [mbind Result_bind].
  destruct (lines_ok _ _ regression_line_ok Hr []) as (reg & -> & Hreg).
  cbn [mbind Result_bind].
  destruct (drills_never_raise r) as (d & Hd). rewrite Hd.
  cbn [mbind Result_bind].
  eexists. split; [reflexivity|].
  cbn [improvements regressions focus_areas drills summary length] in *.
  repeat split; assumption.
Qed.

End WithFormat.

(** **** The fallback narrative *)

Lemma filled_truthy {A} (l : list A) (x : A) :
  let l' := if truthy l then l else l ++ [x] in
  truthy l' && (0 <? length l')%nat = true.
Proof. destruct l; reflexivity. Qed.

(** X17.  On the advice of [generate_advice] the fallback narrative always
    takes the first branch of both tests, because the lists of strengths
    and flaws are never empty there: the texts for an empty list are never
    produced. *)
Theorem fallback_narrative_branches (format_1f : Q -> string)
    (random_choice : list string -> string) (metrics : Metrics) :
  _generate_fallback_narrative (generate_advice format_1f random_choice metrics)
  = ("Good effort on your " +:+ default "UNKNOWN" (shot_type metrics)
     +:+ ". Your technique shows good fundamentals. Focus on the areas highlighted above for improvement. Consistent practice will help you develop muscle memory and confidence.")%string.
Proof.
  unfold _generate_fallback_narrative, generate_advice. cbv zeta.
  cbn [strengths flaws advice_shot_type].
  rewrite !filled_truthy. reflexivity.
Qed.

End FeedbackTheory.

(** ** Properties of the overall performance score *)
Module PerformanceTheory.
Import Analysis Spec Examples ComparisonFacts Performance PerformanceFacts.
Import AnalysisTheory ComparisonTheory.

Local Open Scope Q_scope.

Lemma sum_between_app lo hi l s :
  sum_between lo hi l -> lo <= s -> s <= hi -> sum_between lo hi (l ++ [s]).
Proof.
  unfold sum_between. intros [H1 H2] Hlo Hhi.
  rewrite qsum_app, qlen_app. split; lra.
Qed.

Ltac one_score :=
  repeat match goal with
         | |- context [if ?c then _ else _] => destruct c
         end;
  eexists; (split; [reflexivity|]); split; lra.

Lemma elbow_extension_appends : appends_one elbow_extension_score "max_elbow_angle".
Proof.
  intros metrics scores. unfold carries, elbow_extension_score.
  destruct (scalars metrics !! _); [one_score | reflexivity].
Qed.

Lemma head_stability_appends : appends_one head_stability_score "head_movement".
Proof.
  intros metrics scores. unfold carries, head_stability_score.
  destruct (scalars metrics !! _); [one_score | reflexivity].
Qed.

Lemma body_rotation_appends : appends_one body_rotation_score "body_rotation_total".
Proof.
  intros metrics scores. unfold carries, body_rotation_score.
  destruct (scalars metrics !! _); [cbv zeta; one_score | reflexivity].
Qed.

Lemma weight_transfer_appends :
  appends_one weight_transfer_score "weight_transfer_amount".
Proof.
  intros metrics scores. unfold carries, weight_transfer_score.
  destruct (scalars metrics !! _); [cbv zeta; one_score | reflexivity].
Qed.

Lemma block_between block key metrics scores :
  appends_one block key ->
  sum_between 40 100 scores ->
  sum_between 40 100 (block metrics scores)
  /\ (carries metrics key = true -> truthy (block metrics scores) = true)
  /\ (carries metrics key = false -> block metrics scores = scores).
Proof.
  intros Hb Hs. specialize (Hb metrics scores).
  destruct (carries metrics key).
  - destruct Hb as (s & -> & Hlo & Hhi).
    split; [apply sum_between_app; assumption|].
    split; [intros _; destruct scores; reflexivity | discriminate].
  - rewrite Hb. split; [exact Hs|]. split; [discriminate | reflexivity].
Qed.

Lemma truthy_block block key metrics scores :
  appends_one block key ->
  truthy scores = true -> truthy (block metrics scores) = true.
Proof.
  intros Hb Hs. specialize (Hb metrics scores).
  destruct (carries metrics key).
  - destruct Hb as (s & -> & _). destruct scores; reflexivity.
  - rewrite Hb. exact Hs.
Qed.

Lemma mean_between (lo hi : Z) (l : list Q) :
  truthy l = true -> sum_between (inject_Z lo) (inject_Z hi) l ->
  (lo <= round_half_even (qsum l / qlen l) <= hi)%Z.
Proof.
  intros Ht [H1 H2].
  assert (Hpos : 0 < qlen l).
  { destruct l; [discriminate|]. unfold qlen. change 0 with (inject_Z 0).
    rewrite <- Zlt_Qlt. cbn [length]. lia. }
  split.
  - apply round_half_even_lower. apply Qle_shift_div_l; [exact Hpos | exact H1].
  - apply round_half_even_upper. apply Qle_shift_div_r; [exact Hpos | exact H2].
Qed.

(** X18.  [calculate_overall_performance_score] is 0 when the record
    carries none of the four metrics it reads, and lies between 40 and 100
    when it carries at least one, whatever the values and the label. *)
Theorem performance_score_range (metrics : Metrics) :
  if existsb (carries metrics) scored_metrics
  then (40 <= calculate_overall_performance_score metrics <= 100)%Z
  else calculate_overall_performance_score metrics = 0%Z.
Proof.
  unfold calculate_overall_performance_score. cbv zeta.
  assert (H0 : sum_between 40 100 []).
  { unfold sum_between. change (qlen (@nil Q)) with 0. change (qsum []) with 0.
    split; lra. }
  destruct (block_between _ _ metrics [] elbow_extension_appends H0)
    as (H1 & T1 & N1).
  set (s1 := elbow_extension_score metrics []) in *.
  destruct (block_between _ _ metrics s1 head_stability_appends H1)
    as (H2 & T2 & N2).
  set (s2 := head_stability_score metrics s1) in *.
  destruct (block_between _ _ metrics s2 body_rotation_appends H2)
    as (H3 & T3 & N3).
  set (s3 := body_rotation_score metrics s2) in *.
  destruct (block_between _ _ metrics s3 weight_transfer_appends H3)
    as (H4 & T4 & N4).
  set (s4 := weight_transfer_score metrics s3) in *.
  pose proof (truthy_block _ _ metrics s1 head_stability_appends) as P2.
  pose proof (truthy_block _ _ metrics s2 body_rotation_appends) as P3.
  pose proof (truthy_block _ _ metrics s3 weight_transfer_appends) as P4.
  fold s2 in P2. fold s3 in P3. fold s4 in P4.
  unfold scored_metrics. cbn [existsb].
  destruct (carries metrics "max_elbow_angle") eqn:C1;
    [cbn [orb]; rewrite (P4 (P3 (P2 (T1 eq_refl))));
     apply (mean_between 40 100); [auto | exact H4]|].
  destruct (carries metrics "head_movement") eqn:C2;
    [cbn [orb]; rewrite (P4 (P3 (T2 eq_refl)));
     apply (mean_between 40 100); [auto | exact H4]|].
  destruct (carries metrics "body_rotation_total") eqn:C3;
    [cbn [orb]; rewrite (P4 (T3 eq_refl));
     apply (mean_between 40 100); [auto | exact H4]|].
  destruct (carries metrics "weight_transfer_amount") eqn:C4;
    [cbn [orb]; rewrite (T4 eq_refl);
     apply (mean_between 40 100); [auto | exact H4]|].
  cbn [orb]. rewrite (N4 eq_refl), (N3 eq_refl), (N2 eq_refl), (N1 eq_refl).
  reflexivity.
Qed.

(** X19.  A run of an opened capture in which no frame has landmarks (an
    empty video among them) ends with a record whose overall performance
    score is 85: the all-zero record scores 40 for the elbow and 100 for
    the head, the rotation and the weight transfer under DEFENSIVE. *)
Theorem undetected_run_scores_85 (atan2_deg : Q -> Q -> Q)
    (frames : list PoseFrame) (Hnone : Forall undetected frames) :
  exists m, terminal (analyze_cricket_shot atan2_deg (Some frames)) = Some m
    /\ calculate_overall_performance_score m = 85%Z.
Proof.
  exists undetected_record. split.
  - rewrite terminal_analyze, (undetected_run atan2_deg frames Hnone). reflexivity.
  - vm_compute. reflexivity.
Qed.

Lemma undetected_run_scores_85_witness :
  exists m, terminal (analyze_cricket_shot flat_atan2 (Some [None; None])) = Some m
    /\ calculate_overall_performance_score m = 85%Z.
Proof.
  apply (undetected_run_scores_85 flat_atan2 [None; None]).
  repeat constructor.
Defined.

End PerformanceTheory.

(** ** Which findings [generate_advice] reports *)
Module SelectionTheory.
Import Advice AdviceFacts.
Import AnalysisTheory AdviceTheory.

Lemma insert_high {A} (key : A -> nat) (x : A) (l : list A) :
  key x = 0%nat -> insert_by key x l = x :: l.
Proof. intros H. destruct l as [|y ys]; cbn [insert_by]; [|rewrite H]; reflexivity. Qed.

Lemma insert_medium {A} (key : A -> nat) (x : A) (highs mediums : list A) :
  key x = 1%nat ->
  Forall (fun y => key y = 0%nat) highs ->
  Forall (fun y => key y = 1%nat) mediums ->
  insert_by key x (highs ++ mediums) = highs ++ x :: mediums.
Proof.
  intros Hx Hh Hm. induction Hh as [|y ys Hy _ IH]; cbn [app insert_by].
  - destruct Hm as [|z zs Hz _]; cbn [insert_by]; [reflexivity|].
    rewrite Hx, Hz. reflexivity.
  - rewrite Hx, Hy. cbn. rewrite IH. reflexivity.
Qed.

Lemma sort_by_priority (l : list (string * MetricAnalysis * Priority)) :
  sort_by priority_key l
  = List.filter (fun x => (priority_key x =? 0)%nat) l
    ++ List.filter (fun x => (priority_key x =? 1)%nat) l.
Proof.
  induction l as [|x l IH]; [reflexivity|].
  unfold sort_by in *. cbn [fold_right List.filter]. rewrite IH.
  assert (Hkey : priority_key x = 0%nat \/ priority_key x = 1%nat).
  { destruct x as [[? ?] []]; cbn; auto. }
  destruct Hkey as [H|H]; rewrite H; cbn [Nat.eqb].
  - apply insert_high, H.
  - apply insert_medium; [exact H| |];
      apply List.Forall_forall; intros y Hy; apply List.filter_In in Hy;
      destruct Hy as [_ Hy]; apply Nat.eqb_eq in Hy; exact Hy.
Qed.

Lemma collect_flaws_filter items : forall acc,
  fold_left flaw_step items acc
  = acc ++ map with_priority
             (List.filter (fun item => has_status poor item
                                       || has_status needs_improvement item) items).
Proof.
  induction items as [|[metric analysis] rest IH]; intros acc; cbn [fold_left List.filter].
  - cbn. rewrite app_nil_r. reflexivity.
  - rewrite IH. unfold flaw_step.
    change (has_status poor (metric, analysis))
      with (status_eqb (status analysis) poor).
    change (has_status needs_improvement (metric, analysis))
      with (status_eqb (status analysis) needs_improvement).
    destruct (status_eqb (status analysis) poor
              || status_eqb (status analysis) needs_improvement) eqn:E.
    + rewrite <- app_assoc. reflexivity.
    + reflexivity.
Qed.

Lemma filter_map_filter {A B} (f : A -> B) (p : B -> bool) (q r : A -> bool)
    (l : list A) :
  (forall x, q x = true -> p (f x) = r x) ->
  (forall x, r x = true -> q x = true) ->
  List.filter p (map f (List.filter q l)) = map f (List.filter r l).
Proof.
  intros Hp Hr. induction l as [|x l IH]; [reflexivity|].
  cbn [List.filter]. destruct (q x) eqn:Eq.
  - cbn [map List.filter]. rewrite (Hp x Eq).
    destruct (r x); cbn [map]; rewrite IH; reflexivity.
  - destruct (r x) eqn:Er; [rewrite (Hr x Er) in Eq; discriminate|]. exact IH.
Qed.

Lemma sorted_flaws items :
  sort_by priority_key (collect_flaws items) = map with_priority (ranked_flaws items).
Proof.
  unfold collect_flaws, ranked_flaws.
  rewrite collect_flaws_filter, sort_by_priority. cbn [app]. rewrite map_app.
  f_equal; apply filter_map_filter.
  - intros [m a] _. unfold with_priority, has_status. cbn [fst snd].
    destruct (status a); reflexivity.
  - intros x H. rewrite H. reflexivity.
  - intros [m a] Hq. unfold with_priority, has_status in *. cbn [fst snd] in *.
    destruct (status a); try reflexivity; discriminate.
  - intros x H. rewrite H. apply orb_true_r.
Qed.

Section WithRuntime.

Variable format_1f : Q -> string.
Variable random_choice : list string -> string.

Lemma strengths_step_eq shot strengths n metric analysis :
  strengths_step format_1f shot (strengths, n) (metric, analysis)
  = if status_eqb (status analysis) excellent && (n <? 3)%nat
    then (strengths ++ [_get_contextual_feedback format_1f metric analysis shot
                          strength], S n)
    else (strengths, n).
Proof. reflexivity. Qed.

Lemma strengths_loop_filter shot items : forall strengths n,
  n = length strengths ->
  fst (fold_left (strengths_step format_1f shot) items (strengths, n))
  = strengths
    ++ map (fun item => _get_contextual_feedback format_1f (fst item) (snd item)
                          shot strength)
         (firstn (3 - n) (List.filter (has_status excellent) items)).
Proof.
  induction items as [|[metric analysis] rest IH]; intros strengths n Hn;
    cbn [fold_left List.filter].
  - rewrite firstn_nil. cbn. rewrite app_nil_r. reflexivity.
  - rewrite strengths_step_eq.
    change (has_status excellent (metric, analysis))
      with (status_eqb (status analysis) excellent).
    destruct (status_eqb (status analysis) excellent) eqn:E; cbn [andb].
    + destruct (Nat.ltb_spec n 3) as [Hlt|Hge].
      * rewrite IH by (rewrite length_app; cbn [length]; lia).
        replace (3 - n)%nat with (S (3 - S n)) by lia.
        cbn [firstn map fst snd]. rewrite <- app_assoc. reflexivity.
      * rewrite IH by exact Hn.
        replace (3 - n)%nat with 0%nat by lia. reflexivity.
    + apply IH, Hn.
Qed.

(** X20.  Which findings [generate_advice] reports: the strengths are the
    texts of the first three metrics rated excellent, in the order of
    evaluation; the flaws are the texts of the first four flawed metrics
    with the poor ones before those that need improvement, each group in
    the order of evaluation; an empty list is replaced by its one generic
    text. *)
Theorem advice_selection (metrics : Metrics) :
  let shot := default "UNKNOWN"%string (shot_type metrics) in
  let items := _analyze_metrics metrics shot in
  let text kind (item : string * MetricAnalysis) :=
    _get_contextual_feedback format_1f (fst item) (snd item) shot kind in
  let advice := generate_advice format_1f random_choice metrics in
  strengths advice
  = or_generic (map (text strength)
                  (firstn 3 (List.filter (has_status excellent) items)))
      generic_strength
  /\ flaws advice
     = or_generic (map (text flaw) (firstn 4 (ranked_flaws items))) generic_flaw.
Proof.
  intros shot items text advice.
  assert (Hs : strengths (collect_advice format_1f random_choice metrics)
               = map (text strength)
                   (firstn 3 (List.filter (has_status excellent) items))).
  { unfold collect_advice. cbv zeta. cbn [strengths]. unfold strengths_loop.
    fold shot. fold items.
    rewrite (strengths_loop_filter shot items [] 0 eq_refl). reflexivity. }
  assert (Hf : flaws (collect_advice format_1f random_choice metrics)
               = map (text flaw) (firstn 4 (ranked_flaws items))).
  { unfold collect_advice. cbv zeta. cbn [flaws]. fold shot. fold items.
    rewrite sorted_flaws, firstn_map, map_map.
    apply map_ext. intros [m a]. reflexivity. }
  subst advice. unfold generate_advice. cbv zeta. cbn [strengths flaws].
  rewrite Hs, Hf. unfold or_generic.
  split; match goal with |- context [truthy ?l] => destruct l end; reflexivity.
Qed.

End WithRuntime.

End SelectionTheory.
